(** * Weather fetch / cache / parse pipeline

    A shallow embedding of [weather-analysis/src/data_fetcher.py]
    (class [UniversalWeatherFetcher]) and of the part of
    [weather-analysis/config/config.py] it reads.

    - Python values coming from JSON are the inductive type [value].
    - A Python [float] is represented by the rational it denotes; payload
      numbers are finite, and on finite doubles [<] and [>] agree with the
      order of the rationals.  [calculate_comfort_index], which can be
      called with any float, takes a [pyfloat]: a rational, an infinity or
      NaN.
    - [datetime] objects are naive local times, kept as a number of
      microseconds; the host's zone gives the offset from UTC in force at
      each moment, so that it can change (daylight saving).
    - The cache directory, the clock, the remote server and the disk are
      the fields of a [world]; a fetcher method is a function from a world
      to an [outcome]: a result (value or raised exception), the world it
      leaves, and the trace of the effects it performed. *)

From Stdlib Require Import ZArith QArith String Ascii List Lia Lqa.
From stdpp Require Import base gmap strings list pretty.

Set Warnings "-register-all".

Open Scope string_scope.
Open Scope list_scope.
Open Scope Z_scope.

(** ** Python values and exceptions *)

Inductive value : Type :=
| VNone
| VBool (b : bool)
| VInt (z : Z)
| VFloat (q : Q)
| VStr (s : string)
| VList (l : list value)
| VDict (d : list (string * value)).

Inductive exn_kind : Type :=
| KeyError | IndexError | TypeError | AttributeError | ValueError
| JSONDecodeError | OSError | RequestException | OverflowError.

Record exn : Type := Exn { exn_type : exn_kind; exn_msg : string }.

Inductive result (A : Type) : Type :=
| Ok (a : A)
| Raise (e : exn).
Arguments Ok {A} a.
Arguments Raise {A} e.

Definition rbind {A B} (r : result A) (f : A -> result B) : result B :=
  match r with
  | Ok a => f a
  | Raise e => Raise e
  end.

Notation "x <~ r ;; k" := (rbind r (fun x => k))
  (at level 100, r at next level, right associativity).

(** [bool(v)]: the truth value Python gives to [v] in [if v:] and [v or w]. *)
Definition truthy (v : value) : bool :=
  match v with
  | VNone => false
  | VBool b => b
  | VInt z => negb (Z.eqb z 0)
  | VFloat q => negb (Z.eqb (Qnum q) 0)
  | VStr s => negb (String.eqb s "")
  | VList l => match l with [] => false | _ => true end
  | VDict d => match d with [] => false | _ => true end
  end.

(** A [str] argument whose default is [None]. *)
Definition str_or (s : option string) (dflt : string) : string :=
  match s with
  | Some x => if String.eqb x "" then dflt else x
  | None => dflt
  end.

(** ** Dictionaries, lists and subscripts *)

Fixpoint assoc (k : string) (d : list (string * value)) : option value :=
  match d with
  | [] => None
  | (k', v) :: d' => if String.eqb k k' then Some v else assoc k d'
  end.

(** [v[k]] for a string key. *)
Definition getitem (v : value) (k : string) : result value :=
  match v with
  | VDict d =>
      match assoc k d with
      | Some x => Ok x
      | None => Raise (Exn KeyError k)
      end
  | _ => Raise (Exn TypeError "indices must be integers or the object is not subscriptable")
  end.

(** The bytes of the first code point of a UTF-8 string. *)
Definition is_continuation (c : ascii) : bool :=
  let n := Z.of_nat (nat_of_ascii c) in (128 <=? n) && (n <? 192).

Fixpoint take_continuation (s : string) : string :=
  match s with
  | String c r => if is_continuation c then String c (take_continuation r) else ""
  | EmptyString => ""
  end.

(** [v[0]]. *)
Definition getitem0 (v : value) : result value :=
  match v with
  | VList (x :: _) => Ok x
  | VList [] => Raise (Exn IndexError "list index out of range")
  | VStr (String c r) => Ok (VStr (String c (take_continuation r)))
  | VStr EmptyString => Raise (Exn IndexError "string index out of range")
  | VDict _ => Raise (Exn KeyError "0")
  | _ => Raise (Exn TypeError "object is not subscriptable")
  end.

(** [v.get(k, dflt)]. *)
Definition dict_get (v : value) (k : string) (dflt : value) : result value :=
  match v with
  | VDict d => Ok (default dflt (assoc k d))
  | _ => Raise (Exn AttributeError "object has no attribute 'get'")
  end.

(** ** Numbers *)

Definition Qltb (x y : Q) : bool := negb (Qle_bool y x).

(** The number a value stands for in an ordering comparison, if any
    ([bool] is a subclass of [int]). *)
Definition as_number (v : value) : option Q :=
  match v with
  | VBool b => Some (inject_Z (if b then 1 else 0))
  | VInt z => Some (inject_Z z)
  | VFloat q => Some q
  | _ => None
  end.

(** Nearest integer, ties to the even one. *)
Definition round_half_even (q : Q) : Z :=
  let n := Qnum q in
  let d := Zpos (Qden q) in
  let fl := n / d in
  let r2 := 2 * (n mod d) in
  if r2 <? d then fl
  else if d <? r2 then fl + 1
  else if Z.even fl then fl else fl + 1.

(** [round(v, 1)]: an [int] is returned as it is; for a [float], CPython
    rounds the exact value of the double correctly to one decimal,
    half-way cases to even, which is [n/10] below (the double returned is
    the one nearest to it). *)
Definition round1 (v : value) : result value :=
  match v with
  | VBool b => Ok (VInt (if b then 1 else 0))
  | VInt z => Ok (VInt z)
  | VFloat q => Ok (VFloat (round_half_even (q * 10) # 10))
  | _ => Raise (Exn TypeError "type doesn't define __round__ method")
  end.

(** ** calculate_comfort_index *)

(** A Python float: a number, an infinity or NaN ([json.load] and
    [response.json()] give all of them); an [int] is a [Finite]. *)
Inductive pyfloat : Type :=
| Finite (q : Q)
| PosInf
| NegInf
| NaN.

Coercion Finite : Q >-> pyfloat.

(** [x < y] and [x <= y] on floats ([x > y] is [y < x]): every
    comparison with NaN is false. *)
Definition float_ltb (x y : pyfloat) : bool :=
  match x, y with
  | NaN, _ | _, NaN => false
  | Finite a, Finite b => Qltb a b
  | NegInf, (Finite _ | PosInf) => true
  | Finite _, PosInf => true
  | _, _ => false
  end.

Definition float_leb (x y : pyfloat) : bool :=
  match x, y with
  | NaN, _ | _, NaN => false
  | Finite a, Finite b => Qle_bool a b
  | NegInf, _ => true
  | _, PosInf => true
  | _, _ => false
  end.

Arguments float_ltb (x y)%_Q.
Arguments float_leb (x y)%_Q.

(** The three local variables of [calculate_comfort_index], as the
    function assigns them. *)
Definition temp_score (temp : pyfloat) : string :=
  if float_ltb temp (Finite 0) then "严寒"
  else if float_ltb temp (Finite 10) then "寒冷"
  else if float_ltb temp (Finite 18) then "凉爽"
  else if float_ltb temp (Finite 26) then "舒适"
  else if float_ltb temp (Finite 32) then "温暖"
  else "炎热".

Definition humidity_adj (humidity : pyfloat) : string :=
  if float_ltb (Finite 85) humidity then "潮湿"
  else if float_ltb humidity (Finite 30) then "干燥"
  else "适中".

Definition wind_adj (wind_speed : pyfloat) : string :=
  if float_ltb (Finite 10) wind_speed then "大风"
  else if float_ltb (Finite 5) wind_speed then "有风"
  else "微风".

Definition calculate_comfort_index (temp humidity wind_speed : pyfloat) : string :=
  let temp_score := temp_score temp in
  let humidity_adj := humidity_adj humidity in
  let wind_adj := wind_adj wind_speed in
  if String.eqb temp_score "舒适" && String.eqb humidity_adj "适中" then
    "非常舒适"
  else if existsb (String.eqb temp_score) ["温暖"; "凉爽"]
          && negb (String.eqb humidity_adj "潮湿") then
    "较为舒适"
  else
    temp_score +:+ humidity_adj.
Arguments calculate_comfort_index (temp humidity wind_speed)%_Q.

(** The call as [parse_weather_data] makes it, on values of any type: a
    comparison of a non-number with an [int] raises [TypeError]. *)
Definition comfort_of_values (temp humidity wind_speed : value) : result value :=
  match as_number temp, as_number humidity, as_number wind_speed with
  | Some t, Some h, Some w => Ok (VStr (calculate_comfort_index t h w))
  | _, _, _ => Raise (Exn TypeError "'<' not supported between instances")
  end.

(** The rule table in the words of the specification: bands and classes
    first, then the combination rule. *)
Module Spec.

Inductive temp_band := SevereCold | Cold | Cool | Comfortable | Warm | Hot.
Inductive humidity_class := Dry | Moderate | Humid.
Inductive wind_class := Light | Breezy | Strong.

Definition band_of (t : pyfloat) : temp_band :=
  if float_ltb t (Finite 0) then SevereCold
  else if float_ltb t (Finite 10) then Cold
  else if float_ltb t (Finite 18) then Cool
  else if float_ltb t (Finite 26) then Comfortable
  else if float_ltb t (Finite 32) then Warm
  else Hot.

Definition humidity_of (h : pyfloat) : humidity_class :=
  if float_ltb h (Finite 30) then Dry
  else if float_leb h (Finite 85) then Moderate
  else Humid.

Definition wind_of (w : pyfloat) : wind_class :=
  if float_leb w (Finite 5) then Light
  else if float_leb w (Finite 10) then Breezy
  else Strong.

Definition band_label (b : temp_band) : string :=
  match b with
  | SevereCold => "严寒" | Cold => "寒冷" | Cool => "凉爽"
  | Comfortable => "舒适" | Warm => "温暖" | Hot => "炎热"
  end.

Definition humidity_label (h : humidity_class) : string :=
  match h with Dry => "干燥" | Moderate => "适中" | Humid => "潮湿" end.

Definition wind_label (w : wind_class) : string :=
  match w with Light => "微风" | Breezy => "有风" | Strong => "大风" end.

Definition comfort_rating (t h : pyfloat) : string :=
  match band_of t, humidity_of h with
  | Comfortable, Moderate => "非常舒适"
  | (Warm | Cool), (Dry | Moderate) => "较为舒适"
  | b, c => band_label b +:+ humidity_label c
  end.

End Spec.

(** ** Dates and times

    A [datetime] is a naive local time: microseconds since 1970-01-01
    00:00:00 on the local wall clock.  A [timedelta] is a number of
    microseconds. *)

Definition datetime := Z.

Definition US_PER_SECOND : Z := 1000000.
Definition US_PER_DAY : Z := 86400 * US_PER_SECOND.

(** Proleptic Gregorian (year, month, day) of a day number counted from
    1970-01-01. *)
Definition civil_from_days (z0 : Z) : Z * Z * Z :=
  let z := z0 + 719468 in
  let era := z / 146097 in
  let doe := z - era * 146097 in
  let yoe := (doe - doe / 1460 + doe / 36524 - doe / 146096) / 365 in
  let y := yoe + era * 400 in
  let doy := doe - (365 * yoe + yoe / 4 - yoe / 100) in
  let mp := (5 * doy + 2) / 153 in
  let d := doy - (153 * mp + 2) / 5 + 1 in
  let m := if mp <? 10 then mp + 3 else mp - 9 in
  (if m <=? 2 then y + 1 else y, m, d).

Definition date_of (t : datetime) : Z * Z * Z := civil_from_days (t / US_PER_DAY).
Definition year_of (t : datetime) : Z := fst (fst (date_of t)).
Definition hour_of (t : datetime) : Z := (t mod US_PER_DAY) / (3600 * US_PER_SECOND).
Definition minute_of (t : datetime) : Z := ((t mod US_PER_DAY) / (60 * US_PER_SECOND)) mod 60.
Definition second_of (t : datetime) : Z := ((t mod US_PER_DAY) / US_PER_SECOND) mod 60.

(** [datetime.MINYEAR .. datetime.MAXYEAR]. *)
Definition valid_datetime (t : datetime) : bool :=
  (1 <=? year_of t) && (year_of t <=? 9999).

(** [datetime.min] and [datetime.max]: 0001-01-01 00:00:00 and
    9999-12-31 23:59:59.999999. *)
Definition datetime_min : datetime := -719162 * US_PER_DAY.
Definition datetime_max : datetime := 2932897 * US_PER_DAY - 1.

Definition digit (n : Z) : ascii := ascii_of_nat (48 + Z.to_nat (n mod 10)).

(** [n] in decimal on exactly [w] digits, zero padded. *)
Fixpoint zfill (w : nat) (n : Z) : string :=
  match w with
  | O => ""
  | S w' => zfill w' (n / 10) +:+ String (digit n) ""
  end.

(** [t.strftime('%H:%M:%S')] *)
Definition strftime_HMS (t : datetime) : string :=
  zfill 2 (hour_of t) +:+ ":" +:+ zfill 2 (minute_of t) +:+ ":" +:+ zfill 2 (second_of t).

(** [%Y] as the C library of the host gives it: the year of a
    [datetime], from 1 to 9999, without padding. *)
Definition strftime_Y (y : Z) : string :=
  if y <? 10 then zfill 1 y
  else if y <? 100 then zfill 2 y
  else if y <? 1000 then zfill 3 y
  else zfill 4 y.

(** [t.strftime('%Y%m%d')] *)
Definition strftime_Ymd (t : datetime) : string :=
  let '(y, m, d) := date_of t in strftime_Y y +:+ zfill 2 m +:+ zfill 2 d.

(** [t.strftime('%Y-%m-%d %H:%M:%S')] *)
Definition strftime_full (t : datetime) : string :=
  let '(y, m, d) := date_of t in
  strftime_Y y +:+ "-" +:+ zfill 2 m +:+ "-" +:+ zfill 2 d +:+ " " +:+ strftime_HMS t.

(** [timedelta(hours=h)], when it can be built (see [timedelta_ok]). *)
Definition timedelta_hours (h : Z) : Z := h * 3600 * US_PER_SECOND.

(** [timedelta(hours=h)] can be built: a [timedelta] holds at most
    999999999 days either way, beyond which the constructor raises
    [OverflowError].  The cache lookup is modelled for the hours that
    pass this test; what is stated of the freshness window, and of the
    exceptions that leave a cached method, is stated under it. *)
Definition timedelta_ok (h : Z) : bool :=
  (-999999999 <=? h / 24) && (h / 24 <=? 999999999).

(** ** Configuration (config/config.py) *)

Record WeatherConfig : Type := {
  CITY : string;
  COUNTRY : string;
  LAT : Q;
  LON : Q;
  API_KEY : option string;
  USE_CACHE : bool;
  CACHE_HOURS : Z;
  FORECAST_DAYS : Z;
  TIMEZONE : string;
  LANGUAGE : string;
  CITY_DISPLAY_NAME : string
}.

(** The table [_load_weather_mappings] stores in [config.WEATHER_MAP]. *)
Definition WEATHER_MAP : gmap string string :=
  list_to_map
    [("Clear", "晴朗"); ("Clouds", "多云"); ("Rain", "降雨"); ("Snow", "降雪");
     ("Thunderstorm", "雷暴"); ("Drizzle", "毛毛雨"); ("Mist", "薄雾");
     ("Fog", "雾"); ("Haze", "霾"); ("Dust", "沙尘"); ("Smoke", "烟雾");
     ("Ash", "火山灰"); ("Squall", "飑"); ("Tornado", "龙卷风")].

(** What the fetcher takes from the interpreter and the host: the MD5
    hex digest of [hashlib], the text [str] gives a float, the rules of
    the local zone -- the offset of local time from UTC, in seconds, in
    force at a POSIX time given in seconds -- and the global [config]. *)
Record host : Type := {
  md5_hexdigest : string -> string;
  str_float : Q -> string;
  utc_offset : Z -> Z;
  config : WeatherConfig
}.

(** The naive local time of a POSIX time in microseconds, as
    [localtime] gives it. *)
Definition local_time (h : host) (us : Z) : datetime :=
  us + utc_offset h (us / US_PER_SECOND) * US_PER_SECOND.

(** The seconds a [time_t] of 64 bits holds; a float is compared as a
    double, so that 2^63 passes. *)
Definition in_time_t (v : value) (secs : Z) : bool :=
  (- 2 ^ 63 <=? secs)
  && (secs <=? match v with VFloat _ => 2 ^ 63 | _ => 2 ^ 63 - 1 end).

(** The years [localtime] can return: [tm_year], the year less 1900, is
    an [int] of 32 bits. *)
Definition in_tm_year (y : Z) : bool :=
  (- 2 ^ 31 <=? y - 1900) && (y - 1900 <=? 2 ^ 31 - 1).

(** [datetime.fromtimestamp(v)]: a float is rounded to the microsecond;
    a time beyond [time_t] raises [OverflowError], a year [localtime]
    cannot return raises [OSError], and a year outside 1..9999 raises
    [ValueError] -- the year of the time itself and the years of the times
    probed to tell a repeated hour: the time a day earlier and, when the
    offset from UTC went down during that day, the time earlier by that
    much. *)
Definition fromtimestamp (h : host) (v : value) : result datetime :=
  match as_number v with
  | Some q =>
      let us := round_half_even (q * inject_Z US_PER_SECOND) in
      let secs := us / US_PER_SECOND in
      let t := local_time h us in
      let transition := utc_offset h secs - utc_offset h (secs - 86400) in
      if negb (in_time_t v secs) then
        Raise (Exn OverflowError "timestamp out of range for platform time_t")
      else if negb (in_tm_year (year_of t)) then
        Raise (Exn OSError "Value too large for defined data type")
      else if valid_datetime t
              && valid_datetime (local_time h (us - US_PER_DAY))
              && ((0 <=? transition)
                  || valid_datetime (local_time h (us + transition * US_PER_SECOND)))
      then Ok t
      else Raise (Exn ValueError "year is out of range")
  | None => Raise (Exn TypeError "an integer is required")
  end.

(** [WEATHER_MAP.get(k, k)] *)
Definition weather_map_get (k : value) : result value :=
  match k with
  | VStr s => Ok (VStr (default s (WEATHER_MAP !! s)))
  | VList _ | VDict _ => Raise (Exn TypeError "unhashable type")
  | _ => Ok k
  end.

(** ** parse_weather_data *)

Definition parse_weather_data (h : host) (data : value)
    (city_display_name : option string) : result value :=
  if negb (truthy data) then Ok VNone else
  display_name <~
    (match city_display_name with
     | Some s => if String.eqb s "" then dict_get data "name" (VStr "未知城市")
                 else Ok (VStr s)
     | None => dict_get data "name" (VStr "未知城市")
     end) ;;
  weather <~ getitem data "weather" ;;
  weather0 <~ getitem0 weather ;;
  weather_en <~ getitem weather0 "main" ;;
  weather_zh <~ weather_map_get weather_en ;;
  actual_name <~ dict_get data "name" (VStr "未知") ;;
  sys <~ getitem data "sys" ;;
  country <~ getitem sys "country" ;;
  dt <~ getitem data "dt" ;;
  updated <~ fromtimestamp h dt ;;
  weather' <~ getitem data "weather" ;;
  weather0' <~ getitem0 weather' ;;
  description <~ getitem weather0' "description" ;;
  main <~ getitem data "main" ;;
  temp <~ getitem main "temp" ;;
  temp_r <~ round1 temp ;;
  feels_like <~ getitem main "feels_like" ;;
  feels_like_r <~ round1 feels_like ;;
  temp_max <~ getitem main "temp_max" ;;
  temp_max_r <~ round1 temp_max ;;
  temp_min <~ getitem main "temp_min" ;;
  temp_min_r <~ round1 temp_min ;;
  humidity <~ getitem main "humidity" ;;
  pressure <~ getitem main "pressure" ;;
  wind <~ getitem data "wind" ;;
  speed <~ getitem wind "speed" ;;
  deg <~ dict_get wind "deg" (VStr "无数据") ;;
  clouds <~ getitem data "clouds" ;;
  clouds_all <~ getitem clouds "all" ;;
  visibility <~ dict_get data "visibility" (VStr "无数据") ;;
  sunrise <~ getitem sys "sunrise" ;;
  sunrise_t <~ fromtimestamp h sunrise ;;
  sunset <~ getitem sys "sunset" ;;
  sunset_t <~ fromtimestamp h sunset ;;
  timezone <~ getitem data "timezone" ;;
  let parsed :=
    [("城市", display_name);
     ("实际城市名", actual_name);
     ("国家", country);
     ("更新时间", VStr (strftime_full updated));
     ("天气状况", weather_zh);
     ("详细描述", description);
     ("当前温度(℃)", temp_r);
     ("体感温度(℃)", feels_like_r);
     ("最高温度(℃)", temp_max_r);
     ("最低温度(℃)", temp_min_r);
     ("湿度(%)", humidity);
     ("气压(hPa)", pressure);
     ("风速(m/s)", speed);
     ("风向(°)", deg);
     ("云量(%)", clouds_all);
     ("能见度(m)", visibility);
     ("日出时间", VStr (strftime_HMS sunrise_t));
     ("日落时间", VStr (strftime_HMS sunset_t));
     ("时区偏移", timezone);
     ("数据来源", VStr "OpenWeatherMap")] in
  comfort <~ comfort_of_values temp_r humidity speed ;;
  Ok (VDict (parsed ++ [("舒适度评级", comfort)])).

(** ** The world of the fetcher: clock, cache directory, server, disk *)

(** What a cache file holds: text [json.load] accepts, or anything else. *)
Inductive file_body : Type :=
| Json (v : value)
| Corrupt.

Record file : Type := File { st_mtime : Z; contents : file_body }.

Record request : Type := Request {
  url : string;
  params : list (string * value);
  timeout : Z
}.

(** What [session.get] does: a response with its status code and the
    value [response.json()] gives ([None] when the body is not JSON), or a
    raised network error (timeout, DNS failure, connection reset). *)
Inductive http_outcome : Type :=
| Response (status_code : Z) (body : option value)
| NetworkError (msg : string).

Inductive event : Type :=
| EvPrint (s : string)
| EvStat (name : string)
| EvRead (name : string)
| EvWrite (name : string) (v : value)
| EvRequest (at_clock : Z) (r : request) (o : http_outcome)
| EvSleep (us : Z).

(** [clock] is POSIX time in microseconds; [cache_dir] maps the names of
    the files under [data/raw] to their content; [server] answers a
    request made at a given time.  The clock and the modification times
    of the files are taken to be times a [datetime] can hold. *)
Record world : Type := World {
  clock : Z;
  cache_dir : gmap string file;
  server : Z -> request -> http_outcome;
  disk_writable : bool
}.

Record outcome (A : Type) : Type := Outcome {
  res : result A;
  final : world;
  trace : list event
}.
Arguments Outcome {A} res final trace.
Arguments res {A} o.
Arguments final {A} o.
Arguments trace {A} o.

Definition M (A : Type) : Type := world -> outcome A.

Definition ret {A} (a : A) : M A := fun w => Outcome (Ok a) w [].

Definition raise {A} (e : exn) : M A := fun w => Outcome (Raise e) w [].

Definition bind {A B} (m : M A) (f : A -> M B) : M B := fun w =>
  match m w with
  | Outcome (Ok a) w1 tr1 =>
      match f a w1 with
      | Outcome r w2 tr2 => Outcome r w2 (tr1 ++ tr2)
      end
  | Outcome (Raise e) w1 tr1 => Outcome (Raise e) w1 tr1
  end.

(** [try: m  except Exception as e: handler e] *)
Definition try_except {A} (m : M A) (handler : exn -> M A) : M A := fun w =>
  match m w with
  | Outcome (Ok a) w1 tr1 => Outcome (Ok a) w1 tr1
  | Outcome (Raise e) w1 tr1 =>
      match handler e w1 with
      | Outcome r w2 tr2 => Outcome r w2 (tr1 ++ tr2)
      end
  end.

Definition lift {A} (r : result A) : M A := fun w => Outcome r w [].

Notation "x <- m ;; k" := (bind m (fun x => k))
  (at level 100, m at next level, right associativity).
Notation "m ;;; k" := (bind m (fun _ => k))
  (at level 100, right associativity).

Definition print (s : string) : M unit := fun w => Outcome (Ok tt) w [EvPrint s].

(** [datetime.now()] *)
Definition now (h : host) : M datetime := fun w =>
  Outcome (Ok (local_time h (clock w))) w [].

(** [path.exists()] *)
Definition path_exists (name : string) : M bool := fun w =>
  Outcome (Ok (match cache_dir w !! name with Some _ => true | None => false end))
          w [EvStat name].

(** [datetime.fromtimestamp(path.stat().st_mtime)] *)
Definition stat_mtime (h : host) (name : string) : M datetime := fun w =>
  match cache_dir w !! name with
  | Some f => Outcome (Ok (local_time h (st_mtime f))) w [EvStat name]
  | None => Outcome (Raise (Exn OSError "No such file or directory")) w [EvStat name]
  end.

(** [with open(path, 'r', encoding='utf-8') as f: json.load(f)] *)
Definition json_load (name : string) : M value := fun w =>
  match cache_dir w !! name with
  | Some (File _ (Json v)) => Outcome (Ok v) w [EvRead name]
  | Some (File _ Corrupt) =>
      Outcome (Raise (Exn JSONDecodeError "Expecting value")) w [EvRead name]
  | None => Outcome (Raise (Exn OSError "No such file or directory")) w [EvRead name]
  end.

(** [with open(path, 'w', encoding='utf-8') as f: json.dump(data, f, ...)];
    [disk_writable] tells whether [open] succeeds: when it does not, it
    raises and nothing is changed.  A write that breaks off once the file
    is open (a full disk, text that cannot be encoded) raises as well, and
    leaves a truncated file; this case is left out, so what is stated of
    the content of a file after a call is stated of writes that complete
    and of writes that do not begin. *)
Definition json_dump (name : string) (data : value) : M unit := fun w =>
  if disk_writable w then
    Outcome (Ok tt)
      (World (clock w) (<[name := File (clock w) (Json data)]> (cache_dir w))
             (server w) (disk_writable w))
      [EvWrite name data]
  else Outcome (Raise (Exn OSError "Permission denied")) w [].

(** [session.get(url, params=params, timeout=timeout)]; the result is the
    response object: its status code and what [.json()] will give. *)
Definition session_get (u : string) (ps : list (string * value)) (tmo : Z)
  : M (Z * option value) := fun w =>
  let r := Request u ps tmo in
  match server w (clock w) r with
  | Response code body =>
      Outcome (Ok (code, body)) w [EvRequest (clock w) r (Response code body)]
  | NetworkError msg =>
      Outcome (Raise (Exn RequestException msg)) w
              [EvRequest (clock w) r (NetworkError msg)]
  end.

(** [response.json()] *)
Definition response_json (response : Z * option value) : M value :=
  match snd response with
  | Some v => ret v
  | None => raise (Exn ValueError "Expecting value")
  end.

(** [time.sleep(us / 1e6)] *)
Definition sleep (us : Z) : M unit := fun w =>
  Outcome (Ok tt)
    (World (clock w + us) (cache_dir w) (server w) (disk_writable w))
    [EvSleep us].

(** The environment lets time pass between two calls. *)
Definition elapse (us : Z) (w : world) : world :=
  World (clock w + us) (cache_dir w) (server w) (disk_writable w).

(** ** UniversalWeatherFetcher *)

Definition base_url : string := "https://api.openweathermap.org/data/2.5".

Definition api_key (h : host) : value :=
  match API_KEY (config h) with
  | Some k => VStr k
  | None => VNone
  end.

(** [f"{city}_{endpoint}_{date_str}"] *)
Definition key_string (city endpoint date_str : string) : string :=
  city +:+ "_" +:+ endpoint +:+ "_" +:+ date_str.

(** [f"{cache_key}_{endpoint}.json"], relative to [cache_dir]. *)
Definition cache_file_name (cache_key endpoint : string) : string :=
  cache_key +:+ "_" +:+ endpoint +:+ ".json".

Definition _get_cache_key (h : host) (city endpoint : string) : M string :=
  t <- now h ;;
  let date_str := strftime_Ymd t in
  ret (substring 0 8 (md5_hexdigest h (key_string city endpoint date_str))).

Definition _load_from_cache (h : host) (cache_key endpoint : string) : M value :=
  if negb (USE_CACHE (config h)) then ret VNone else
  let cache_file := cache_file_name cache_key endpoint in
  present <- path_exists cache_file ;;
  if present then
    t <- now h ;;
    mtime <- stat_mtime h cache_file ;;
    let file_age := t - mtime in
    if file_age <? timedelta_hours (CACHE_HOURS (config h)) then
      print ("📂 使用缓存数据 (" +:+ cache_key +:+ ")") ;;;
      json_load cache_file
    else ret VNone
  else ret VNone.

Definition _save_to_cache (cache_key endpoint : string) (data : value) : M unit :=
  json_dump (cache_file_name cache_key endpoint) data.

Definition get_current_weather (h : host) (city country : option string) : M value :=
  let target_city := str_or city (CITY (config h)) in
  let target_country := str_or country (COUNTRY (config h)) in
  cache_key <- _get_cache_key h target_city "current" ;;
  cached_data <- _load_from_cache h cache_key "current" ;;
  if truthy cached_data then ret cached_data else
  let ps := [("q", VStr (target_city +:+ "," +:+ target_country));
             ("appid", api_key h);
             ("units", VStr "metric");
             ("lang", VStr (LANGUAGE (config h)))] in
  try_except
    (print ("🌤️  正在获取 " +:+ target_city +:+ " 的实时天气...") ;;;
     response <- session_get (base_url +:+ "/weather") ps 10 ;;
     if fst response =? 200 then
       data <- response_json response ;;
       _save_to_cache cache_key "current" data ;;;
       print ("✅ " +:+ target_city +:+ " 数据获取成功！") ;;;
       ret data
     else if fst response =? 404 then
       print ("❌ 未找到城市: " +:+ target_city +:+ ", " +:+ target_country) ;;;
       ret VNone
     else
       print ("❌ 请求失败，状态码: " +:+ pretty (fst response)) ;;;
       ret VNone)
    (fun e => print ("❌ 网络错误: " +:+ exn_msg e) ;;; ret VNone).

(** [days or config.FORECAST_DAYS] *)
Definition int_or (n : option Z) (dflt : Z) : Z :=
  match n with
  | Some x => if x =? 0 then dflt else x
  | None => dflt
  end.

Definition get_forecast (h : host) (city country : option string) (days : option Z)
  : M value :=
  let target_city := str_or city (CITY (config h)) in
  let target_country := str_or country (COUNTRY (config h)) in
  let target_days := int_or days (FORECAST_DAYS (config h)) in
  cache_key <- _get_cache_key h (target_city +:+ "_forecast") "forecast" ;;
  cached_data <- _load_from_cache h cache_key "forecast" ;;
  if truthy cached_data then ret cached_data else
  let ps := [("q", VStr (target_city +:+ "," +:+ target_country));
             ("appid", api_key h);
             ("units", VStr "metric");
             ("lang", VStr (LANGUAGE (config h)));
             ("cnt", VInt (target_days * 8))] in
  try_except
    (print ("📅 正在获取 " +:+ target_city +:+ " 的" +:+ pretty target_days
            +:+ "天天气预报...") ;;;
     response <- session_get (base_url +:+ "/forecast") ps 15 ;;
     if fst response =? 200 then
       data <- response_json response ;;
       _save_to_cache cache_key "forecast" data ;;;
       ret data
     else
       print ("❌ 预报请求失败: " +:+ pretty (fst response)) ;;;
       ret VNone)
    (fun e => print ("❌ 网络错误: " +:+ exn_msg e) ;;; ret VNone).

(** [lat or config.LAT] *)
Definition float_or (x : option Q) (dflt : Q) : Q :=
  match x with
  | Some q => if Qnum q =? 0 then dflt else q
  | None => dflt
  end.

Definition get_weather_by_coordinates (h : host) (lat lon : option Q) : M value :=
  let target_lat := float_or lat (LAT (config h)) in
  let target_lon := float_or lon (LON (config h)) in
  let ps := [("lat", VFloat target_lat);
             ("lon", VFloat target_lon);
             ("appid", api_key h);
             ("units", VStr "metric");
             ("lang", VStr (LANGUAGE (config h)))] in
  try_except
    (print ("📍 正在通过坐标获取天气 (" +:+ str_float h target_lat +:+ ", "
            +:+ str_float h target_lon +:+ ")...") ;;;
     response <- session_get (base_url +:+ "/weather") ps 10 ;;
     if fst response =? 200 then
       response_json response
     else
       print ("❌ 坐标请求失败: " +:+ pretty (fst response)) ;;;
       ret VNone)
    (fun e => print ("❌ 网络错误: " +:+ exn_msg e) ;;; ret VNone).

(** ** compare_cities *)

(** [f"{city}"] for an optional string. *)
Definition str_opt (s : option string) : string :=
  match s with
  | Some x => x
  | None => "None"
  end.

(** The dictionary appended to [comparisons]. *)
Definition comparison_row (parsed : value) : result value :=
  name <~ getitem parsed "城市" ;;
  temp <~ getitem parsed "当前温度(℃)" ;;
  feels <~ getitem parsed "体感温度(℃)" ;;
  cond <~ getitem parsed "天气状况" ;;
  humidity <~ getitem parsed "湿度(%)" ;;
  speed <~ getitem parsed "风速(m/s)" ;;
  comfort <~ getitem parsed "舒适度评级" ;;
  Ok (VDict [("城市", name);
             ("温度(℃)", temp);
             ("体感温度(℃)", feels);
             ("天气状况", cond);
             ("湿度(%)", humidity);
             ("风速(m/s)", speed);
             ("舒适度", comfort)]).

(** [time.sleep(1.1)] *)
Definition RATE_LIMIT_DELAY : Z := 1100000.

(** The body of the [for] loop, with the list [comparisons] it extends. *)
Definition city_of (city_info : gmap string (option string)) : option string :=
  default None (city_info !! "city").

Definition country_of (city_info : gmap string (option string)) : option string :=
  default (Some "CN") (city_info !! "country").

Definition display_name_of (city_info : gmap string (option string))
  : option string :=
  default (city_of city_info) (city_info !! "display_name").

Definition compare_step (h : host) (city_info : gmap string (option string))
    (comparisons : list value) : M (list value) :=
  let city := city_of city_info in
  let country := country_of city_info in
  let display_name := display_name_of city_info in
  print ("正在获取 " +:+ str_opt city +:+ " 的数据...") ;;;
  data <- get_current_weather h city country ;;
  comparisons' <-
    (if truthy data then
       parsed <- lift (parse_weather_data h data display_name) ;;
       if truthy parsed then
         row <- lift (comparison_row parsed) ;;
         ret (comparisons ++ [row])%list
       else ret comparisons
     else ret comparisons) ;;
  sleep RATE_LIMIT_DELAY ;;;
  ret comparisons'.

Fixpoint compare_loop (h : host) (cities : list (gmap string (option string)))
    (comparisons : list value) : M (list value) :=
  match cities with
  | [] => ret comparisons
  | city_info :: rest =>
      comparisons' <- compare_step h city_info comparisons ;;
      compare_loop h rest comparisons'
  end.

(** The rows of the data frame returned, in order. *)
Definition compare_cities (h : host) (cities : list (gmap string (option string)))
  : M (list value) :=
  compare_loop h cities [].

(** ** Observations on traces *)

Definition is_request (e : event) : bool :=
  match e with EvRequest _ _ _ => true | _ => false end.

Definition is_file_access (e : event) : bool :=
  match e with EvStat _ | EvRead _ | EvWrite _ _ => true | _ => false end.

Definition is_write (e : event) : bool :=
  match e with EvWrite _ _ => true | _ => false end.

(** The number of remote requests a call issued. *)
Definition count_requests (tr : list event) : nat :=
  length (List.filter is_request tr).

(** The clock readings of the remote requests, in order. *)
Fixpoint request_times (tr : list event) : list Z :=
  match tr with
  | [] => []
  | EvRequest t _ _ :: tr' => t :: request_times tr'
  | _ :: tr' => request_times tr'
  end.

(** Successive readings are at least [gap] apart. *)
Fixpoint spaced (gap : Z) (ts : list Z) : Prop :=
  match ts with
  | t1 :: ((t2 :: _) as rest) => t1 + gap <= t2 /\ spaced gap rest
  | _ => True
  end.

(** The failure kinds of the specification, told apart by the line the
    fetcher prints. *)
Inductive failure : Type := NotFound | TransientError.

Definition signal_of (e : event) : option failure :=
  match e with
  | EvPrint s =>
      if String.prefix "❌ 未找到城市: " s then Some NotFound
      else if String.prefix "❌ 请求失败，状态码: " s then Some TransientError
      else if String.prefix "❌ 网络错误: " s then Some TransientError
      else None
  | _ => None
  end.

Fixpoint signals (tr : list event) : list failure :=
  match tr with
  | [] => []
  | e :: tr' =>
      match signal_of e with
      | Some f => f :: signals tr'
      | None => signals tr'
      end
  end.

(** The cache key and the cache file of a query made in world [w]. *)
Definition cache_key_at (h : host) (w : world) (city endpoint : string) : string :=
  substring 0 8
    (md5_hexdigest h (key_string city endpoint (strftime_Ymd (local_time h (clock w))))).

Definition current_cache_file (h : host) (w : world) (city : option string) : string :=
  cache_file_name (cache_key_at h w (str_or city (CITY (config h))) "current") "current".

Definition forecast_cache_file (h : host) (w : world) (city : option string) : string :=
  cache_file_name
    (cache_key_at h w (str_or city (CITY (config h)) +:+ "_forecast") "forecast")
    "forecast".

(** The age of a cache file in world [w]: the time since it was written. *)
Definition file_age (w : world) (f : file) : Z := clock w - st_mtime f.

(** The age the code computes: the difference of two naive local times,
    which is the age of the file when the offset from UTC was the same at
    both moments. *)
Definition naive_age (h : host) (w : world) (f : file) : Z :=
  local_time h (clock w) - local_time h (st_mtime f).

Definition freshness_window (h : host) : Z := timedelta_hours (CACHE_HOURS (config h)).

(** The file can be read back by [json.load]. *)
Definition readable (w : world) (name : string) : bool :=
  match cache_dir w !! name with
  | Some (File _ Corrupt) => false
  | _ => true
  end.

(** The requests the three fetch methods send. *)
Definition current_request (h : host) (city country : option string) : request :=
  Request (base_url +:+ "/weather")
    [("q", VStr (str_or city (CITY (config h)) +:+ ","
                 +:+ str_or country (COUNTRY (config h))));
     ("appid", api_key h);
     ("units", VStr "metric");
     ("lang", VStr (LANGUAGE (config h)))]
    10.

Definition forecast_request (h : host) (city country : option string)
    (days : option Z) : request :=
  Request (base_url +:+ "/forecast")
    [("q", VStr (str_or city (CITY (config h)) +:+ ","
                 +:+ str_or country (COUNTRY (config h))));
     ("appid", api_key h);
     ("units", VStr "metric");
     ("lang", VStr (LANGUAGE (config h)));
     ("cnt", VInt (int_or days (FORECAST_DAYS (config h)) * 8))]
    15.

Definition coordinates_request (h : host) (lat lon : option Q) : request :=
  Request (base_url +:+ "/weather")
    [("lat", VFloat (float_or lat (LAT (config h))));
     ("lon", VFloat (float_or lon (LON (config h))));
     ("appid", api_key h);
     ("units", VStr "metric");
     ("lang", VStr (LANGUAGE (config h)))]
    10.

(** The world after [data] was saved under [name]. *)
Definition saved (w : world) (name : string) (data : value) : world :=
  World (clock w) (<[name := File (clock w) (Json data)]> (cache_dir w))
        (server w) (disk_writable w).

(** ** Well-formed payloads

    The fields the parser consumes, as listed for the remote API:
    [weather[0].main], [weather[0].description],
    [main.{temp,feels_like,temp_max,temp_min,humidity,pressure}],
    [wind.speed], [clouds.all], [sys.{country,sunrise,sunset}], [dt],
    [timezone]; numbers where numbers are expected and times a
    [datetime] can hold. *)

Definition is_json_number (v : value) : bool :=
  match v with VInt _ | VFloat _ => true | _ => false end.

Definition is_str (v : value) : bool :=
  match v with VStr _ => true | _ => false end.

Definition is_time (h : host) (v : value) : bool :=
  is_json_number v &&
  match fromtimestamp h v with Ok _ => true | Raise _ => false end.

Definition anything (v : value) : bool := true.

Definition has (k : string) (P : value -> bool) (v : value) : bool :=
  match v with
  | VDict d => match assoc k d with Some x => P x | None => false end
  | _ => false
  end.

Definition well_formed (h : host) (data : value) : bool :=
  has "weather"
      (fun ws => match ws with
                 | VList (w0 :: _) => has "main" is_str w0 && has "description" anything w0
                 | _ => false
                 end) data
  && has "main"
       (fun m => has "temp" is_json_number m && has "feels_like" is_json_number m
                 && has "temp_max" is_json_number m && has "temp_min" is_json_number m
                 && has "humidity" is_json_number m && has "pressure" anything m) data
  && has "wind" (has "speed" is_json_number) data
  && has "clouds" (has "all" anything) data
  && has "sys"
       (fun s => has "country" anything s && has "sunrise" (is_time h) s
                 && has "sunset" (is_time h) s) data
  && has "dt" (is_time h) data
  && has "timezone" anything data.

(** [data[k1][k2]], when both subscripts exist. *)
Definition field2 (data : value) (k1 k2 : string) : option value :=
  match getitem data k1 with
  | Ok x => match getitem x k2 with Ok y => Some y | Raise _ => None end
  | Raise _ => None
  end.

(** [data['weather'][0]['main']], when it exists. *)
Definition condition_keyword (data : value) : option value :=
  match getitem data "weather" with
  | Ok ws => match getitem0 ws with
             | Ok w0 => match getitem w0 "main" with Ok k => Some k | Raise _ => None end
             | Raise _ => None
             end
  | Raise _ => None
  end.

(** [out] is [src] rounded to one decimal: an integer is kept, a float
    becomes the tenth nearest to it. *)
Definition rounded_to_one_decimal (src out : value) : Prop :=
  match src with
  | VInt z => out = VInt z
  | VFloat q => exists n : Z,
      out = VFloat (n # 10) /\ (- (1 # 20) <= q - (n # 10) <= 1 # 20)%Q
  | _ => False
  end.

Definition is_digit (c : ascii) : bool :=
  let n := Z.of_nat (nat_of_ascii c) in (48 <=? n) && (n <=? 57).

Definition digit_value (c : ascii) : Z := Z.of_nat (nat_of_ascii c) - 48.

(** [s] is made of decimal digits. *)
Fixpoint digits_only (s : string) : bool :=
  match s with
  | EmptyString => true
  | String c r => is_digit c && digits_only r
  end.

(** [s] reads HH:MM:SS with HH < 24, MM < 60 and SS < 60. *)
Definition is_HMS (s : string) : bool :=
  match s with
  | String h1 (String h2 (String c1 (String m1 (String m2
      (String c2 (String s1 (String s2 EmptyString))))))) =>
      is_digit h1 && is_digit h2 && is_digit m1 && is_digit m2
      && is_digit s1 && is_digit s2
      && Ascii.eqb c1 ":" && Ascii.eqb c2 ":"
      && (10 * digit_value h1 + digit_value h2 <? 24)
      && (10 * digit_value m1 + digit_value m2 <? 60)
      && (10 * digit_value s1 + digit_value s2 <? 60)
  | _ => false
  end.

(** [sub] occurs in [s]. *)
Fixpoint contains (sub s : string) : bool :=
  String.prefix sub s ||
  match s with
  | String _ r => contains sub r
  | EmptyString => false
  end.

(** The temperature fields of [main] and the keys they are stored under. *)
Definition temperature_fields : list (string * string) :=
  [("temp", "当前温度(℃)"); ("feels_like", "体感温度(℃)");
   ("temp_max", "最高温度(℃)"); ("temp_min", "最低温度(℃)")].

(** The two times of [sys] and the keys they are stored under. *)
Definition sun_fields : list (string * string) :=
  [("sunrise", "日出时间"); ("sunset", "日落时间")].

(** The reduced field set of a comparison row. *)
Definition row_fields : list string :=
  ["城市"; "温度(℃)"; "体感温度(℃)"; "天气状况"; "湿度(%)"; "风速(m/s)"; "舒适度"].

Definition has_row_fields (row : value) : Prop :=
  match row with
  | VDict d => map fst d = row_fields
  | _ => False
  end.

(** ** Sample data *)

Definition hex_digit (n : Z) : ascii :=
  let d := n mod 16 in
  if d <? 10 then ascii_of_nat (48 + Z.to_nat d) else ascii_of_nat (87 + Z.to_nat d).

Fixpoint hex (w : nat) (n : Z) : string :=
  match w with
  | O => ""
  | S w' => hex w' (n / 16) +:+ String (hex_digit n) ""
  end.

Fixpoint checksum (acc : Z) (s : string) : Z :=
  match s with
  | String c r => checksum ((acc * 31 + Z.of_nat (nat_of_ascii c)) mod 2 ^ 128) r
  | EmptyString => acc
  end.

(** A stand-in for MD5 in the examples: 32 hexadecimal digits, the least
    significant first, so that the first eight depend on every character. *)
Definition sample_digest (s : string) : string := String.rev (hex 32 (checksum 7 s)).

Definition sample_str_float (q : Q) : string :=
  pretty (Qnum q) +:+ "/" +:+ pretty (Zpos (Qden q)).

Definition sample_config : WeatherConfig := {|
  CITY := "Guilin";
  COUNTRY := "CN";
  LAT := 252741 # 10000;
  LON := 1102993 # 10000;
  API_KEY := Some "0123456789abcdef0123456789abcdef";
  USE_CACHE := true;
  CACHE_HOURS := 1;
  FORECAST_DAYS := 5;
  TIMEZONE := "Asia/Shanghai";
  LANGUAGE := "zh_cn";
  CITY_DISPLAY_NAME := "桂林"
|}.

Definition sample_host : host := {|
  md5_hexdigest := sample_digest;
  str_float := sample_str_float;
  utc_offset := fun _ => 28800;
  config := sample_config
|}.

Definition sample_payload (name : string) (temp : Q) : value :=
  VDict
    [("coord", VDict [("lon", VFloat (1102993 # 10000)); ("lat", VFloat (252741 # 10000))]);
     ("weather", VList [VDict [("id", VInt 800); ("main", VStr "Clear");
                               ("description", VStr "晴"); ("icon", VStr "01d")]]);
     ("main", VDict [("temp", VFloat temp); ("feels_like", VFloat (2214 # 100));
                     ("temp_min", VInt 20); ("temp_max", VFloat (2525 # 100));
                     ("pressure", VInt 1012); ("humidity", VInt 50)]);
     ("visibility", VInt 10000);
     ("wind", VDict [("speed", VFloat (32 # 10)); ("deg", VInt 120)]);
     ("clouds", VDict [("all", VInt 0)]);
     ("dt", VInt 1700000000);
     ("sys", VDict [("country", VStr "CN"); ("sunrise", VInt 1699999000);
                    ("sunset", VInt 1700040000)]);
     ("timezone", VInt 28800);
     ("name", VStr name)].

(** The value of the request parameter [q]. *)
Definition query_of (r : request) : string :=
  match assoc "q" (params r) with
  | Some (VStr s) => s
  | _ => ""
  end.

(** A server that knows Guilin and Beijing, answers [{}] for Empty, is
    unreachable for Offline, overloaded for Busy, and knows no other city. *)
Definition sample_server (t : Z) (r : request) : http_outcome :=
  if String.eqb (query_of r) "Guilin,CN" then
    Response 200 (Some (sample_payload "Guilin" (2246 # 100)))
  else if String.eqb (query_of r) "Beijing,CN" then
    Response 200 (Some (sample_payload "Beijing" (-35 # 10)))
  else if String.eqb (query_of r) "Empty,CN" then
    Response 200 (Some (VDict []))
  else if String.eqb (query_of r) "Offline,CN" then
    NetworkError "Connection reset by peer"
  else if String.eqb (query_of r) "Busy,CN" then
    Response 503 None
  else Response 404 (Some (VDict [("cod", VStr "404"); ("message", VStr "city not found")])).

(** 2023-11-14 22:13:20 UTC, 06:13:20 the next morning in the sample zone. *)
Definition sample_clock : Z := 1700000000 * US_PER_SECOND.

Definition sample_world : world := {|
  clock := sample_clock;
  cache_dir := ∅;
  server := sample_server;
  disk_writable := true
|}.

(** 23:59:59 local time on 2023-11-15 in the sample zone. *)
Definition before_midnight : world := {|
  clock := 1700063999 * US_PER_SECOND;
  cache_dir := ∅;
  server := sample_server;
  disk_writable := true
|}.

(** A world whose cache holds an unreadable file for Guilin. *)
Definition corrupted_world : world := {|
  clock := sample_clock;
  cache_dir :=
    {[ current_cache_file sample_host sample_world (Some "Guilin")
       := File (sample_clock - 60 * US_PER_SECOND) Corrupt ]};
  server := sample_server;
  disk_writable := true
|}.


(** A world whose cache holds two-hour-old files for Guilin. *)
Definition stale_world : world := {|
  clock := sample_clock;
  cache_dir :=
    {[ current_cache_file sample_host sample_world (Some "Guilin")
       := File (sample_clock - 7200 * US_PER_SECOND)
               (Json (sample_payload "Guilin" (1875 # 100)));
       forecast_cache_file sample_host sample_world (Some "Guilin")
       := File (sample_clock - 7200 * US_PER_SECOND)
               (Json (sample_payload "Guilin" (1875 # 100))) ]};
  server := sample_server;
  disk_writable := true
|}.

(** A payload with nothing but a name. *)
Definition incomplete_payload : value := VDict [("name", VStr "Guilin")].

Definition city_entry (city : string) : gmap string (option string) :=
  {[ "city" := Some city ]}.

Definition three_cities : list (gmap string (option string)) :=
  [city_entry "Guilin"; city_entry "Atlantis"; city_entry "Beijing"].

(** * More of the program *)

(** ** Records and payloads the parser accepts *)

(** The keys of the record [parse_weather_data] builds, in order. *)
Definition parsed_fields : list string :=
  ["城市"; "实际城市名"; "国家"; "更新时间"; "天气状况"; "详细描述";
   "当前温度(℃)"; "体感温度(℃)"; "最高温度(℃)"; "最低温度(℃)";
   "湿度(%)"; "气压(hPa)"; "风速(m/s)"; "风向(°)"; "云量(%)"; "能见度(m)";
   "日出时间"; "日落时间"; "时区偏移"; "数据来源"; "舒适度评级"].

Definition is_number (v : value) : bool :=
  match as_number v with Some _ => true | None => false end.

(** A time from [datetime.min] to [datetime.max]. *)
Definition in_datetime_range (t : Z) : bool :=
  (datetime_min <=? t) && (t <=? datetime_max).

(** The timestamps that can be converted to a local time on the host:
    the numbers within [time_t] whose local time, to the microsecond, and
    the local time one day earlier are within the range of [datetime] --
    and, where the clocks were put back by some seconds during that day,
    the local time as many seconds earlier as well. *)
Definition is_timestamp (h : host) (v : value) : bool :=
  match as_number v with
  | Some q =>
      let us := round_half_even (q * inject_Z US_PER_SECOND) in
      let secs := us / US_PER_SECOND in
      let back := utc_offset h (secs - 86400) - utc_offset h secs in
      in_time_t v secs
      && in_datetime_range (local_time h us)
      && in_datetime_range (local_time h (us - US_PER_DAY))
      && ((back <=? 0)
          || in_datetime_range (local_time h (us - back * US_PER_SECOND)))
  | None => false
  end.

Definition is_hashable (v : value) : bool :=
  match v with VList _ | VDict _ => false | _ => true end.

(** The payloads that have every field [parse_weather_data] subscripts,
    with a number ([bool] included) where it rounds, compares or converts
    to a time, and a condition keyword that can be looked up in a
    dictionary. *)
Definition shaped (data : value) : bool :=
  has "weather"
      (fun ws => match ws with
                 | VList (w0 :: _) => has "main" is_hashable w0
                                      && has "description" anything w0
                 | _ => false
                 end) data
  && has "main"
       (fun m => has "temp" is_number m && has "feels_like" is_number m
                 && has "temp_max" is_number m && has "temp_min" is_number m
                 && has "humidity" is_number m && has "pressure" anything m) data
  && has "wind" (has "speed" is_number) data
  && has "clouds" (has "all" anything) data
  && has "sys"
       (fun s => has "country" anything s && has "sunrise" is_number s
                 && has "sunset" is_number s) data
  && has "dt" is_number data
  && has "timezone" anything data.

(** The payloads on which [parse_weather_data] builds a record: every
    field it subscripts is there, what it rounds or compares is a number
    ([bool] included), what it converts is a timestamp that can be
    converted on the host, and the condition keyword can be looked up in a
    dictionary. *)
Definition parseable (h : host) (data : value) : bool :=
  has "weather"
      (fun ws => match ws with
                 | VList (w0 :: _) => has "main" is_hashable w0
                                      && has "description" anything w0
                 | _ => false
                 end) data
  && has "main"
       (fun m => has "temp" is_number m && has "feels_like" is_number m
                 && has "temp_max" is_number m && has "temp_min" is_number m
                 && has "humidity" is_number m && has "pressure" anything m) data
  && has "wind" (has "speed" is_number) data
  && has "clouds" (has "all" anything) data
  && has "sys"
       (fun s => has "country" anything s && has "sunrise" (is_timestamp h) s
                 && has "sunset" (is_timestamp h) s) data
  && has "dt" (is_timestamp h) data
  && has "timezone" anything data.

(** ** Further observations on traces *)

(** The events by which a cache file is looked at. *)
Definition is_cache_read (e : event) : bool :=
  match e with EvStat _ | EvRead _ => true | _ => false end.

(** What a fetch that sends its request gives back, from the reply
    and whether the payload could be saved: the JSON body of a 200
    response that was saved, and [None] otherwise. *)
Definition fetched_value (reply : http_outcome) (saved_ok : bool) : value :=
  match reply with
  | Response code (Some data) => if (code =? 200) && saved_ok then data else VNone
  | _ => VNone
  end.

(** ** More sample data *)

(** A server that answers 200 with a payload holding only a name for
    Nameless, and is the sample server otherwise. *)
Definition partial_server (t : Z) (r : request) : http_outcome :=
  if String.eqb (query_of r) "Nameless,CN" then Response 200 (Some incomplete_payload)
  else sample_server t r.

Definition partial_world : world := {|
  clock := sample_clock;
  cache_dir := ∅;
  server := partial_server;
  disk_writable := true
|}.


Definition uncached_config : WeatherConfig := {|
  CITY := "Guilin";
  COUNTRY := "CN";
  LAT := 252741 # 10000;
  LON := 1102993 # 10000;
  API_KEY := Some "0123456789abcdef0123456789abcdef";
  USE_CACHE := false;
  CACHE_HOURS := 1;
  FORECAST_DAYS := 5;
  TIMEZONE := "Asia/Shanghai";
  LANGUAGE := "zh_cn";
  CITY_DISPLAY_NAME := "桂林"
|}.

(** The sample host with caching switched off. *)
Definition uncached_host : host := {|
  md5_hexdigest := sample_digest;
  str_float := sample_str_float;
  utc_offset := fun _ => 28800;
  config := uncached_config
|}.

Definition zero_window_config : WeatherConfig := {|
  CITY := "Guilin";
  COUNTRY := "CN";
  LAT := 252741 # 10000;
  LON := 1102993 # 10000;
  API_KEY := Some "0123456789abcdef0123456789abcdef";
  USE_CACHE := true;
  CACHE_HOURS := 0;
  FORECAST_DAYS := 5;
  TIMEZONE := "Asia/Shanghai";
  LANGUAGE := "zh_cn";
  CITY_DISPLAY_NAME := "桂林"
|}.

(** The sample host with a freshness window of zero hours. *)
Definition zero_window_host : host := {|
  md5_hexdigest := sample_digest;
  str_float := sample_str_float;
  utc_offset := fun _ => 28800;
  config := zero_window_config
|}.

(** A world whose cache holds a one-minute-old, readable file for Guilin. *)
Definition cached_world : world := {|
  clock := sample_clock;
  cache_dir :=
    {[ current_cache_file sample_host sample_world (Some "Guilin")
       := File (sample_clock - 60 * US_PER_SECOND)
               (Json (sample_payload "Guilin" (1875 # 100))) ]};
  server := sample_server;
  disk_writable := true
|}.

(** A host in a zone that puts its clocks back one hour, from two hours
    ahead of UTC to one hour ahead, at 01:00:00 UTC on 2023-10-29. *)
Definition autumn_change : Z := 1698541200.

Definition autumn_host : host := {|
  md5_hexdigest := sample_digest;
  str_float := sample_str_float;
  utc_offset := fun t => if t <? autumn_change then 7200 else 3600;
  config := sample_config
|}.

(** On that host at 02:10:00 UTC, seventy minutes after the change, with
    a cache file for Guilin written at 00:30:00 UTC, thirty minutes before
    it: the file is a hundred minutes old, and the two local times are
    03:10 and 02:30. *)
Definition autumn_clock : Z := (autumn_change + 4200) * US_PER_SECOND.

Definition autumn_world : world := {|
  clock := autumn_clock;
  cache_dir :=
    {[ cache_file_name (cache_key_at autumn_host
                          (World autumn_clock ∅ sample_server true)
                          "Guilin" "current") "current"
       := File ((autumn_change - 1800) * US_PER_SECOND)
               (Json (sample_payload "Guilin" (1875 # 100))) ]};
  server := sample_server;
  disk_writable := true
|}.

(** ** Checking a configuration (config/config.py) *)

(** [len(s)]: the number of code points of a UTF-8 string. *)
Fixpoint py_len (s : string) : Z :=
  match s with
  | EmptyString => 0
  | String c r => (if is_continuation c then 0 else 1) + py_len r
  end.

Definition newline : string := String (ascii_of_nat 10) "".

(** The double quote, and three of them. *)
Definition dq : string := String (ascii_of_nat 34) "".
Definition tq : string := dq +:+ dq +:+ dq.

(** [sep.join(lines)] *)
Fixpoint join (sep : string) (lines : list string) : string :=
  match lines with
  | [] => ""
  | [l] => l
  | l :: rest => l +:+ sep +:+ join sep rest
  end.

(** [WeatherConfig.validate]; [LAT] and [LON] are floats, so [float]
    accepts them and the third check adds no error. *)
Definition validate (c : WeatherConfig) : M bool :=
  let errors : list string := [] in
  let errors :=
    match API_KEY c with
    | None => errors ++ ["❌ OPENWEATHER_API_KEY 未设置"]
    | Some k =>
        if String.eqb k "" then errors ++ ["❌ OPENWEATHER_API_KEY 未设置"]
        else if negb (py_len k =? 32) then errors ++ ["⚠️  API密钥长度可能不正确"]
        else errors
    end in
  let errors :=
    if String.eqb (CITY c) "" then errors ++ ["❌ WEATHER_CITY 未设置"]
    else errors in
  match errors with
  | [] => ret true
  | _ => print (join newline errors) ;;; ret false
  end.

(** ** City presets (src/city_manager.py)

    A [session] holds what the methods of [CityManager] read and change:
    the manager's own fields, the preset file and [config/config.py] on
    the disk, the five attributes of the global [config] that
    [switch_city] assigns, and the lines printed so far. *)

Record city_settings : Type := {
  set_CITY : value;
  set_COUNTRY : value;
  set_LAT : value;
  set_LON : value;
  set_CITY_DISPLAY_NAME : value
}.

Record session : Type := Session {
  preset_file : string;
  presets : value;
  preset_on_disk : option file_body;
  preset_writable : bool;
  config_py : option string;
  config_writable : bool;
  settings : city_settings;
  console : list string
}.

Definition ST (A : Type) : Type := session -> result A * session.

Definition sret {A} (a : A) : ST A := fun s => (Ok a, s).

Definition sraise {A} (e : exn) : ST A := fun s => (Raise e, s).

Definition sbind {A B} (m : ST A) (f : A -> ST B) : ST B := fun s =>
  match m s with
  | (Ok a, s1) => f a s1
  | (Raise e, s1) => (Raise e, s1)
  end.

(** [try: m  except Exception as e: handler e] *)
Definition stry {A} (m : ST A) (handler : exn -> ST A) : ST A := fun s =>
  match m s with
  | (Ok a, s1) => (Ok a, s1)
  | (Raise e, s1) => handler e s1
  end.

Definition slift {A} (r : result A) : ST A := fun s => (r, s).

Notation "x <== m ;; k" := (sbind m (fun x => k))
  (at level 100, m at next level, right associativity).
Notation "m ;;> k" := (sbind m (fun _ => k))
  (at level 100, right associativity).

Definition print_line (line : string) : ST unit := fun s =>
  (Ok tt,
   Session (preset_file s) (presets s) (preset_on_disk s) (preset_writable s)
           (config_py s) (config_writable s) (settings s) (console s ++ [line])).

Definition get_presets : ST value := fun s => (Ok (presets s), s).

Definition set_presets (p : value) : ST unit := fun s =>
  (Ok tt,
   Session (preset_file s) p (preset_on_disk s) (preset_writable s)
           (config_py s) (config_writable s) (settings s) (console s)).

Definition get_settings : ST city_settings := fun s => (Ok (settings s), s).

Definition set_settings (c : city_settings) : ST unit := fun s =>
  (Ok tt,
   Session (preset_file s) (presets s) (preset_on_disk s) (preset_writable s)
           (config_py s) (config_writable s) c (console s)).

(** [self.preset_file.exists()] *)
Definition preset_exists : ST bool := fun s =>
  (Ok (match preset_on_disk s with Some _ => true | None => false end), s).

(** [with open(self.preset_file, 'r', encoding='utf-8') as f: json.load(f)] *)
Definition read_preset_file : ST value := fun s =>
  match preset_on_disk s with
  | Some (Json v) => (Ok v, s)
  | Some Corrupt => (Raise (Exn JSONDecodeError "Expecting value"), s)
  | None => (Raise (Exn OSError "No such file or directory"), s)
  end.

(** [with open(self.preset_file, 'w', encoding='utf-8') as f:
     json.dump(data, f, indent=2, ensure_ascii=False)] *)
Definition write_preset_file (data : value) : ST unit := fun s =>
  if preset_writable s then
    (Ok tt,
     Session (preset_file s) (presets s) (Some (Json data)) (preset_writable s)
             (config_py s) (config_writable s) (settings s) (console s))
  else (Raise (Exn OSError "Permission denied"), s).

(** [with open(config_file_path, 'w', encoding='utf-8') as f: f.write(text)] *)
Definition write_config_file (text : string) : ST unit := fun s =>
  if config_writable s then
    (Ok tt,
     Session (preset_file s) (presets s) (preset_on_disk s) (preset_writable s)
             (Some text) (config_writable s) (settings s) (console s))
  else (Raise (Exn OSError "Permission denied"), s).

Definition preset (name country : string) (lat lon : Q) (display_name : string)
  : value :=
  VDict [("name", VStr name); ("country", VStr country);
         ("lat", VFloat lat); ("lon", VFloat lon);
         ("display_name", VStr display_name)].

Definition default_presets : value :=
  VDict
    [("cities",
      VDict
        [("beijing", preset "Beijing" "CN" (399042 # 10000) (1164074 # 10000) "北京");
         ("shanghai", preset "Shanghai" "CN" (312304 # 10000) (1214737 # 10000) "上海");
         ("guangzhou", preset "Guangzhou" "CN" (231291 # 10000) (1132644 # 10000) "广州");
         ("shenzhen", preset "Shenzhen" "CN" (225431 # 10000) (1140579 # 10000) "深圳");
         ("chengdu", preset "Chengdu" "CN" (305728 # 10000) (1040668 # 10000) "成都");
         ("guilin", preset "Guilin" "CN" (252741 # 10000) (1102993 # 10000) "桂林")])].

(** [{'cities': {}}] *)
Definition no_presets : value := VDict [("cities", VDict [])].

Definition _load_presets : ST value :=
  stry
    (present <== preset_exists ;;
     if present then read_preset_file
     else
       write_preset_file default_presets ;;>
       (fun s => print_line ("✅ 已创建默认城市预设文件: " +:+ preset_file s) s) ;;>
       sret default_presets)
    (fun e =>
       print_line ("❌ 加载城市预设失败: " +:+ exn_msg e) ;;>
       sret no_presets).

(** [CityManager(preset_file)]: the constructor loads the presets. *)
Definition init_manager : ST unit :=
  p <== _load_presets ;;
  set_presets p.

(** [d[k] = v] on a dictionary: the value of an existing key is
    replaced where it stands, a new key goes to the end. *)
Fixpoint dict_set (d : list (string * value)) (k : string) (v : value)
  : list (string * value) :=
  match d with
  | [] => [(k, v)]
  | (k', v') :: d' =>
      if String.eqb k k' then (k', v) :: d' else (k', v') :: dict_set d' k v
  end.

(** [x[k] = v] *)
Definition setitem (x : value) (k : string) (v : value) : result value :=
  match x with
  | VDict d => Ok (VDict (dict_set d k v))
  | VList _ => Raise (Exn TypeError "list indices must be integers or slices, not str")
  | _ => Raise (Exn TypeError "object does not support item assignment")
  end.

(** [k in x] *)
Definition py_in (k : string) (x : value) : result bool :=
  match x with
  | VDict d => Ok (match assoc k d with Some _ => true | None => false end)
  | VList l =>
      Ok (existsb (fun e => match e with VStr s => String.eqb s k | _ => false end) l)
  | VStr s => Ok (contains k s)
  | _ => Raise (Exn TypeError "argument is not iterable")
  end.

(** [x.items()] *)
Definition dict_items (x : value) : result (list (string * value)) :=
  match x with
  | VDict d => Ok d
  | _ => Raise (Exn AttributeError "object has no attribute 'items'")
  end.

(** [{'id': city_id, **city_info}] *)
Definition with_id (city_id : string) (city_info : value) : result value :=
  match city_info with
  | VDict d =>
      Ok (VDict (fold_left (fun acc kv => dict_set acc (fst kv) (snd kv)) d
                           [("id", VStr city_id)]))
  | _ => Raise (Exn TypeError "object is not a mapping")
  end.

Fixpoint list_cities_loop (items : list (string * value)) (cities : list value)
  : result (list value) :=
  match items with
  | [] => Ok cities
  | (city_id, city_info) :: rest =>
      entry <~ with_id city_id city_info ;;
      list_cities_loop rest (cities ++ [entry])
  end.

Definition list_cities : ST (list value) :=
  p <== get_presets ;;
  all <== slift (dict_get p "cities" (VDict [])) ;;
  items <== slift (dict_items all) ;;
  slift (list_cities_loop items []).

Section CityManager.

(** [str(v)] for a value that is not a string. *)
Variable py_str : value -> string.

(** [f"{v}"] *)
Definition fmt (v : value) : string :=
  match v with
  | VStr s => s
  | _ => py_str v
  end.

(** The text [_save_config] writes: the template with the five
    settings filled in, stripped of the blank line around it. *)
Definition config_content (c : city_settings) : string :=
  join newline
    [tq +:+ "天气分析应用配置" +:+ tq;
     "";
     "class config:";
     "    " +:+ tq +:+ "配置类" +:+ tq;
     "    # API配置";
     "    API_KEY = " +:+ dq +:+ "your_api_key_here" +:+ dq
       +:+ "  # 请替换为您的OpenWeatherMap API密钥";
     "    BASE_URL = " +:+ dq +:+ "https://api.openweathermap.org/data/2.5" +:+ dq;
     "    ";
     "    # 默认城市配置";
     "    CITY = " +:+ dq +:+ fmt (set_CITY c) +:+ dq;
     "    COUNTRY = " +:+ dq +:+ fmt (set_COUNTRY c) +:+ dq;
     "    LAT = " +:+ fmt (set_LAT c);
     "    LON = " +:+ fmt (set_LON c);
     "    CITY_DISPLAY_NAME = " +:+ dq +:+ fmt (set_CITY_DISPLAY_NAME c) +:+ dq;
     "    ";
     "    # 应用配置";
     "    LANGUAGE = " +:+ dq +:+ "zh_cn" +:+ dq;
     "    FORECAST_DAYS = 5";
     "    USE_CACHE = True";
     "    CACHE_HOURS = 1";
     "    ";
     "    # 天气状况映射";
     "    WEATHER_MAP = {";
     "        " +:+ dq +:+ "Clear" +:+ dq +:+ ": " +:+ dq +:+ "晴朗" +:+ dq +:+ ",";
     "        " +:+ dq +:+ "Clouds" +:+ dq +:+ ": " +:+ dq +:+ "多云" +:+ dq +:+ ",";
     "        " +:+ dq +:+ "Rain" +:+ dq +:+ ": " +:+ dq +:+ "降雨" +:+ dq +:+ ",";
     "        " +:+ dq +:+ "Drizzle" +:+ dq +:+ ": " +:+ dq +:+ "小雨" +:+ dq +:+ ",";
     "        " +:+ dq +:+ "Thunderstorm" +:+ dq +:+ ": " +:+ dq +:+ "雷雨" +:+ dq +:+ ",";
     "        " +:+ dq +:+ "Snow" +:+ dq +:+ ": " +:+ dq +:+ "降雪" +:+ dq +:+ ",";
     "        " +:+ dq +:+ "Mist" +:+ dq +:+ ": " +:+ dq +:+ "薄雾" +:+ dq +:+ ",";
     "        " +:+ dq +:+ "Fog" +:+ dq +:+ ": " +:+ dq +:+ "雾" +:+ dq +:+ ",";
     "        " +:+ dq +:+ "Haze" +:+ dq +:+ ": " +:+ dq +:+ "霾" +:+ dq +:+ ",";
     "        " +:+ dq +:+ "Smoke" +:+ dq +:+ ": " +:+ dq +:+ "烟雾" +:+ dq;
     "    }"].

Definition _save_config : ST bool :=
  stry
    (c <== get_settings ;;
     write_config_file (config_content c) ;;>
     sret true)
    (fun e =>
       print_line ("❌ 保存配置文件失败: " +:+ exn_msg e) ;;>
       sret false).

Definition switch_city (city_id : string) : ST bool :=
  p <== get_presets ;;
  all <== slift (dict_get p "cities" (VDict [])) ;;
  city_info <== slift (dict_get all city_id VNone) ;;
  if negb (truthy city_info) then
    print_line ("❌ 未找到城市预设: " +:+ city_id) ;;>
    sret false
  else
    name <== slift (dict_get city_info "name" (VStr city_id)) ;;
    country <== slift (dict_get city_info "country" (VStr "CN")) ;;
    lat <== slift (dict_get city_info "lat" (VInt 0)) ;;
    lon <== slift (dict_get city_info "lon" (VInt 0)) ;;
    display_name <== slift (dict_get city_info "display_name" (VStr city_id)) ;;
    set_settings {| set_CITY := name; set_COUNTRY := country;
                    set_LAT := lat; set_LON := lon;
                    set_CITY_DISPLAY_NAME := display_name |} ;;>
    saved_ok <== _save_config ;;
    if saved_ok then
      print_line ("✅ 已切换到: " +:+ fmt display_name) ;;>
      print_line ("   英文名: " +:+ fmt name +:+ ", 国家: " +:+ fmt country) ;;>
      print_line ("   坐标: (" +:+ fmt lat +:+ ", " +:+ fmt lon +:+ ")") ;;>
      sret true
    else
      print_line "❌ 城市切换失败: 无法保存配置文件" ;;>
      sret false.

End CityManager.

Definition add_city (city_id : string) (city_info : value) : ST bool :=
  stry
    (p <== get_presets ;;
     present <== slift (py_in "cities" p) ;;
     (if negb present then
        p' <== slift (setitem p "cities" (VDict [])) ;;
        set_presets p'
      else sret tt) ;;>
     p1 <== get_presets ;;
     all <== slift (getitem p1 "cities") ;;
     all' <== slift (setitem all city_id city_info) ;;
     p2 <== slift (setitem p1 "cities" all') ;;
     set_presets p2 ;;>
     write_preset_file p2 ;;>
     print_line ("✅ 已添加城市预设: " +:+ city_id) ;;>
     sret true)
    (fun e =>
       print_line ("❌ 添加城市预设失败: " +:+ exn_msg e) ;;>
       sret false).

(** The attributes of a typed configuration that [switch_city] assigns,
    and a typed configuration with assigned attributes of the types the
    fetcher expects. *)
Definition settings_of (c : WeatherConfig) : city_settings := {|
  set_CITY := VStr (CITY c);
  set_COUNTRY := VStr (COUNTRY c);
  set_LAT := VFloat (LAT c);
  set_LON := VFloat (LON c);
  set_CITY_DISPLAY_NAME := VStr (CITY_DISPLAY_NAME c)
|}.

Definition with_settings (c : WeatherConfig) (s : city_settings)
  : option WeatherConfig :=
  match set_CITY s, set_COUNTRY s, set_LAT s, set_LON s, set_CITY_DISPLAY_NAME s with
  | VStr city, VStr country, VFloat lat, VFloat lon, VStr display =>
      Some {| CITY := city; COUNTRY := country; LAT := lat; LON := lon;
              API_KEY := API_KEY c; USE_CACHE := USE_CACHE c;
              CACHE_HOURS := CACHE_HOURS c; FORECAST_DAYS := FORECAST_DAYS c;
              TIMEZONE := TIMEZONE c; LANGUAGE := LANGUAGE c;
              CITY_DISPLAY_NAME := display |}
  | _, _, _, _, _ => None
  end.

(** The host after [config] was replaced. *)
Definition with_config (h : host) (c : WeatherConfig) : host := {|
  md5_hexdigest := md5_hexdigest h;
  str_float := str_float h;
  utc_offset := utc_offset h;
  config := c
|}.

(** A session that starts with no preset file. *)
Definition fresh_session (c : WeatherConfig) : session := {|
  preset_file := "cities_preset.json";
  presets := VNone;
  preset_on_disk := None;
  preset_writable := true;
  config_py := None;
  config_writable := true;
  settings := settings_of c;
  console := []
|}.

Definition sample_py_str (v : value) : string :=
  match v with
  | VNone => "None"
  | VBool true => "True"
  | VBool false => "False"
  | VInt z => pretty z
  | VFloat q => sample_str_float q
  | _ => "..."
  end.

(** ** Observations on the presets *)

(** The cities of the presets: [presets.get('cities', {})] as a
    dictionary. *)
Definition cities_are (p : value) (cs : list (string * value)) : Prop :=
  exists d, p = VDict d /\ default (VDict []) (assoc "cities" d) = VDict cs.

(** A preset that is a dictionary (with each key once, as in every
    Python dictionary), and the entry [list_cities] makes of it. *)
Definition preset_dict (kv : string * value) : Prop :=
  exists fields, snd kv = VDict fields /\ List.NoDup (map fst fields).

Definition entry_of (kv : string * value) (entry : value) : Prop :=
  exists fields e,
    snd kv = VDict fields /\ entry = VDict e
    /\ forall k, assoc k e
                 = match assoc k fields with
                   | Some v => Some v
                   | None => if String.eqb k "id" then Some (VStr (fst kv)) else None
                   end.

(** ** Sample payloads and sessions *)

(** A payload with no name, no wind direction and no visibility. *)
Definition nameless_payload : value :=
  VDict
    [("weather", VList [VDict [("id", VInt 800); ("main", VStr "Clear");
                               ("description", VStr "晴"); ("icon", VStr "01d")]]);
     ("main", VDict [("temp", VFloat (2246 # 100)); ("feels_like", VFloat (2214 # 100));
                     ("temp_min", VInt 20); ("temp_max", VFloat (2525 # 100));
                     ("pressure", VInt 1012); ("humidity", VInt 50)]);
     ("wind", VDict [("speed", VFloat (32 # 10))]);
     ("clouds", VDict [("all", VInt 0)]);
     ("dt", VInt 1700000000);
     ("sys", VDict [("country", VStr "CN"); ("sunrise", VInt 1699999000);
                    ("sunset", VInt 1700040000)]);
     ("timezone", VInt 28800)].

(** The manager made where there is no preset file yet. *)
Definition sample_session : session :=
  snd (init_manager (fresh_session sample_config)).

(** The same manager when neither the preset file nor [config.py] can be
    written any more. *)
Definition locked_session : session := {|
  preset_file := preset_file sample_session;
  presets := presets sample_session;
  preset_on_disk := preset_on_disk sample_session;
  preset_writable := false;
  config_py := config_py sample_session;
  config_writable := false;
  settings := settings sample_session;
  console := console sample_session
|}.

(** Presets with an empty preset, a preset that is a string, and a
    preset with a latitude only. *)
Definition odd_presets : value :=
  VDict [("cities",
          VDict [("nowhere", VDict []);
                 ("alias", VStr "Guilin");
                 ("bare", VDict [("lat", VInt 1)])])].

(** The manager made over a preset file that holds [odd_presets], and
    the manager made over a preset file that holds a list. *)
Definition odd_session : session :=
  snd (init_manager
         {| preset_file := "cities_preset.json";
            presets := VNone;
            preset_on_disk := Some (Json odd_presets);
            preset_writable := true;
            config_py := None;
            config_writable := true;
            settings := settings_of sample_config;
            console := [] |}).

Definition list_session : session :=
  snd (init_manager
         {| preset_file := "cities_preset.json";
            presets := VNone;
            preset_on_disk := Some (Json (VList []));
            preset_writable := true;
            config_py := None;
            config_writable := true;
            settings := settings_of sample_config;
            console := [] |}).

Definition xian : value :=
  preset "Xian" "CN" (342655 # 10000) (1089540 # 10000) "西安".

(** ** Observations on a comparison made twice *)

(** The local day of a clock reading, counted from the epoch. *)
Definition local_day (h : host) (t : Z) : Z := local_time h t / US_PER_DAY.

(** Every cache file is young enough to be fresh until [t], on the
    local clock. *)
Definition young_until (h : host) (w : world) (t : Z) : Prop :=
  forall name f, cache_dir w !! name = Some f ->
                 local_time h t - local_time h (st_mtime f) < freshness_window h.

(** The offset of local time from UTC does not change from [t1] to [t2]. *)
Definition same_offset (h : host) (t1 t2 : Z) : Prop :=
  forall t, t1 <= t <= t2 ->
            utc_offset h (t / US_PER_SECOND) = utc_offset h (t1 / US_PER_SECOND).

(** The cache file [name] holds the truthy payload [d] and is fresh
    until [t], on the local clock. *)
Definition holds_until (h : host) (w : world) (t : Z) (name : string) (d : value)
  : Prop :=
  exists f, cache_dir w !! name = Some f /\ contents f = Json d
            /\ truthy d = true
            /\ local_time h t - local_time h (st_mtime f) < freshness_window h.

(** [row] is the row the loop of [compare_cities] makes of the payload
    [d] for the city [c]. *)
Definition row_from (h : host) (c : gmap string (option string)) (d row : value)
  : Prop :=
  exists parsed,
    parse_weather_data h d (display_name_of c) = Ok parsed
    /\ truthy parsed = true /\ comparison_row parsed = Ok row.

(** * Properties *)

(** ** Comparisons of rationals *)

Lemma Qltb_lt (x y : Q) : Qltb x y = true <-> (x < y)%Q.
Proof.
  unfold Qltb. rewrite negb_true_iff. split.
  - intros H. apply Qnot_le_lt. intros Hle.
    apply Qle_bool_iff in Hle. congruence.
  - intros H. destruct (Qle_bool y x) eqn:E; [|reflexivity].
    apply Qle_bool_iff in E. lra.
Qed.

Lemma Qltb_ge (x y : Q) : Qltb x y = false <-> (y <= x)%Q.
Proof.
  unfold Qltb. rewrite negb_false_iff. apply Qle_bool_iff.
Qed.

Lemma Qle_bool_gt (x y : Q) : Qle_bool x y = false <-> (y < x)%Q.
Proof.
  split.
  - intros H. apply Qnot_le_lt. intros Hle. apply Qle_bool_iff in Hle. congruence.
  - intros H. destruct (Qle_bool x y) eqn:E; [|reflexivity].
    apply Qle_bool_iff in E. lra.
Qed.

(** Case analysis on a comparison, keeping the order fact. *)
Ltac split_Qltb x y :=
  let E := fresh "E" in
  destruct (Qltb x y) eqn:E;
  [apply Qltb_lt in E | apply Qltb_ge in E].

Ltac split_Qle x y :=
  let E := fresh "E" in
  destruct (Qle_bool x y) eqn:E;
  [apply Qle_bool_iff in E | apply Qle_bool_gt in E].

(** ** The comfort index *)

(** On numbers the comparisons of floats are those of the rationals. *)
Lemma float_ltb_lt (x y : Q) : float_ltb x y = true <-> (x < y)%Q.
Proof. apply Qltb_lt. Qed.

Lemma float_leb_le (x y : Q) : float_leb x y = true <-> (x <= y)%Q.
Proof. apply Qle_bool_iff. Qed.

(** A float that is not NaN is below a number or at least equal to it. *)
Lemma float_ltb_total (x : pyfloat) (c : Q) :
  x <> NaN -> float_ltb x c = negb (float_leb c x).
Proof.
  intros Hx. destruct x as [q| | |]; cbn [float_ltb float_leb negb];
    try reflexivity; congruence.
Qed.

Lemma float_leb_total (x : pyfloat) (c : Q) :
  x <> NaN -> float_leb x c = negb (float_ltb c x).
Proof.
  intros Hx. destruct x as [q| | |]; cbn [float_ltb float_leb negb];
    try reflexivity; [|congruence].
  unfold Qltb. now rewrite negb_involutive.
Qed.

Lemma temp_score_band (t : pyfloat) :
  temp_score t = Spec.band_label (Spec.band_of t).
Proof.
  unfold temp_score, Spec.band_of.
  repeat match goal with |- context [float_ltb ?a ?b] => destruct (float_ltb a b) end;
    reflexivity.
Qed.

Lemma band_of_bounds (t : pyfloat) :
  t <> NaN ->
  match Spec.band_of t with
  | Spec.SevereCold => float_ltb t 0 = true
  | Spec.Cold => float_leb 0 t = true /\ float_ltb t 10 = true
  | Spec.Cool => float_leb 10 t = true /\ float_ltb t 18 = true
  | Spec.Comfortable => float_leb 18 t = true /\ float_ltb t 26 = true
  | Spec.Warm => float_leb 26 t = true /\ float_ltb t 32 = true
  | Spec.Hot => float_leb 32 t = true
  end.
Proof.
  intros Ht. unfold Spec.band_of.
  pose proof (fun c => float_ltb_total t c Ht) as Htot.
  destruct (float_ltb t 0) eqn:E0; [reflexivity|].
  destruct (float_ltb t 10) eqn:E1;
    [split; [rewrite Htot in E0; now destruct (float_leb 0 t)|reflexivity]|].
  destruct (float_ltb t 18) eqn:E2;
    [split; [rewrite Htot in E1; now destruct (float_leb 10 t)|reflexivity]|].
  destruct (float_ltb t 26) eqn:E3;
    [split; [rewrite Htot in E2; now destruct (float_leb 18 t)|reflexivity]|].
  destruct (float_ltb t 32) eqn:E4;
    [split; [rewrite Htot in E3; now destruct (float_leb 26 t)|reflexivity]|].
  rewrite Htot in E4. now destruct (float_leb 32 t).
Qed.

Lemma humidity_of_bounds (h : pyfloat) :
  h <> NaN ->
  match Spec.humidity_of h with
  | Spec.Dry => float_ltb h 30 = true
  | Spec.Moderate => float_leb 30 h = true /\ float_leb h 85 = true
  | Spec.Humid => float_ltb 85 h = true
  end.
Proof.
  intros Hh. unfold Spec.humidity_of.
  destruct (float_ltb h 30) eqn:E0; [reflexivity|].
  destruct (float_leb h 85) eqn:E1.
  - split; [|reflexivity].
    rewrite (float_ltb_total h _ Hh) in E0. now destruct (float_leb 30 h).
  - rewrite (float_leb_total h _ Hh) in E1. now destruct (float_ltb 85 h).
Qed.

Lemma wind_of_bounds (w : pyfloat) :
  w <> NaN ->
  match Spec.wind_of w with
  | Spec.Light => float_leb w 5 = true
  | Spec.Breezy => float_ltb 5 w = true /\ float_leb w 10 = true
  | Spec.Strong => float_ltb 10 w = true
  end.
Proof.
  intros Hw. unfold Spec.wind_of.
  destruct (float_leb w 5) eqn:E0; [reflexivity|].
  rewrite (float_leb_total w _ Hw) in E0.
  destruct (float_leb w 10) eqn:E1.
  - split; [now destruct (float_ltb 5 w)|reflexivity].
  - rewrite (float_leb_total w _ Hw) in E1. now destruct (float_ltb 10 w).
Qed.

(** The source tests [humidity > 85] first and [humidity < 30] second;
    the classes are the same. *)
Lemma humidity_adj_class (h : pyfloat) :
  h <> NaN ->
  humidity_adj h = Spec.humidity_label (Spec.humidity_of h).
Proof.
  intros Hh. unfold humidity_adj, Spec.humidity_of.
  rewrite (float_leb_total h _ Hh).
  destruct (float_ltb 85 h) eqn:E0, (float_ltb h 30) eqn:E1; try reflexivity.
  exfalso. destruct h as [q| | |]; cbn [float_ltb] in *; try discriminate.
  apply Qltb_lt in E0, E1. lra.
Qed.

(** The source tests [wind_speed > 10] first and [wind_speed > 5]
    second. *)
Lemma wind_adj_class (w : pyfloat) :
  w <> NaN ->
  wind_adj w = Spec.wind_label (Spec.wind_of w).
Proof.
  intros Hw. unfold wind_adj, Spec.wind_of.
  rewrite !(float_leb_total w _ Hw).
  destruct (float_ltb 10 w) eqn:E0, (float_ltb 5 w) eqn:E1; try reflexivity.
  exfalso. destruct w as [q| | |]; cbn [float_ltb] in *; try discriminate.
  apply Qltb_lt in E0. apply Qltb_ge in E1. lra.
Qed.

Lemma comfort_rating_of_labels (t h w : pyfloat) :
  calculate_comfort_index t h w
  = match Spec.band_of t with
    | Spec.Comfortable =>
        if String.eqb (humidity_adj h) "适中" then "非常舒适"
        else "舒适" +:+ humidity_adj h
    | Spec.Warm =>
        if negb (String.eqb (humidity_adj h) "潮湿") then "较为舒适"
        else "温暖" +:+ humidity_adj h
    | Spec.Cool =>
        if negb (String.eqb (humidity_adj h) "潮湿") then "较为舒适"
        else "凉爽" +:+ humidity_adj h
    | b => Spec.band_label b +:+ humidity_adj h
    end.
Proof.
  unfold calculate_comfort_index. rewrite temp_score_band.
  destruct (Spec.band_of t); reflexivity.
Qed.

Lemma comfort_index_by_classes (t h w : pyfloat) :
  h <> NaN ->
  calculate_comfort_index t h w = Spec.comfort_rating t h.
Proof.
  intros Hh. rewrite comfort_rating_of_labels, (humidity_adj_class h Hh).
  unfold Spec.comfort_rating.
  destruct (Spec.band_of t), (Spec.humidity_of h); reflexivity.
Qed.

Lemma comfort_index_no_wind (t h w w' : pyfloat) :
  calculate_comfort_index t h w' = calculate_comfort_index t h w.
Proof. reflexivity. Qed.

Lemma comfort_index_no_wind_label (t h w : pyfloat) (c : Spec.wind_class) :
  contains (Spec.wind_label c) (calculate_comfort_index t h w) = false.
Proof.
  rewrite comfort_rating_of_labels. unfold humidity_adj.
  destruct (Spec.band_of t), (float_ltb 85 h), (float_ltb h 30), c;
    vm_compute; reflexivity.
Qed.

(** C2, amended: for every temperature, humidity and wind speed that is
    not NaN, the index is the rule table of the specification: the
    function sorts the temperature into six bands bounded at 0, 10, 18, 26
    and 32, the humidity into dry below 30, moderate from 30 to 85 and
    humid above 85, and the wind into light up to 5, breezy up to 10 and
    strong above; comfortable and moderate give the very-comfortable
    label, warm or cool and not humid give the fairly-comfortable label,
    anything else is the temperature label followed by the humidity label;
    the result does not depend on the wind speed and contains no wind
    label. *)
Theorem comfort_index_rule_table (temp humidity wind_speed : pyfloat) :
  temp <> NaN -> humidity <> NaN -> wind_speed <> NaN ->
  calculate_comfort_index temp humidity wind_speed
    = Spec.comfort_rating temp humidity
  /\ (temp_score temp = Spec.band_label (Spec.band_of temp)
      /\ match Spec.band_of temp with
         | Spec.SevereCold => float_ltb temp 0 = true
         | Spec.Cold => float_leb 0 temp = true /\ float_ltb temp 10 = true
         | Spec.Cool => float_leb 10 temp = true /\ float_ltb temp 18 = true
         | Spec.Comfortable => float_leb 18 temp = true /\ float_ltb temp 26 = true
         | Spec.Warm => float_leb 26 temp = true /\ float_ltb temp 32 = true
         | Spec.Hot => float_leb 32 temp = true
         end)
  /\ (humidity_adj humidity = Spec.humidity_label (Spec.humidity_of humidity)
      /\ match Spec.humidity_of humidity with
         | Spec.Dry => float_ltb humidity 30 = true
         | Spec.Moderate => float_leb 30 humidity = true
                            /\ float_leb humidity 85 = true
         | Spec.Humid => float_ltb 85 humidity = true
         end)
  /\ (wind_adj wind_speed = Spec.wind_label (Spec.wind_of wind_speed)
      /\ match Spec.wind_of wind_speed with
         | Spec.Light => float_leb wind_speed 5 = true
         | Spec.Breezy => float_ltb 5 wind_speed = true
                          /\ float_leb wind_speed 10 = true
         | Spec.Strong => float_ltb 10 wind_speed = true
         end)
  /\ (forall wind', calculate_comfort_index temp humidity wind'
                    = calculate_comfort_index temp humidity wind_speed)
  /\ (forall c, contains (Spec.wind_label c)
                  (calculate_comfort_index temp humidity wind_speed) = false).
Proof.
  intros Ht Hh Hw.
  split; [now apply comfort_index_by_classes|].
  split; [split; [apply temp_score_band|now apply band_of_bounds]|].
  split; [split; [now apply humidity_adj_class|now apply humidity_of_bounds]|].
  split; [split; [now apply wind_adj_class|now apply wind_of_bounds]|].
  split.
  - intros wind'. apply comfort_index_no_wind.
  - intros c. apply comfort_index_no_wind_label.
Qed.

(** C5: the three documented evaluations of [calculate_comfort_index]. *)
Theorem comfort_index_examples :
  calculate_comfort_index 22 50 3 = "非常舒适"
  /\ calculate_comfort_index (-5) 40 2 = "严寒适中"
  /\ calculate_comfort_index 28 90 12 = "温暖潮湿".
Proof. repeat split; vm_compute; reflexivity. Qed.

(** ** Rounding *)

Lemma round_half_even_near (q : Q) :
  (- (1 # 2) <= q - inject_Z (round_half_even q) <= 1 # 2)%Q.
Proof.
  destruct q as [n d]. unfold round_half_even. cbn [Qnum Qden].
  pose proof (Z.div_mod n (Zpos d) ltac:(lia)) as Hdm.
  pose proof (Z.mod_pos_bound n (Zpos d) ltac:(lia)) as Hr.
  set (fl := n / Zpos d) in *. set (r := n mod Zpos d) in *.
  assert (forall k : Z, (n # d) - inject_Z k == (n - k * Zpos d) # d)%Q as Hsub.
  { intros k. unfold Qeq, Qminus, Qplus, Qopp, inject_Z. cbn. lia. }
  assert (forall k : Z, -1 * Zpos d <= 2 * (n - k * Zpos d) <= 1 * Zpos d ->
            (- (1 # 2) <= (n # d) - inject_Z k <= 1 # 2)%Q) as Hk.
  { intros k Hb. rewrite Hsub. unfold Qle. cbn. lia. }
  destruct (Z.ltb_spec (2 * r) (Zpos d)); [apply Hk; lia|].
  destruct (Z.ltb_spec (Zpos d) (2 * r)); [apply Hk; lia|].
  destruct (Z.even fl); apply Hk; lia.
Qed.

Lemma round1_float (q : Q) :
  exists n : Z, round1 (VFloat q) = Ok (VFloat (n # 10))
                /\ (- (1 # 20) <= q - (n # 10) <= 1 # 20)%Q.
Proof.
  exists (round_half_even (q * 10)). split; [reflexivity|].
  pose proof (round_half_even_near (q * 10)) as H.
  set (n := round_half_even (q * 10)) in *.
  assert (n # 10 == inject_Z n * (1 # 10))%Q as ->.
  { unfold Qeq, Qmult, inject_Z. cbn. lia. }
  clearbody n. generalize dependent (inject_Z n). intros x Hx.
  split; lra.
Qed.

Lemma round1_json_number (v : value) :
  is_json_number v = true ->
  exists out, round1 v = Ok out
              /\ rounded_to_one_decimal v out
              /\ is_json_number out = true.
Proof.
  destruct v; try discriminate; intros _.
  - exists (VInt z). repeat split.
  - destruct (round1_float q) as (n & E & Hn).
    exists (VFloat (n # 10)). split; [exact E|]. split; [|reflexivity].
    exists n. split; [reflexivity | exact Hn].
Qed.

Lemma json_number_as_number (v : value) :
  is_json_number v = true -> exists q, as_number v = Some q.
Proof. destruct v; try discriminate; intros _; eexists; reflexivity. Qed.

(** ** Clock strings *)

Lemma nat_of_digit (n : Z) : Z.of_nat (nat_of_ascii (digit n)) = 48 + n mod 10.
Proof.
  unfold digit.
  pose proof (Z.mod_pos_bound n 10 ltac:(lia)) as Hb.
  rewrite nat_ascii_embedding by lia. lia.
Qed.

Lemma is_digit_digit (n : Z) : is_digit (digit n) = true.
Proof.
  unfold is_digit. rewrite nat_of_digit.
  pose proof (Z.mod_pos_bound n 10 ltac:(lia)). 
  apply andb_true_iff. split; apply Z.leb_le; lia.
Qed.

Lemma digit_value_digit (n : Z) : digit_value (digit n) = n mod 10.
Proof. unfold digit_value. rewrite nat_of_digit. lia. Qed.

Lemma two_digits_value (n : Z) :
  0 <= n < 100 -> 10 * digit_value (digit (n / 10)) + digit_value (digit n) = n.
Proof.
  intros Hn. rewrite !digit_value_digit.
  Z.div_mod_to_equations. lia.
Qed.

Lemma hour_of_range (t : datetime) : 0 <= hour_of t < 24.
Proof.
  unfold hour_of, US_PER_DAY, US_PER_SECOND.
  Z.div_mod_to_equations. lia.
Qed.

Lemma minute_of_range (t : datetime) : 0 <= minute_of t < 60.
Proof. unfold minute_of. apply Z.mod_pos_bound. lia. Qed.

Lemma second_of_range (t : datetime) : 0 <= second_of t < 60.
Proof. unfold second_of. apply Z.mod_pos_bound. lia. Qed.

Lemma strftime_HMS_format (t : datetime) : is_HMS (strftime_HMS t) = true.
Proof.
  pose proof (hour_of_range t) as Hh.
  pose proof (minute_of_range t) as Hm.
  pose proof (second_of_range t) as Hs.
  unfold strftime_HMS. cbv [zfill String.append is_HMS].
  rewrite !is_digit_digit. cbn [andb Ascii.eqb Bool.eqb].
  rewrite !two_digits_value by lia.
  repeat (apply andb_true_iff; split); try reflexivity; apply Z.ltb_lt; lia.
Qed.

(** ** Parsing a well-formed payload *)

Lemma has_getitem (k : string) (P : value -> bool) (v : value) :
  has k P v = true -> exists x, getitem v k = Ok x /\ P x = true.
Proof.
  destruct v; try discriminate. cbn [has getitem].
  destruct (assoc k d); [|discriminate]. intros H. eauto.
Qed.

Lemma has_dict_get (k : string) (P : value -> bool) (v : value) (k' : string)
    (dflt : value) :
  has k P v = true -> exists x, dict_get v k' dflt = Ok x.
Proof. destruct v; try discriminate. intros _. cbn. eauto. Qed.

Lemma has_truthy (k : string) (P : value -> bool) (v : value) :
  has k P v = true -> truthy v = true.
Proof.
  destruct v; try discriminate. destruct d; [discriminate|reflexivity].
Qed.

Lemma is_time_fromtimestamp (h : host) (v : value) :
  is_time h v = true -> exists t, fromtimestamp h v = Ok t.
Proof.
  unfold is_time. intros [_ H]%andb_true_iff.
  destruct (fromtimestamp h v); [eauto|discriminate].
Qed.

Lemma is_str_inv (v : value) : is_str v = true -> exists s, v = VStr s.
Proof. destruct v; try discriminate. eauto. Qed.

(** Taking the conjuncts of a boolean hypothesis apart. *)
Ltac split_andb :=
  repeat match goal with
         | H : _ && _ = true |- _ => apply andb_true_iff in H; destruct H
         end.

(** Replacing [getitem v k] by the value a [has] hypothesis promises. *)
Ltac use_has H x :=
  let E := fresh "E" in
  apply has_getitem in H; destruct H as (x & E & H);
  cbv beta in H.

Lemma parse_weather_data_fields (h : host) (data : value) (name : option string) :
  well_formed h data = true ->
  exists display actual country updated en description
         temp temp_r feels feels_r tmax tmax_r tmin tmin_r
         humidity pressure speed deg clouds_all visibility
         sunrise sunrise_t sunset sunset_t timezone comfort,
    condition_keyword data = Some (VStr en)
    /\ field2 data "main" "temp" = Some temp
    /\ field2 data "main" "feels_like" = Some feels
    /\ field2 data "main" "temp_max" = Some tmax
    /\ field2 data "main" "temp_min" = Some tmin
    /\ field2 data "sys" "sunrise" = Some sunrise
    /\ field2 data "sys" "sunset" = Some sunset
    /\ rounded_to_one_decimal temp temp_r
    /\ rounded_to_one_decimal feels feels_r
    /\ rounded_to_one_decimal tmax tmax_r
    /\ rounded_to_one_decimal tmin tmin_r
    /\ fromtimestamp h sunrise = Ok sunrise_t
    /\ fromtimestamp h sunset = Ok sunset_t
    /\ parse_weather_data h data name =
       Ok (VDict
             [("城市", display);
              ("实际城市名", actual);
              ("国家", country);
              ("更新时间", VStr (strftime_full updated));
              ("天气状况", VStr (default en (WEATHER_MAP !! en)));
              ("详细描述", description);
              ("当前温度(℃)", temp_r);
              ("体感温度(℃)", feels_r);
              ("最高温度(℃)", tmax_r);
              ("最低温度(℃)", tmin_r);
              ("湿度(%)", humidity);
              ("气压(hPa)", pressure);
              ("风速(m/s)", speed);
              ("风向(°)", deg);
              ("云量(%)", clouds_all);
              ("能见度(m)", visibility);
              ("日出时间", VStr (strftime_HMS sunrise_t));
              ("日落时间", VStr (strftime_HMS sunset_t));
              ("时区偏移", timezone);
              ("数据来源", VStr "OpenWeatherMap");
              ("舒适度评级", VStr comfort)]).
Proof.
  unfold well_formed. intros H. split_andb.
  match goal with H : has "timezone" _ _ = true |- _ =>
    pose proof (has_truthy _ _ _ H) as Htruthy;
    pose proof (has_dict_get _ _ _ "name" (VStr "未知城市") H) as (nm1 & Enm1);
    pose proof (has_dict_get _ _ _ "name" (VStr "未知") H) as (nm2 & Enm2);
    pose proof (has_dict_get _ _ _ "visibility" (VStr "无数据") H) as (vis & Evis);
    use_has H tz
  end.
  match goal with H : has "weather" _ _ = true |- _ => use_has H ws end.
  destruct ws as [| | | | |[|w0 ws]|]; try discriminate. split_andb.
  match goal with H : has "main" _ w0 = true |- _ => use_has H kw end.
  match goal with H : is_str kw = true |- _ =>
    apply is_str_inv in H; destruct H as (en & ->) end.
  match goal with H : has "description" _ w0 = true |- _ => use_has H desc end.
  match goal with H : has "main" _ data = true |- _ => use_has H mn end.
  split_andb.
  match goal with H : has "temp" _ mn = true |- _ => use_has H temp end.
  match goal with H : has "feels_like" _ mn = true |- _ => use_has H feels end.
  match goal with H : has "temp_max" _ mn = true |- _ => use_has H tmax end.
  match goal with H : has "temp_min" _ mn = true |- _ => use_has H tmin end.
  match goal with H : has "humidity" _ mn = true |- _ => use_has H hum end.
  match goal with H : has "pressure" _ mn = true |- _ => use_has H pres end.
  match goal with H : has "wind" _ data = true |- _ => use_has H wd end.
  match goal with H : has "speed" _ wd = true |- _ =>
    pose proof (has_dict_get _ _ _ "deg" (VStr "无数据") H) as (dg & Edg);
    use_has H spd
  end.
  match goal with H : has "clouds" _ data = true |- _ => use_has H cl end.
  match goal with H : has "all" _ cl = true |- _ => use_has H call end.
  match goal with H : has "sys" _ data = true |- _ => use_has H sy end.
  split_andb.
  match goal with H : has "country" _ sy = true |- _ => use_has H ctry end.
  match goal with H : has "sunrise" _ sy = true |- _ => use_has H sr end.
  match goal with H : has "sunset" _ sy = true |- _ => use_has H ss end.
  match goal with H : has "dt" _ data = true |- _ => use_has H dt end.
  destruct (is_time_fromtimestamp h sr) as (sr_t & Esr); [assumption|].
  destruct (is_time_fromtimestamp h ss) as (ss_t & Ess); [assumption|].
  destruct (is_time_fromtimestamp h dt) as (dt_t & Edt); [assumption|].
  destruct (round1_json_number temp) as (temp_r & Etr & Rt & Nt); [assumption|].
  destruct (round1_json_number feels) as (feels_r & Efr & Rf & _); [assumption|].
  destruct (round1_json_number tmax) as (tmax_r & Exr & Rx & _); [assumption|].
  destruct (round1_json_number tmin) as (tmin_r & Enr & Rn & _); [assumption|].
  destruct (json_number_as_number temp_r Nt) as (qt & Eqt).
  destruct (json_number_as_number hum) as (qh & Eqh); [assumption|].
  destruct (json_number_as_number spd) as (qs & Eqs); [assumption|].
  exists (match name with
          | Some s => if String.eqb s "" then nm1 else VStr s
          | None => nm1
          end).
  exists nm2, ctry, dt_t, en, desc, temp, temp_r, feels, feels_r, tmax, tmax_r,
         tmin, tmin_r, hum, pres, spd, dg, call, vis, sr, sr_t, ss, ss_t, tz,
         (calculate_comfort_index qt qh qs).
  unfold condition_keyword, field2.
  repeat (match goal with E : getitem _ _ = Ok _ |- _ => rewrite E end;
          cbn [getitem0]).
  repeat (split; [first [reflexivity | assumption]|]).
  unfold parse_weather_data, comfort_of_values.
  rewrite Htruthy, Enm1. cbn [negb].
  replace (match name with
           | Some s => if String.eqb s "" then Ok nm1 else Ok (VStr s)
           | None => Ok nm1
           end)
    with (Ok (match name with
              | Some s => if String.eqb s "" then nm1 else VStr s
              | None => nm1
              end))
    by (destruct name as [s|]; [destruct (String.eqb s "")|]; reflexivity).
  repeat (cbn [rbind getitem0 weather_map_get];
          match goal with
          | E : ?lhs = Ok _ |- context [rbind ?lhs _] => rewrite E
          end).
  cbn [rbind]. rewrite Eqt, Eqh, Eqs. reflexivity.
Qed.

(** C6: [parse_weather_data] is a function of its arguments alone, and on
    every well-formed payload it returns a record in which the condition
    keyword [weather[0].main] is replaced by its label in [WEATHER_MAP], or
    kept when the table has no entry for it; [temp], [feels_like],
    [temp_max] and [temp_min] are rounded to one decimal; and the sunrise
    and sunset timestamps are written as HH:MM:SS in local time. *)
Theorem parse_weather_data_well_formed (h : host) (data : value)
    (name : option string) :
  well_formed h data = true ->
  exists parsed,
    parse_weather_data h data name = Ok (VDict parsed)
    /\ (exists en,
          condition_keyword data = Some (VStr en)
          /\ assoc "天气状况" parsed
             = Some (VStr (match WEATHER_MAP !! en with
                           | Some zh => zh
                           | None => en
                           end)))
    /\ (forall src_key out_key,
          In (src_key, out_key) temperature_fields ->
          exists src out,
            field2 data "main" src_key = Some src
            /\ assoc out_key parsed = Some out
            /\ rounded_to_one_decimal src out)
    /\ (forall src_key out_key,
          In (src_key, out_key) sun_fields ->
          exists src t,
            field2 data "sys" src_key = Some src
            /\ fromtimestamp h src = Ok t
            /\ assoc out_key parsed = Some (VStr (strftime_HMS t))
            /\ is_HMS (strftime_HMS t) = true).
Proof.
  intros H.
  destruct (parse_weather_data_fields h data name H)
    as (display & actual & country & updated & en & description
        & temp & temp_r & feels & feels_r & tmax & tmax_r & tmin & tmin_r
        & humidity & pressure & speed & deg & clouds_all & visibility
        & sunrise & sunrise_t & sunset & sunset_t & timezone & comfort
        & Hen & Ht & Hf & Hx & Hn & Hsr & Hss & Rt & Rf & Rx & Rn
        & Tsr & Tss & Hparse).
  eexists. split; [exact Hparse|].
  split; [exists en; split; [exact Hen | reflexivity]|].
  split.
  - intros src_key out_key Hin. cbn in Hin.
    destruct Hin as [[= <- <-]|[[= <- <-]|[[= <- <-]|[[= <- <-]|[]]]]];
      eexists _, _; (split; [eassumption|]); (split; [reflexivity|assumption]).
  - intros src_key out_key Hin. cbn in Hin.
    destruct Hin as [[= <- <-]|[[= <- <-]|[]]];
      eexists _, _; (split; [eassumption|]); (split; [eassumption|]);
      (split; [reflexivity | apply strftime_HMS_format]).
Qed.

(** ** Strings *)

Lemma length_append (a b : string) :
  String.length (a +:+ b) = (String.length a + String.length b)%nat.
Proof.
  induction a as [|c a IH]; [reflexivity|].
  change (S (String.length (a +:+ b)) = S (String.length a + String.length b)).
  now rewrite IH.
Qed.

Lemma append_assoc (a b c : string) : (a +:+ b) +:+ c = a +:+ (b +:+ c).
Proof.
  induction a as [|x a IH]; [reflexivity|].
  change (String x ((a +:+ b) +:+ c) = String x (a +:+ (b +:+ c))).
  now rewrite IH.
Qed.

(** Two concatenations whose right parts have the same length agree
    part by part. *)
Lemma append_inj_suffix (a b c d : string) :
  String.length b = String.length d ->
  a +:+ b = c +:+ d -> a = c /\ b = d.
Proof.
  revert c. induction a as [|x a IH]; intros [|y c] Hlen Heq.
  - now split.
  - change (b = String y (c +:+ d)) in Heq. subst b.
    change (S (String.length (c +:+ d)) = String.length d) in Hlen.
    rewrite length_append in Hlen. lia.
  - change (String x (a +:+ b) = d) in Heq. subst d.
    change (String.length b = S (String.length (a +:+ b))) in Hlen.
    rewrite length_append in Hlen. lia.
  - change (String x (a +:+ b) = String y (c +:+ d)) in Heq.
    injection Heq as -> Heq. destruct (IH c Hlen Heq) as [-> ->]. now split.
Qed.

Lemma zfill_length (w : nat) (n : Z) : String.length (zfill w n) = w.
Proof.
  revert n. induction w as [|w IH]; intros n; cbn [zfill]; [reflexivity|].
  rewrite length_append, IH. cbn. lia.
Qed.

Lemma digit_same (a b : Z) : digit a = digit b -> a mod 10 = b mod 10.
Proof.
  intros H. apply (f_equal (fun c => Z.of_nat (nat_of_ascii c))) in H.
  rewrite !nat_of_digit in H. lia.
Qed.

Lemma zfill_inj (w : nat) (a b : Z) :
  0 <= a < 10 ^ Z.of_nat w -> 0 <= b < 10 ^ Z.of_nat w ->
  zfill w a = zfill w b -> a = b.
Proof.
  revert a b. induction w as [|w IH]; intros a b Ha Hb H.
  - cbn in Ha, Hb. lia.
  - rewrite Nat2Z.inj_succ, Z.pow_succ_r in Ha, Hb by lia.
    cbn [zfill] in H.
    apply append_inj_suffix in H as [Hhi Hlo]; [|reflexivity].
    injection Hlo as Hlo. apply digit_same in Hlo.
    assert (a / 10 = b / 10) as Hq.
    { apply IH; [| |exact Hhi]; Z.div_mod_to_equations; lia. }
    Z.div_mod_to_equations. lia.
Qed.

(** ** Calendar dates *)

Lemma civil_from_days_range (z : Z) :
  let '(y, m, d) := civil_from_days z in 1 <= m <= 12 /\ 1 <= d <= 31.
Proof.
  unfold civil_from_days.
  set (zz := z + 719468).
  set (era := zz / 146097).
  set (doe := zz - era * 146097).
  assert (0 <= doe < 146097) by (subst doe era; Z.div_mod_to_equations; lia).
  clearbody doe. clear era zz z.
  set (yoe := (doe - doe / 1460 + doe / 36524 - doe / 146096) / 365).
  set (doy := doe - (365 * yoe + yoe / 4 - yoe / 100)).
  assert (0 <= doy <= 365) by (subst doy yoe; Z.div_mod_to_equations; lia).
  clearbody doy.
  set (mp := (5 * doy + 2) / 153).
  assert (0 <= mp <= 11) by (subst mp; Z.div_mod_to_equations; lia).
  assert (1 <= doy - (153 * mp + 2) / 5 + 1 <= 31)
    by (subst mp; Z.div_mod_to_equations; lia).
  destruct (mp <? 10) eqn:E;
    [apply Z.ltb_lt in E | apply Z.ltb_ge in E]; split; lia.
Qed.

Ltac civil_year_bounds z :=
  unfold civil_from_days; cbn [fst];
  set (zz := z + 719468);
  set (era := zz / 146097);
  set (doe := zz - era * 146097);
  assert (0 <= doe < 146097) by (subst doe era; Z.div_mod_to_equations; lia);
  assert (zz = era * 146097 + doe) by (subst doe; lia);
  assert (z = zz - 719468) by (subst zz; lia);
  clearbody doe era zz; subst z zz;
  set (yoe := (doe - doe / 1460 + doe / 36524 - doe / 146096) / 365);
  assert (0 <= yoe <= 399) by (subst yoe; Z.div_mod_to_equations; lia);
  set (doy := doe - (365 * yoe + yoe / 4 - yoe / 100));
  assert (0 <= doy <= 365) by (subst doy yoe; Z.div_mod_to_equations; lia);
  assert (yoe = 0 -> doy = doe) by (subst doy; Z.div_mod_to_equations; lia);
  assert (1 <= yoe -> 365 <= doe) by (subst yoe; Z.div_mod_to_equations; lia);
  assert (yoe = 399 -> doy = doe - 145731)
    by (subst doy; Z.div_mod_to_equations; lia);
  assert (yoe <= 398 -> doe < 145731) by (subst yoe; Z.div_mod_to_equations; lia);
  clearbody doy yoe;
  set (mp := (5 * doy + 2) / 153);
  assert (mp < 10 <-> doy < 306) by (subst mp; Z.div_mod_to_equations; lia);
  assert (0 <= mp <= 11) by (subst mp; Z.div_mod_to_equations; lia);
  clearbody mp;
  destruct (Z.ltb_spec mp 10);
    [destruct (Z.leb_spec (mp + 3) 2) | destruct (Z.leb_spec (mp - 9) 2)]; lia.

(** The first day of year 1 and the last day of year 9999. *)
Lemma civil_year_lower (z : Z) : 1 <= fst (fst (civil_from_days z)) <-> -719162 <= z.
Proof. civil_year_bounds z. Qed.

Lemma civil_year_upper (z : Z) :
  fst (fst (civil_from_days z)) <= 9999 <-> z <= 2932896.
Proof. civil_year_bounds z. Qed.

(** The times a [datetime] can hold are those from [datetime.min] to
    [datetime.max]. *)
Lemma valid_datetime_range (t : datetime) :
  valid_datetime t = true <-> datetime_min <= t <= datetime_max.
Proof.
  unfold valid_datetime, year_of, date_of.
  rewrite andb_true_iff, !Z.leb_le, civil_year_lower, civil_year_upper.
  unfold datetime_min, datetime_max, US_PER_DAY, US_PER_SECOND.
  Z.div_mod_to_equations. lia.
Qed.

Lemma digits_only_append (a b : string) :
  digits_only (a +:+ b) = digits_only a && digits_only b.
Proof.
  induction a as [|c a IH]; [reflexivity|].
  change (is_digit c && digits_only (a +:+ b)
          = is_digit c && digits_only a && digits_only b).
  rewrite IH. now rewrite andb_assoc.
Qed.

Lemma zfill_digits (w : nat) (n : Z) : digits_only (zfill w n) = true.
Proof.
  revert n. induction w as [|w IH]; intros n; cbn [zfill]; [reflexivity|].
  rewrite digits_only_append, IH. cbn [digits_only andb].
  now rewrite is_digit_digit.
Qed.

Lemma strftime_Y_digits (y : Z) : digits_only (strftime_Y y) = true.
Proof.
  unfold strftime_Y.
  destruct (y <? 10); [|destruct (y <? 100); [|destruct (y <? 1000)]];
    apply zfill_digits.
Qed.

Lemma strftime_Ymd_digits (t : datetime) : digits_only (strftime_Ymd t) = true.
Proof.
  unfold strftime_Ymd. destruct (date_of t) as [[y m] d].
  now rewrite !digits_only_append, strftime_Y_digits, !zfill_digits.
Qed.

(** A text that ends with an underscore followed by digits splits in
    one way only. *)
Lemma append_digits_inj (a b c d : string) :
  digits_only b = true -> digits_only d = true ->
  a +:+ "_" +:+ b = c +:+ "_" +:+ d -> a = c /\ b = d.
Proof.
  intros Hb Hd. revert c. induction a as [|x a IH]; intros [|y c] Heq.
  - change (String "_" b = String "_" d) in Heq. injection Heq as ->. now split.
  - change (String "_" b = String y (c +:+ "_" +:+ d)) in Heq.
    injection Heq as _ ->.
    rewrite digits_only_append in Hb. apply andb_true_iff in Hb as [_ Hb].
    discriminate Hb.
  - change (String x (a +:+ "_" +:+ b) = String "_" d) in Heq.
    injection Heq as _ <-.
    rewrite digits_only_append in Hd. apply andb_true_iff in Hd as [_ Hd].
    discriminate Hd.
  - change (String x (a +:+ "_" +:+ b) = String y (c +:+ "_" +:+ d)) in Heq.
    injection Heq as -> Heq. destruct (IH c Heq) as [-> ->]. now split.
Qed.

Lemma strftime_Y_inj (y1 y2 : Z) :
  1 <= y1 <= 9999 -> 1 <= y2 <= 9999 ->
  strftime_Y y1 = strftime_Y y2 -> y1 = y2.
Proof.
  unfold strftime_Y. intros Hy1 Hy2.
  destruct (Z.ltb_spec y1 10); [|destruct (Z.ltb_spec y1 100);
                                   [|destruct (Z.ltb_spec y1 1000)]];
    (destruct (Z.ltb_spec y2 10); [|destruct (Z.ltb_spec y2 100);
                                      [|destruct (Z.ltb_spec y2 1000)]]);
    intros Heq;
    first [ apply zfill_inj in Heq; [exact Heq|cbn; lia..]
          | apply (f_equal String.length) in Heq; rewrite !zfill_length in Heq;
            discriminate Heq ].
Qed.

(** Within the years a [datetime] can hold, different dates are written
    differently. *)
Lemma strftime_Ymd_inj (t1 t2 : datetime) :
  valid_datetime t1 = true -> valid_datetime t2 = true ->
  strftime_Ymd t1 = strftime_Ymd t2 -> date_of t1 = date_of t2.
Proof.
  unfold valid_datetime, year_of, strftime_Ymd, date_of.
  pose proof (civil_from_days_range (t1 / US_PER_DAY)) as R1.
  pose proof (civil_from_days_range (t2 / US_PER_DAY)) as R2.
  destruct (civil_from_days (t1 / US_PER_DAY)) as [[y1 m1] d1].
  destruct (civil_from_days (t2 / US_PER_DAY)) as [[y2 m2] d2].
  cbn [fst]. intros V1 V2 H.
  apply andb_true_iff in V1 as [?%Z.leb_le ?%Z.leb_le].
  apply andb_true_iff in V2 as [?%Z.leb_le ?%Z.leb_le].
  apply append_inj_suffix in H as [Hy H];
    [|now rewrite !length_append, !zfill_length].
  apply append_inj_suffix in H as [Hm Hd]; [|now rewrite !zfill_length].
  apply strftime_Y_inj in Hy; [|lia..].
  apply zfill_inj in Hm; [|cbn; lia..].
  apply zfill_inj in Hd; [|cbn; lia..].
  congruence.
Qed.

(** ** Cache keys *)

Lemma key_string_split (city endpoint date_str : string) :
  key_string city endpoint date_str
  = (city +:+ "_" +:+ endpoint) +:+ "_" +:+ date_str.
Proof. unfold key_string. now rewrite !append_assoc. Qed.

Lemma _get_cache_key_run (h : host) (city endpoint : string) (w : world) :
  _get_cache_key h city endpoint w
  = Outcome (Ok (cache_key_at h w city endpoint)) w [].
Proof. reflexivity. Qed.

Lemma key_strings_apart (city city' d d' : string) :
  digits_only d = true -> digits_only d' = true ->
  key_string city "current" d <> key_string (city' +:+ "_forecast") "forecast" d'.
Proof.
  intros Hd Hd' Heq. rewrite !key_string_split in Heq.
  apply append_digits_inj in Heq as [Heq _]; [|assumption..].
  assert (city +:+ "_" +:+ "current" = city +:+ "_current") as E1 by reflexivity.
  assert ((city' +:+ "_forecast") +:+ "_" +:+ "forecast"
          = (city' +:+ "_forecast_") +:+ "forecast") as E2
    by now rewrite !append_assoc.
  rewrite E1, E2 in Heq.
  apply append_inj_suffix in Heq as [_ Heq]; [discriminate|reflexivity].
Qed.

(** ** Running the fetcher *)

(** The naive age is the age when the offset from UTC is the same at
    the two moments. *)
Lemma naive_age_same_offset (h : host) (w : world) (f : file) :
  utc_offset h (st_mtime f / US_PER_SECOND) = utc_offset h (clock w / US_PER_SECOND) ->
  naive_age h w f = file_age w f.
Proof. unfold naive_age, file_age, local_time. intros ->. lia. Qed.

(** What a cache lookup does, case by case. *)
Lemma _load_from_cache_run (h : host) (key endpoint : string) (w : world) :
  _load_from_cache h key endpoint w =
  let name := cache_file_name key endpoint in
  if negb (USE_CACHE (config h)) then Outcome (Ok VNone) w []
  else
    match cache_dir w !! name with
    | None => Outcome (Ok VNone) w [EvStat name]
    | Some f =>
        if naive_age h w f <? freshness_window h then
          Outcome (match contents f with
                   | Json v => Ok v
                   | Corrupt => Raise (Exn JSONDecodeError "Expecting value")
                   end)
                  w
                  [EvStat name; EvStat name;
                   EvPrint ("📂 使用缓存数据 (" +:+ key +:+ ")"); EvRead name]
        else Outcome (Ok VNone) w [EvStat name; EvStat name]
    end.
Proof.
  unfold _load_from_cache, naive_age, freshness_window.
  destruct (USE_CACHE (config h)); [|reflexivity].
  cbn [negb]. unfold bind, path_exists, now, stat_mtime, json_load, print, ret.
  destruct (cache_dir w !! cache_file_name key endpoint) as [[m body]|] eqn:E;
    [|reflexivity].
  repeat (cbn [st_mtime contents]; rewrite ?E).
  destruct (local_time h (clock w) - local_time h m
            <? timedelta_hours (CACHE_HOURS (config h)));
    [|reflexivity].
  repeat (cbn [st_mtime contents]; rewrite ?E).
  destruct body; reflexivity.
Qed.

Lemma prefix_append (a b : string) : String.prefix a (a +:+ b) = true.
Proof.
  induction a as [|c a IH]; [destruct b; reflexivity|].
  change (String.prefix (String c a) (String c (a +:+ b)) = true).
  cbn [String.prefix]. destruct (ascii_dec c c); [exact IH | congruence].
Qed.

Lemma signal_of_not_found (x : string) :
  signal_of (EvPrint ("❌ 未找到城市: " +:+ x)) = Some NotFound.
Proof. unfold signal_of. now rewrite prefix_append. Qed.

Lemma signal_of_status (x : string) :
  signal_of (EvPrint ("❌ 请求失败，状态码: " +:+ x)) = Some TransientError.
Proof. unfold signal_of. rewrite prefix_append. vm_compute. reflexivity. Qed.

Lemma signal_of_network (x : string) :
  signal_of (EvPrint ("❌ 网络错误: " +:+ x)) = Some TransientError.
Proof. unfold signal_of. rewrite prefix_append. vm_compute. reflexivity. Qed.

Lemma signal_of_cache_hit (x : string) :
  signal_of (EvPrint ("📂 使用缓存数据 (" +:+ x)) = None.
Proof. vm_compute. reflexivity. Qed.

Lemma signal_of_fetching (x : string) :
  signal_of (EvPrint ("🌤️  正在获取 " +:+ x)) = None.
Proof. vm_compute. reflexivity. Qed.

Lemma signal_of_success (x : string) :
  signal_of (EvPrint ("✅ " +:+ x)) = None.
Proof. vm_compute. reflexivity. Qed.

Lemma _load_from_cache_final (h : host) (key endpoint : string) (w : world) :
  final (_load_from_cache h key endpoint w) = w.
Proof.
  rewrite _load_from_cache_run. cbv zeta.
  destruct (negb (USE_CACHE (config h))); [reflexivity|].
  destruct (cache_dir w !! cache_file_name key endpoint); [|reflexivity].
  destruct (naive_age h w f <? freshness_window h); reflexivity.
Qed.

(** What [get_current_weather] does after the cache lookup, case by case. *)
Lemma get_current_weather_run (h : host) (city country : option string) (w : world) :
  let target_city := str_or city (CITY (config h)) in
  let target_country := str_or country (COUNTRY (config h)) in
  let name := current_cache_file h w city in
  let r := current_request h city country in
  let fetching := EvPrint ("🌤️  正在获取 " +:+ target_city +:+ " 的实时天气...") in
  let failed msg := EvPrint ("❌ 网络错误: " +:+ msg) in
  get_current_weather h city country w =
  match _load_from_cache h (cache_key_at h w target_city "current") "current" w with
  | Outcome (Raise e) _ tr => Outcome (Raise e) w tr
  | Outcome (Ok cached) _ tr =>
      if truthy cached then Outcome (Ok cached) w tr
      else
        match server w (clock w) r with
        | NetworkError msg =>
            Outcome (Ok VNone) w
              (tr ++ [fetching; EvRequest (clock w) r (NetworkError msg); failed msg])
        | Response code body =>
            let req := EvRequest (clock w) r (Response code body) in
            if code =? 200 then
              match body with
              | None =>
                  Outcome (Ok VNone) w (tr ++ [fetching; req; failed "Expecting value"])
              | Some data =>
                  if disk_writable w then
                    Outcome (Ok data) (saved w name data)
                      (tr ++ [fetching; req; EvWrite name data;
                              EvPrint ("✅ " +:+ target_city +:+ " 数据获取成功！")])
                  else
                    Outcome (Ok VNone) w
                      (tr ++ [fetching; req; failed "Permission denied"])
              end
            else if code =? 404 then
              Outcome (Ok VNone) w
                (tr ++ [fetching; req;
                        EvPrint ("❌ 未找到城市: " +:+ target_city +:+ ", "
                                 +:+ target_country)])
            else
              Outcome (Ok VNone) w
                (tr ++ [fetching; req;
                        EvPrint ("❌ 请求失败，状态码: " +:+ pretty code)])
        end
  end.
Proof.
  cbv zeta. unfold get_current_weather, current_cache_file, current_request.
  unfold bind at 1. rewrite _get_cache_key_run.
  unfold bind at 1.
  pose proof (_load_from_cache_final h
                (cache_key_at h w (str_or city (CITY (config h))) "current")
                "current" w) as Hfinal.
  destruct (_load_from_cache h _ "current" w) as [[cached|e] w1 tr].
  2: { cbn in Hfinal. subst w1. reflexivity. }
  cbn in Hfinal. subst w1.
  destruct (truthy cached); [cbn; now rewrite app_nil_r|].
  unfold try_except, bind, print, session_get, response_json, _save_to_cache,
    json_dump, ret, raise, saved.
  destruct (server w (clock w) _) as [code body|msg]; [|reflexivity].
  cbn [fst snd].
  destruct (code =? 200).
  - destruct body as [data|]; [|reflexivity].
    destruct (disk_writable w); reflexivity.
  - destruct (code =? 404); reflexivity.
Qed.

Lemma get_forecast_run (h : host) (city country : option string)
    (days : option Z) (w : world) :
  let target_city := str_or city (CITY (config h)) in
  let target_days := int_or days (FORECAST_DAYS (config h)) in
  let name := forecast_cache_file h w city in
  let r := forecast_request h city country days in
  let fetching := EvPrint ("📅 正在获取 " +:+ target_city +:+ " 的"
                           +:+ pretty target_days +:+ "天天气预报...") in
  let failed msg := EvPrint ("❌ 网络错误: " +:+ msg) in
  get_forecast h city country days w =
  match _load_from_cache h
          (cache_key_at h w (target_city +:+ "_forecast") "forecast") "forecast" w with
  | Outcome (Raise e) _ tr => Outcome (Raise e) w tr
  | Outcome (Ok cached) _ tr =>
      if truthy cached then Outcome (Ok cached) w tr
      else
        match server w (clock w) r with
        | NetworkError msg =>
            Outcome (Ok VNone) w
              (tr ++ [fetching; EvRequest (clock w) r (NetworkError msg); failed msg])
        | Response code body =>
            let req := EvRequest (clock w) r (Response code body) in
            if code =? 200 then
              match body with
              | None =>
                  Outcome (Ok VNone) w (tr ++ [fetching; req; failed "Expecting value"])
              | Some data =>
                  if disk_writable w then
                    Outcome (Ok data) (saved w name data)
                      (tr ++ [fetching; req; EvWrite name data])
                  else
                    Outcome (Ok VNone) w
                      (tr ++ [fetching; req; failed "Permission denied"])
              end
            else
              Outcome (Ok VNone) w
                (tr ++ [fetching; req;
                        EvPrint ("❌ 预报请求失败: " +:+ pretty code)])
        end
  end.
Proof.
  cbv zeta. unfold get_forecast, forecast_cache_file, forecast_request.
  unfold bind at 1. rewrite _get_cache_key_run.
  unfold bind at 1.
  pose proof (_load_from_cache_final h
                (cache_key_at h w (str_or city (CITY (config h)) +:+ "_forecast")
                   "forecast")
                "forecast" w) as Hfinal.
  destruct (_load_from_cache h _ "forecast" w) as [[cached|e] w1 tr].
  2: { cbn in Hfinal. subst w1. reflexivity. }
  cbn in Hfinal. subst w1.
  destruct (truthy cached); [cbn; now rewrite app_nil_r|].
  unfold try_except, bind, print, session_get, response_json, _save_to_cache,
    json_dump, ret, raise, saved.
  destruct (server w (clock w) _) as [code body|msg]; [|reflexivity].
  cbn [fst snd].
  destruct (code =? 200); [|reflexivity].
  destruct body as [data|]; [|reflexivity].
  destruct (disk_writable w); reflexivity.
Qed.

Lemma get_weather_by_coordinates_run (h : host) (lat lon : option Q) (w : world) :
  let r := coordinates_request h lat lon in
  let fetching :=
    EvPrint ("📍 正在通过坐标获取天气 ("
             +:+ str_float h (float_or lat (LAT (config h))) +:+ ", "
             +:+ str_float h (float_or lon (LON (config h))) +:+ ")...") in
  let failed msg := EvPrint ("❌ 网络错误: " +:+ msg) in
  get_weather_by_coordinates h lat lon w =
  match server w (clock w) r with
  | NetworkError msg =>
      Outcome (Ok VNone) w
        [fetching; EvRequest (clock w) r (NetworkError msg); failed msg]
  | Response code body =>
      let req := EvRequest (clock w) r (Response code body) in
      if code =? 200 then
        match body with
        | None => Outcome (Ok VNone) w [fetching; req; failed "Expecting value"]
        | Some data => Outcome (Ok data) w [fetching; req]
        end
      else
        Outcome (Ok VNone) w
          [fetching; req; EvPrint ("❌ 坐标请求失败: " +:+ pretty code)]
  end.
Proof.
  cbv zeta. unfold get_weather_by_coordinates, coordinates_request.
  unfold try_except, bind, print, session_get, response_json, ret, raise.
  destruct (server w (clock w) _) as [code body|msg]; [|reflexivity].
  cbn [fst snd].
  destruct (code =? 200); [|reflexivity].
  destruct body as [data|]; reflexivity.
Qed.

(** The three ways a cache lookup can end. *)
Lemma _load_from_cache_cases (h : host) (key endpoint : string) (w : world) :
  let name := cache_file_name key endpoint in
  let o := _load_from_cache h key endpoint w in
  (res o = Ok VNone
   /\ (USE_CACHE (config h) = false
       \/ cache_dir w !! name = None
       \/ exists f, cache_dir w !! name = Some f
                    /\ freshness_window h <= naive_age h w f))
  \/ (exists f v, USE_CACHE (config h) = true
                  /\ cache_dir w !! name = Some f
                  /\ naive_age h w f < freshness_window h
                  /\ contents f = Json v /\ res o = Ok v)
  \/ (exists f e, USE_CACHE (config h) = true
                  /\ cache_dir w !! name = Some f
                  /\ naive_age h w f < freshness_window h
                  /\ contents f = Corrupt /\ res o = Raise e).
Proof.
  cbv zeta. rewrite _load_from_cache_run. cbv zeta.
  destruct (USE_CACHE (config h)); cbn [negb]; [|left; split; auto].
  destruct (cache_dir w !! cache_file_name key endpoint) as [f|];
    [|left; split; auto].
  destruct (Z.ltb_spec (naive_age h w f) (freshness_window h)).
  - destruct (contents f) as [v|] eqn:E; right; [left|right]; eauto 10.
  - left. split; [reflexivity|]. right. right. eauto.
Qed.

(** A cache lookup neither sends a request nor writes a file. *)
Lemma _load_from_cache_quiet (h : host) (key endpoint : string) (w : world) :
  let tr := trace (_load_from_cache h key endpoint w) in
  List.filter is_request tr = [] /\ List.filter is_write tr = []
  /\ signals tr = [].
Proof.
  cbv zeta. rewrite _load_from_cache_run. cbv zeta.
  destruct (negb (USE_CACHE (config h))); [easy|].
  destruct (cache_dir w !! cache_file_name key endpoint) as [f|]; [|easy].
  destruct (naive_age h w f <? freshness_window h); [|easy].
  cbn [trace]. split; [reflexivity|]. split; [reflexivity|].
  cbn [signals]. rewrite signal_of_cache_hit. reflexivity.
Qed.

(** ** Traces *)

Lemma filter_nil_not_in {A} (P : A -> bool) (l : list A) (x : A) :
  List.filter P l = [] -> P x = true -> ~ In x l.
Proof.
  intros Hnil Hx Hin.
  assert (In x (List.filter P l)) as H by (apply filter_In; auto).
  rewrite Hnil in H. destruct H.
Qed.

Lemma signals_app (a b : list event) : signals (a ++ b) = signals a ++ signals b.
Proof.
  induction a as [|e a IH]; [reflexivity|].
  cbn [signals app]. destruct (signal_of e); cbn; now rewrite IH.
Qed.

Lemma request_times_app (a b : list event) :
  request_times (a ++ b) = request_times a ++ request_times b.
Proof.
  induction a as [|e a IH]; [reflexivity|].
  destruct e; cbn [request_times app]; now rewrite IH.
Qed.

Lemma count_requests_app (a b : list event) :
  count_requests (a ++ b) = (count_requests a + count_requests b)%nat.
Proof. unfold count_requests. now rewrite List.filter_app, length_app. Qed.

(** Membership in a trace that starts with a cache lookup. *)
Ltac in_lookup_trace H Hreq Hwr :=
  apply in_app_or in H; destruct H as [H|H];
  [ exfalso;
    first [ eapply (filter_nil_not_in is_request); [exact Hreq| |exact H]; reflexivity
          | eapply (filter_nil_not_in is_write); [exact Hwr| |exact H]; reflexivity ]
  | cbn [In] in H ].

(** The failure lines of a trace that starts with a cache lookup. *)
Ltac lookup_signals Hsig :=
  rewrite signals_app, Hsig; cbn [signals app];
  rewrite ?signal_of_fetching, ?signal_of_not_found, ?signal_of_status,
    ?signal_of_network, ?signal_of_success;
  reflexivity.

(** C3: when [get_current_weather] receives a 404 response it prints the
    not-found line, returns [None] and leaves the cache directory as it
    was; on any other status than 200 and on a network error it prints a
    transient-error line, returns [None] and leaves the cache directory as
    it was; and a cache file is written only after a 200 response. *)
Theorem get_current_weather_failures (h : host) (city country : option string)
    (w : world) :
  let o := get_current_weather h city country w in
  (forall t r body,
     In (EvRequest t r (Response 404 body)) (trace o) ->
     res o = Ok VNone /\ signals (trace o) = [NotFound]
     /\ List.filter is_write (trace o) = [] /\ final o = w)
  /\ (forall t r code body,
        In (EvRequest t r (Response code body)) (trace o) ->
        code <> 200 -> code <> 404 ->
        res o = Ok VNone /\ signals (trace o) = [TransientError]
        /\ List.filter is_write (trace o) = [] /\ final o = w)
  /\ (forall t r msg,
        In (EvRequest t r (NetworkError msg)) (trace o) ->
        res o = Ok VNone /\ signals (trace o) = [TransientError]
        /\ List.filter is_write (trace o) = [] /\ final o = w)
  /\ (forall name v,
        In (EvWrite name v) (trace o) ->
        In (EvRequest (clock w) (current_request h city country)
                      (Response 200 (Some v))) (trace o)
        /\ res o = Ok v).
Proof.
  cbv zeta. rewrite get_current_weather_run. cbv zeta.
  pose proof (_load_from_cache_quiet h
                (cache_key_at h w (str_or city (CITY (config h))) "current")
                "current" w) as (Hreq & Hwr & Hsig).
  destruct (_load_from_cache h _ "current" w) as [[cached|e] w1 tr];
    cbn [trace] in Hreq, Hwr, Hsig.
  2: { repeat split; intros; exfalso;
       first [ eapply (filter_nil_not_in is_request); [exact Hreq| |eassumption];
               reflexivity
             | eapply (filter_nil_not_in is_write); [exact Hwr| |eassumption];
               reflexivity ]. }
  destruct (truthy cached).
  { repeat split; intros; exfalso;
       first [ eapply (filter_nil_not_in is_request); [exact Hreq| |eassumption];
               reflexivity
             | eapply (filter_nil_not_in is_write); [exact Hwr| |eassumption];
               reflexivity ]. }
  destruct (server w (clock w) _) as [code body|msg].
  2: { cbn [res trace final]. split; [|split; [|split]].
       - intros t r body H. in_lookup_trace H Hreq Hwr.
         destruct H as [H|[H|[H|[]]]]; discriminate.
       - intros t r code body H. in_lookup_trace H Hreq Hwr.
         destruct H as [H|[H|[H|[]]]]; discriminate.
       - intros t r msg' _. split; [reflexivity|]. split; [lookup_signals Hsig|].
         split; [|reflexivity]. now rewrite List.filter_app, Hwr.
       - intros name v H. in_lookup_trace H Hreq Hwr.
         destruct H as [H|[H|[H|[]]]]; discriminate. }
  destruct (Z.eqb_spec code 200) as [->|Hne200].
  - destruct body as [data|]; [destruct (disk_writable w)|];
      cbn [res trace final]; (split; [|split; [|split]]).
    all: try (intros t r body' H; in_lookup_trace H Hreq Hwr;
              destruct H as [H|[H|[H|[H|[]]]]] || destruct H as [H|[H|[H|[]]]];
              discriminate).
    all: try (intros t r code' body' H Hc1 Hc2; in_lookup_trace H Hreq Hwr;
              destruct H as [H|[H|[H|[H|[]]]]] || destruct H as [H|[H|[H|[]]]];
              try discriminate; injection H as _ _ Hc _; congruence).
    all: try (intros name v H; in_lookup_trace H Hreq Hwr;
              destruct H as [H|[H|[H|[H|[]]]]] || destruct H as [H|[H|[H|[]]]];
              try discriminate).
    injection H as <- <-. split; [|reflexivity].
    apply in_or_app. right. right. left. reflexivity.
  - destruct (Z.eqb_spec code 404) as [->|Hne404];
      cbn [res trace final]; (split; [|split; [|split]]).
    all: try (intros name v H; in_lookup_trace H Hreq Hwr;
              destruct H as [H|[H|[H|[]]]]; discriminate).
    all: try (intros t r msg' H; in_lookup_trace H Hreq Hwr;
              destruct H as [H|[H|[H|[]]]]; discriminate).
    + intros t r body' _. split; [reflexivity|]. split; [lookup_signals Hsig|].
      split; [|reflexivity]. now rewrite List.filter_app, Hwr.
    + intros t r code' body' H Hc1 Hc2. in_lookup_trace H Hreq Hwr.
      destruct H as [H|[H|[H|[]]]]; try discriminate.
      injection H as _ _ Hc _. congruence.
    + intros t r body' H. in_lookup_trace H Hreq Hwr.
      destruct H as [H|[H|[H|[]]]]; try discriminate.
      injection H as _ _ Hc _. congruence.
    + intros t r code' body' _ _ _. split; [reflexivity|].
      split; [lookup_signals Hsig|].
      split; [|reflexivity]. now rewrite List.filter_app, Hwr.
Qed.

(** C9: [get_weather_by_coordinates] does no caching: whatever the
    coordinates, it looks at no cache file and writes none, leaves the
    world as it found it, and returns what it would return over any other
    cache directory. *)
Theorem get_weather_by_coordinates_no_cache (h : host) (lat lon : option Q)
    (w : world) :
  let o := get_weather_by_coordinates h lat lon w in
  List.filter is_file_access (trace o) = []
  /\ final o = w
  /\ (forall files : gmap string file,
        let o' := get_weather_by_coordinates h lat lon
                    (World (clock w) files (server w) (disk_writable w)) in
        res o' = res o /\ trace o' = trace o).
Proof.
  cbv zeta. rewrite get_weather_by_coordinates_run. cbv zeta.
  split; [|split].
  - destruct (server w (clock w) _) as [code body|msg]; [|reflexivity].
    destruct (code =? 200); [destruct body|]; reflexivity.
  - destruct (server w (clock w) _) as [code body|msg]; [|reflexivity].
    destruct (code =? 200); [destruct body|]; reflexivity.
  - intros files. rewrite get_weather_by_coordinates_run. cbv zeta.
    cbn [clock server].
    destruct (server w (clock w) _) as [code body|msg]; [|now split].
    destruct (code =? 200); [destruct body|]; now split.
Qed.

(** ** Cache hits and misses *)

Lemma _load_from_cache_fresh (h : host) (key endpoint : string) (w : world)
    (f : file) :
  USE_CACHE (config h) = true ->
  cache_dir w !! cache_file_name key endpoint = Some f ->
  naive_age h w f < freshness_window h ->
  _load_from_cache h key endpoint w
  = Outcome (match contents f with
             | Json v => Ok v
             | Corrupt => Raise (Exn JSONDecodeError "Expecting value")
             end)
            w
            [EvStat (cache_file_name key endpoint);
             EvStat (cache_file_name key endpoint);
             EvPrint ("📂 使用缓存数据 (" +:+ key +:+ ")");
             EvRead (cache_file_name key endpoint)].
Proof.
  intros Huse Hfile Hage. rewrite _load_from_cache_run. cbv zeta.
  rewrite Huse, Hfile. cbn [negb].
  destruct (Z.ltb_spec (naive_age h w f) (freshness_window h)); [reflexivity|lia].
Qed.

Lemma _load_from_cache_stale (h : host) (key endpoint : string) (w : world)
    (f : file) :
  cache_dir w !! cache_file_name key endpoint = Some f ->
  freshness_window h <= naive_age h w f ->
  res (_load_from_cache h key endpoint w) = Ok VNone.
Proof.
  intros Hfile Hage. rewrite _load_from_cache_run. cbv zeta.
  destruct (negb (USE_CACHE (config h))); [reflexivity|].
  rewrite Hfile.
  destruct (Z.ltb_spec (naive_age h w f) (freshness_window h)); [lia|reflexivity].
Qed.

(** After a lookup that gave nothing usable, exactly one request is sent,
    and it is the request for this query. *)
Lemma get_current_weather_miss (h : host) (city country : option string)
    (w : world) (cached : value) :
  res (_load_from_cache h
         (cache_key_at h w (str_or city (CITY (config h))) "current") "current" w)
    = Ok cached ->
  truthy cached = false ->
  let o := get_current_weather h city country w in
  let r := current_request h city country in
  count_requests (trace o) = 1%nat
  /\ In (EvRequest (clock w) r (server w (clock w) r)) (trace o).
Proof.
  intros Hres Hfalsy. cbv zeta. rewrite get_current_weather_run. cbv zeta.
  pose proof (_load_from_cache_quiet h
                (cache_key_at h w (str_or city (CITY (config h))) "current")
                "current" w) as (Hreq & _ & _).
  destruct (_load_from_cache h _ "current" w) as [[c|e] w1 tr];
    cbn [res trace] in Hres, Hreq; [|discriminate].
  injection Hres as ->. rewrite Hfalsy.
  assert (count_requests tr = 0%nat) as Hcount
    by (unfold count_requests; now rewrite Hreq).
  destruct (server w (clock w) _) as [code body|msg] eqn:Es.
  2: { cbn [trace]. rewrite count_requests_app, Hcount.
       split; [reflexivity|]. apply in_or_app. right. right. left. reflexivity. }
  destruct (code =? 200); [destruct body; [destruct (disk_writable w)|]|
                           destruct (code =? 404)];
    cbn [trace]; rewrite count_requests_app, Hcount;
    (split; [reflexivity|]); apply in_or_app; right; right; left; reflexivity.
Qed.

Lemma get_forecast_miss (h : host) (city country : option string)
    (days : option Z) (w : world) (cached : value) :
  res (_load_from_cache h
         (cache_key_at h w (str_or city (CITY (config h)) +:+ "_forecast")
            "forecast") "forecast" w)
    = Ok cached ->
  truthy cached = false ->
  let o := get_forecast h city country days w in
  let r := forecast_request h city country days in
  count_requests (trace o) = 1%nat
  /\ In (EvRequest (clock w) r (server w (clock w) r)) (trace o).
Proof.
  intros Hres Hfalsy. cbv zeta. rewrite get_forecast_run. cbv zeta.
  pose proof (_load_from_cache_quiet h
                (cache_key_at h w (str_or city (CITY (config h)) +:+ "_forecast")
                   "forecast")
                "forecast" w) as (Hreq & _ & _).
  destruct (_load_from_cache h _ "forecast" w) as [[c|e] w1 tr];
    cbn [res trace] in Hres, Hreq; [|discriminate].
  injection Hres as ->. rewrite Hfalsy.
  assert (count_requests tr = 0%nat) as Hcount
    by (unfold count_requests; now rewrite Hreq).
  destruct (server w (clock w) _) as [code body|msg] eqn:Es.
  2: { cbn [trace]. rewrite count_requests_app, Hcount.
       split; [reflexivity|]. apply in_or_app. right. right. left. reflexivity. }
  destruct (code =? 200); [destruct body; [destruct (disk_writable w)|]|];
    cbn [trace]; rewrite count_requests_app, Hcount;
    (split; [reflexivity|]); apply in_or_app; right; right; left; reflexivity.
Qed.

(** A fresh, readable, truthy cache entry is returned without a request. *)
Lemma get_current_weather_hit (h : host) (city country : option string)
    (w : world) (f : file) (v : value) :
  USE_CACHE (config h) = true ->
  cache_dir w !! current_cache_file h w city = Some f ->
  naive_age h w f < freshness_window h ->
  contents f = Json v ->
  truthy v = true ->
  let o := get_current_weather h city country w in
  res o = Ok v /\ count_requests (trace o) = 0%nat /\ final o = w.
Proof.
  intros Huse Hfile Hage Hbody Htruthy. cbv zeta.
  rewrite get_current_weather_run. cbv zeta.
  rewrite (_load_from_cache_fresh h _ "current" w f Huse Hfile Hage).
  rewrite Hbody, Htruthy. repeat split.
Qed.

Lemma get_forecast_hit (h : host) (city country : option string)
    (days : option Z) (w : world) (f : file) (v : value) :
  USE_CACHE (config h) = true ->
  cache_dir w !! forecast_cache_file h w city = Some f ->
  naive_age h w f < freshness_window h ->
  contents f = Json v ->
  truthy v = true ->
  let o := get_forecast h city country days w in
  res o = Ok v /\ count_requests (trace o) = 0%nat /\ final o = w.
Proof.
  intros Huse Hfile Hage Hbody Htruthy. cbv zeta.
  rewrite get_forecast_run. cbv zeta.
  rewrite (_load_from_cache_fresh h _ "forecast" w f Huse Hfile Hage).
  rewrite Hbody, Htruthy. repeat split.
Qed.

(** With caching on, a cache lookup looks at the file named after its
    key, and so do the two cached methods. *)
Lemma _load_from_cache_stats (h : host) (key endpoint : string) (w : world) :
  USE_CACHE (config h) = true ->
  In (EvStat (cache_file_name key endpoint)) (trace (_load_from_cache h key endpoint w)).
Proof.
  intros Huse. rewrite _load_from_cache_run. cbv zeta. rewrite Huse. cbn [negb].
  destruct (cache_dir w !! cache_file_name key endpoint) as [f|]; [|now left].
  destruct (naive_age h w f <? freshness_window h); now left.
Qed.

Lemma get_current_weather_stats (h : host) (city country : option string)
    (w : world) :
  USE_CACHE (config h) = true ->
  In (EvStat (current_cache_file h w city)) (trace (get_current_weather h city country w)).
Proof.
  intros Huse. rewrite get_current_weather_run. cbv zeta.
  pose proof (_load_from_cache_stats h
                (cache_key_at h w (str_or city (CITY (config h))) "current")
                "current" w Huse) as Hin.
  fold (current_cache_file h w city) in Hin.
  destruct (_load_from_cache h _ "current" w) as [[cached|e] w1 tr];
    cbn [trace] in *; [|exact Hin].
  destruct (truthy cached); [exact Hin|].
  destruct (server w (clock w) _) as [code body|msg];
    [destruct (code =? 200);
     [destruct body as [data|]; [destruct (disk_writable w)|]
     |destruct (code =? 404)]|];
    cbn [trace]; apply in_or_app; now left.
Qed.

Lemma get_forecast_stats (h : host) (city country : option string)
    (days : option Z) (w : world) :
  USE_CACHE (config h) = true ->
  In (EvStat (forecast_cache_file h w city)) (trace (get_forecast h city country days w)).
Proof.
  intros Huse. rewrite get_forecast_run. cbv zeta.
  pose proof (_load_from_cache_stats h
                (cache_key_at h w (str_or city (CITY (config h)) +:+ "_forecast")
                   "forecast")
                "forecast" w Huse) as Hin.
  fold (forecast_cache_file h w city) in Hin.
  destruct (_load_from_cache h _ "forecast" w) as [[cached|e] w1 tr];
    cbn [trace] in *; [|exact Hin].
  destruct (truthy cached); [exact Hin|].
  destruct (server w (clock w) _) as [code body|msg];
    [destruct (code =? 200);
     [destruct body as [data|]; [destruct (disk_writable w)|]|]|];
    cbn [trace]; apply in_or_app; now left.
Qed.

(** C7: the cache key is the first eight characters of the digest of the
    key string made of the city, the endpoint kind and the local calendar
    date, and computing it changes nothing; so two queries made on the same
    day for the same city and endpoint kind get the same key; queries made
    on different days are keyed from different key strings, and so are a
    current-weather query and a forecast query, whatever their cities and
    days; and with caching on, each of the two cached methods looks at the
    file named after the key of its query. *)
Theorem cache_key_by_day (h : host) (city endpoint : string) (w1 w2 : world) :
  (let o := _get_cache_key h city endpoint w1 in
   res o = Ok (substring 0 8
                 (md5_hexdigest h
                    (key_string city endpoint
                       (strftime_Ymd (local_time h (clock w1))))))
   /\ final o = w1 /\ trace o = [])
  /\ (date_of (local_time h (clock w1)) = date_of (local_time h (clock w2)) ->
      res (_get_cache_key h city endpoint w1) = res (_get_cache_key h city endpoint w2))
  /\ (forall city' endpoint',
        valid_datetime (local_time h (clock w1)) = true ->
        valid_datetime (local_time h (clock w2)) = true ->
        date_of (local_time h (clock w1)) <> date_of (local_time h (clock w2)) ->
        key_string city endpoint (strftime_Ymd (local_time h (clock w1)))
        <> key_string city' endpoint' (strftime_Ymd (local_time h (clock w2))))
  /\ (forall city',
        key_string city "current" (strftime_Ymd (local_time h (clock w1)))
        <> key_string (city' +:+ "_forecast") "forecast"
             (strftime_Ymd (local_time h (clock w2))))
  /\ (forall (query country : option string) (days : option Z),
        USE_CACHE (config h) = true ->
        exists key key',
          res (_get_cache_key h (str_or query (CITY (config h))) "current" w1)
          = Ok key
          /\ In (EvStat (cache_file_name key "current"))
                (trace (get_current_weather h query country w1))
          /\ res (_get_cache_key h (str_or query (CITY (config h)) +:+ "_forecast")
                    "forecast" w1)
             = Ok key'
          /\ In (EvStat (cache_file_name key' "forecast"))
                (trace (get_forecast h query country days w1))).
Proof.
  split; [|split; [|split; [|split]]].
  - cbv zeta. rewrite _get_cache_key_run. repeat split.
  - intros Hday. rewrite !_get_cache_key_run. cbn [res].
    unfold cache_key_at, strftime_Ymd. now rewrite Hday.
  - intros city' endpoint' V1 V2 Hday Heq.
    rewrite !key_string_split in Heq.
    apply append_digits_inj in Heq as [_ Heq];
      [|apply strftime_Ymd_digits..].
    apply Hday. now apply strftime_Ymd_inj.
  - intros city'. apply key_strings_apart; apply strftime_Ymd_digits.
  - intros query country days Huse.
    exists (cache_key_at h w1 (str_or query (CITY (config h))) "current"),
           (cache_key_at h w1 (str_or query (CITY (config h)) +:+ "_forecast")
              "forecast").
    rewrite !_get_cache_key_run. cbn [res].
    split; [reflexivity|].
    split; [now apply get_current_weather_stats|].
    split; [reflexivity|now apply get_forecast_stats].
Qed.


Lemma cache_key_same_day (h : host) (w1 w2 : world) (city endpoint : string) :
  date_of (local_time h (clock w1)) = date_of (local_time h (clock w2)) ->
  cache_key_at h w1 city endpoint = cache_key_at h w2 city endpoint.
Proof. intros Hday. unfold cache_key_at, strftime_Ymd. now rewrite Hday. Qed.

(** A call that returned a truthy payload leaves it in the cache file of
    its query, and leaves the clock alone. *)
Lemma get_current_weather_leaves_entry (h : host) (city country : option string)
    (w : world) (d : value) :
  USE_CACHE (config h) = true ->
  let o := get_current_weather h city country w in
  res o = Ok d -> truthy d = true ->
  clock (final o) = clock w
  /\ exists f, cache_dir (final o) !! current_cache_file h w city = Some f
               /\ contents f = Json d.
Proof.
  intros Huse. cbv zeta. rewrite get_current_weather_run. cbv zeta.
  rewrite _load_from_cache_run. cbv zeta. rewrite Huse. cbn [negb].
  fold (current_cache_file h w city).
  destruct (cache_dir w !! current_cache_file h w city) as [f|] eqn:E.
  1: destruct (naive_age h w f <? freshness_window h).
  1: destruct (contents f) as [v|] eqn:B; [|discriminate].
  1: destruct (truthy v) eqn:T;
       [cbn [res final]; intros [= ->] _; eauto|].
  all: destruct (server w (clock w) _) as [code body|msg];
    [|cbn [res]; intros [= <-]; discriminate].
  all: destruct (code =? 200);
    [destruct body as [data|]; [destruct (disk_writable w)|]
    |destruct (code =? 404)];
    cbn [res final]; intros [= <-] Ht; try discriminate.
  all: split; [reflexivity|]; eexists; split;
    [unfold saved; cbn [cache_dir]; apply lookup_insert_eq | reflexivity].
Qed.

Lemma get_forecast_leaves_entry (h : host) (city country : option string)
    (days : option Z) (w : world) (d : value) :
  USE_CACHE (config h) = true ->
  let o := get_forecast h city country days w in
  res o = Ok d -> truthy d = true ->
  clock (final o) = clock w
  /\ exists f, cache_dir (final o) !! forecast_cache_file h w city = Some f
               /\ contents f = Json d.
Proof.
  intros Huse. cbv zeta. rewrite get_forecast_run. cbv zeta.
  rewrite _load_from_cache_run. cbv zeta. rewrite Huse. cbn [negb].
  fold (forecast_cache_file h w city).
  destruct (cache_dir w !! forecast_cache_file h w city) as [f|] eqn:E.
  1: destruct (naive_age h w f <? freshness_window h).
  1: destruct (contents f) as [v|] eqn:B; [|discriminate].
  1: destruct (truthy v) eqn:T;
       [cbn [res final]; intros [= ->] _; eauto|].
  all: destruct (server w (clock w) _) as [code body|msg];
    [|cbn [res]; intros [= <-]; discriminate].
  all: destruct (code =? 200);
    [destruct body as [data|]; [destruct (disk_writable w)|]|];
    cbn [res final]; intros [= <-] Ht; try discriminate.
  all: split; [reflexivity|]; eexists; split;
    [unfold saved; cbn [cache_dir]; apply lookup_insert_eq | reflexivity].
Qed.

(** C1, amended: with caching enabled and [CACHE_HOURS] a number of
    hours a [timedelta] can hold, when a query for current weather or for
    a forecast returned a truthy payload and is made again on the same
    local calendar day, while its cache file is younger than the freshness
    window and the offset of local time from UTC is what it was when the
    file was written (no change of daylight saving in between), the second
    call sends no request and returns the same data; and when the cache
    file of a query is as old as the window or older, the offset being
    what it was when the file was written, the call sends exactly one
    request. *)
Theorem cache_freshness_discipline (h : host) (city country : option string)
    (days : option Z) (w : world) (dt : Z) (d : value) :
  timedelta_ok (CACHE_HOURS (config h)) = true ->
  (USE_CACHE (config h) = true ->
   let o1 := get_current_weather h city country w in
   let w2 := elapse dt (final o1) in
   res o1 = Ok d -> truthy d = true ->
   date_of (local_time h (clock w)) = date_of (local_time h (clock w2)) ->
   (forall f, cache_dir w2 !! current_cache_file h w2 city = Some f ->
              file_age w2 f < freshness_window h
              /\ utc_offset h (st_mtime f / US_PER_SECOND)
                 = utc_offset h (clock w2 / US_PER_SECOND)) ->
   let o2 := get_current_weather h city country w2 in
   res o2 = Ok d /\ count_requests (trace o2) = 0%nat)
  /\ (USE_CACHE (config h) = true ->
      let o1 := get_forecast h city country days w in
      let w2 := elapse dt (final o1) in
      res o1 = Ok d -> truthy d = true ->
      date_of (local_time h (clock w)) = date_of (local_time h (clock w2)) ->
      (forall f, cache_dir w2 !! forecast_cache_file h w2 city = Some f ->
                 file_age w2 f < freshness_window h
                 /\ utc_offset h (st_mtime f / US_PER_SECOND)
                    = utc_offset h (clock w2 / US_PER_SECOND)) ->
      let o2 := get_forecast h city country days w2 in
      res o2 = Ok d /\ count_requests (trace o2) = 0%nat)
  /\ (forall f, cache_dir w !! current_cache_file h w city = Some f ->
                freshness_window h <= file_age w f ->
                utc_offset h (st_mtime f / US_PER_SECOND)
                = utc_offset h (clock w / US_PER_SECOND) ->
                count_requests (trace (get_current_weather h city country w)) = 1%nat)
  /\ (forall f, cache_dir w !! forecast_cache_file h w city = Some f ->
                freshness_window h <= file_age w f ->
                utc_offset h (st_mtime f / US_PER_SECOND)
                = utc_offset h (clock w / US_PER_SECOND) ->
                count_requests (trace (get_forecast h city country days w)) = 1%nat).
Proof.
  intros _. split; [|split; [|split]].
  - intros Huse o1 w2 Hres Htruthy Hday Hfresh.
    destruct (get_current_weather_leaves_entry h city country w d Huse Hres Htruthy)
      as (Hclock & f & Hfile & Hbody).
    assert (current_cache_file h w2 city = current_cache_file h w city) as Hname.
    { unfold current_cache_file. f_equal. symmetry.
      now apply cache_key_same_day. }
    assert (cache_dir w2 !! current_cache_file h w2 city = Some f) as Hfile2
      by (rewrite Hname; exact Hfile).
    destruct (Hfresh f Hfile2) as (Hage & Hzone).
    rewrite <- (naive_age_same_offset h w2 f Hzone) in Hage.
    destruct (get_current_weather_hit h city country w2 f d Huse Hfile2
                Hage Hbody Htruthy) as (H1 & H2 & _).
    now split.
  - intros Huse o1 w2 Hres Htruthy Hday Hfresh.
    destruct (get_forecast_leaves_entry h city country days w d Huse Hres Htruthy)
      as (Hclock & f & Hfile & Hbody).
    assert (forecast_cache_file h w2 city = forecast_cache_file h w city) as Hname.
    { unfold forecast_cache_file. f_equal. symmetry.
      now apply cache_key_same_day. }
    assert (cache_dir w2 !! forecast_cache_file h w2 city = Some f) as Hfile2
      by (rewrite Hname; exact Hfile).
    destruct (Hfresh f Hfile2) as (Hage & Hzone).
    rewrite <- (naive_age_same_offset h w2 f Hzone) in Hage.
    destruct (get_forecast_hit h city country days w2 f d Huse Hfile2
                Hage Hbody Htruthy) as (H1 & H2 & _).
    now split.
  - intros f Hfile Hstale Hzone.
    rewrite <- (naive_age_same_offset h w f Hzone) in Hstale.
    apply (get_current_weather_miss h city country w VNone); [|reflexivity].
    now apply (_load_from_cache_stale h _ "current" w f).
  - intros f Hfile Hstale Hzone.
    rewrite <- (naive_age_same_offset h w f Hzone) in Hstale.
    apply (get_forecast_miss h city country days w VNone); [|reflexivity].
    now apply (_load_from_cache_stale h _ "forecast" w f).
Qed.

(** ** Comparing cities *)

Lemma _load_from_cache_times (h : host) (key endpoint : string) (w : world) :
  request_times (trace (_load_from_cache h key endpoint w)) = [].
Proof.
  rewrite _load_from_cache_run. cbv zeta.
  destruct (negb (USE_CACHE (config h))); [reflexivity|].
  destruct (cache_dir w !! cache_file_name key endpoint) as [f|]; [|reflexivity].
  destruct (naive_age h w f <? freshness_window h); reflexivity.
Qed.

(** A call reads the clock but does not move it, and a request it sends
    is sent at the time of the call. *)
Lemma get_current_weather_times (h : host) (city country : option string)
    (w : world) :
  let o := get_current_weather h city country w in
  clock (final o) = clock w
  /\ (request_times (trace o) = [] \/ request_times (trace o) = [clock w]).
Proof.
  cbv zeta. rewrite get_current_weather_run. cbv zeta.
  pose proof (_load_from_cache_times h
                (cache_key_at h w (str_or city (CITY (config h))) "current")
                "current" w) as Ht.
  destruct (_load_from_cache h _ "current" w) as [[cached|e] w1 tr];
    cbn [trace] in Ht; [|auto].
  destruct (truthy cached); [auto|].
  destruct (server w (clock w) _) as [code body|msg].
  1: destruct (code =? 200);
       [destruct body as [data|]; [destruct (disk_writable w)|]
       |destruct (code =? 404)].
  all: cbn [final trace]; (split; [reflexivity|]); right;
    rewrite request_times_app, Ht; reflexivity.
Qed.

(** What one turn of the loop does, case by case. *)
Lemma compare_step_run (h : host) (c : gmap string (option string))
    (acc : list value) (w : world) :
  let hello := EvPrint ("正在获取 " +:+ str_opt (city_of c) +:+ " 的数据...") in
  let pause := EvSleep RATE_LIMIT_DELAY in
  compare_step h c acc w =
  match get_current_weather h (city_of c) (country_of c) w with
  | Outcome (Raise e) w1 tr => Outcome (Raise e) w1 (hello :: tr)
  | Outcome (Ok data) w1 tr =>
      if truthy data then
        match parse_weather_data h data (display_name_of c) with
        | Raise e => Outcome (Raise e) w1 (hello :: tr)
        | Ok parsed =>
            if truthy parsed then
              match comparison_row parsed with
              | Ok row =>
                  Outcome (Ok (acc ++ [row])) (elapse RATE_LIMIT_DELAY w1)
                          (hello :: tr ++ [pause])
              | Raise e => Outcome (Raise e) w1 (hello :: tr)
              end
            else
              Outcome (Ok acc) (elapse RATE_LIMIT_DELAY w1) (hello :: tr ++ [pause])
        end
      else Outcome (Ok acc) (elapse RATE_LIMIT_DELAY w1) (hello :: tr ++ [pause])
  end.
Proof.
  cbv zeta. unfold compare_step, bind, print, lift, sleep, ret, elapse.
  destruct (get_current_weather h (city_of c) (country_of c) w)
    as [[data|e] w1 tr]; [|reflexivity].
  destruct (truthy data); [|cbn [app]; now rewrite ?app_nil_r].
  destruct (parse_weather_data h data (display_name_of c)) as [parsed|e];
    [|cbn [app]; now rewrite ?app_nil_r].
  destruct (truthy parsed); [|cbn [app]; now rewrite ?app_nil_r].
  destruct (comparison_row parsed) as [row|e];
    cbn [app]; now rewrite ?app_nil_r.
Qed.

Lemma comparison_row_fields (parsed row : value) :
  comparison_row parsed = Ok row -> has_row_fields row.
Proof.
  unfold comparison_row, rbind.
  repeat match goal with
         | |- context [getitem parsed ?k] => destruct (getitem parsed k)
         end; try discriminate.
  intros [= <-]. reflexivity.
Qed.

(** A well-formed payload gives a row. *)
Lemma comparison_row_well_formed (h : host) (data : value) (name : option string) :
  well_formed h data = true ->
  truthy data = true
  /\ exists parsed row,
       parse_weather_data h data name = Ok parsed
       /\ truthy parsed = true
       /\ comparison_row parsed = Ok (VDict row)
       /\ map fst row = row_fields.
Proof.
  intros Hwf. split.
  { unfold well_formed in Hwf. split_andb.
    match goal with H : has "timezone" _ _ = true |- _ =>
      exact (has_truthy _ _ _ H) end. }
  pose proof (parse_weather_data_fields h data name Hwf) as Hp.
  repeat match type of Hp with
         | ex _ => destruct Hp as [? Hp]
         | _ /\ _ => destruct Hp as [_ Hp]
         end.
  eexists _, _. split; [exact Hp|]. split; [reflexivity|].
  split; reflexivity.
Qed.

(** One turn of the loop: at most one request, sent at the time the turn
    starts; when the turn ends normally the clock has moved by the delay
    and at most one row, with the reduced field set, was appended. *)
Lemma compare_step_props (h : host) (c : gmap string (option string))
    (acc : list value) (w : world) :
  let o := compare_step h c acc w in
  (request_times (trace o) = [] \/ request_times (trace o) = [clock w])
  /\ (forall rows, res o = Ok rows ->
        clock (final o) = clock w + RATE_LIMIT_DELAY
        /\ (rows = acc \/ exists r, rows = acc ++ [r] /\ has_row_fields r)).
Proof.
  cbv zeta. rewrite compare_step_run. cbv zeta.
  pose proof (get_current_weather_times h (city_of c) (country_of c) w)
    as (Hclock & Htimes).
  destruct (get_current_weather h (city_of c) (country_of c) w)
    as [[data|e] w1 tr]; cbn [final trace] in Hclock, Htimes.
  2: { cbn [trace res]. split; [exact Htimes | discriminate]. }
  assert (forall tl, request_times tl = [] ->
            request_times (tr ++ tl) = [] \/ request_times (tr ++ tl) = [clock w])
    as Happ.
  { intros tl Htl. rewrite request_times_app, Htl, app_nil_r. exact Htimes. }
  destruct (truthy data).
  2: { cbn [trace res final elapse clock request_times].
       split; [now apply Happ|]. intros rows [= <-]. split; [lia|now left]. }
  destruct (parse_weather_data h data (display_name_of c)) as [parsed|e].
  2: { cbn [trace res request_times]. split; [exact Htimes | discriminate]. }
  destruct (truthy parsed).
  2: { cbn [trace res final elapse clock request_times].
       split; [now apply Happ|]. intros rows [= <-]. split; [lia|now left]. }
  destruct (comparison_row parsed) as [row|e] eqn:Erow.
  2: { cbn [trace res request_times]. split; [exact Htimes | discriminate]. }
  cbn [trace res final elapse clock request_times].
  split; [now apply Happ|]. intros rows [= <-]. split; [lia|].
  right. exists row. split; [reflexivity|]. now apply (comparison_row_fields parsed).
Qed.

Lemma spaced_cons (gap t : Z) (ts : list Z) :
  spaced gap ts -> (forall u, In u ts -> t + gap <= u) -> spaced gap (t :: ts).
Proof.
  destruct ts as [|u ts]; [easy|].
  intros Hs Hlow. cbn [spaced]. split; [apply Hlow; now left | exact Hs].
Qed.

(** The loop: the rows it returns extend the rows it was given, by at
    most one row per city, each with the reduced field set; the clock has
    moved by one delay per city; and the requests it sent are at least one
    delay apart. *)
Lemma compare_loop_props (h : host) (cities : list (gmap string (option string))) :
  forall (acc : list value) (w : world),
    let o := compare_loop h cities acc w in
    spaced RATE_LIMIT_DELAY (request_times (trace o))
    /\ (forall t, In t (request_times (trace o)) -> clock w <= t)
    /\ (forall rows, res o = Ok rows ->
          clock (final o) = clock w + Z.of_nat (length cities) * RATE_LIMIT_DELAY
          /\ exists new, rows = acc ++ new
                         /\ (length new <= length cities)%nat
                         /\ Forall has_row_fields new).
Proof.
  induction cities as [|c cities IH]; intros acc w; cbv zeta.
  - cbn. split; [exact I|]. split; [intros t []|].
    intros rows [= <-]. split; [lia|]. exists []. rewrite app_nil_r.
    split; [reflexivity|]. split; [cbn; lia | constructor].
  - cbn [compare_loop]. unfold bind.
    pose proof (compare_step_props h c acc w) as (Htimes & Hok).
    destruct (compare_step h c acc w) as [[acc'|e] w1 tr1];
      cbn [res final trace] in Htimes, Hok.
    2: { cbn [trace res]. split; [|split; [|discriminate]].
         - destruct Htimes as [-> | ->]; cbn; exact I.
         - intros t Ht. destruct Htimes as [E|E]; rewrite E in Ht;
             [destruct Ht | destruct Ht as [<-|[]]; lia]. }
    destruct (Hok acc' eq_refl) as (Hclock & Hrows).
    pose proof (IH acc' w1) as (Hs & Hlow & Hres). cbv zeta in Hs, Hlow, Hres.
    destruct (compare_loop h cities acc' w1) as [r w2 tr2];
      cbn [res final trace] in *.
    rewrite request_times_app.
    assert (forall u, In u (request_times tr2) -> clock w + RATE_LIMIT_DELAY <= u)
      as Hlow' by (intros u Hu; specialize (Hlow u Hu); lia).
    unfold RATE_LIMIT_DELAY in *.
    split; [|split].
    + destruct Htimes as [-> | ->]; [exact Hs|].
      now apply spaced_cons.
    + intros t Ht. apply in_app_or in Ht as [Ht|Ht].
      * destruct Htimes as [E|E]; rewrite E in Ht;
          [destruct Ht | destruct Ht as [<-|[]]; lia].
      * specialize (Hlow' t Ht). lia.
    + intros rows Hr. destruct (Hres rows Hr) as (Hc2 & new & -> & Hlen & Hall).
      split; [cbn [length]; lia|].
      destruct Hrows as [-> | (r0 & -> & Hr0)].
      * exists new. repeat split; [cbn [length]; lia | exact Hall].
      * exists (r0 :: new). rewrite <- app_assoc.
        repeat split; [cbn [length]; lia | now constructor].
Qed.

(** The rows the loop was given stay in front, untouched. *)
Lemma compare_loop_acc (h : host) (cities : list (gmap string (option string))) :
  forall (acc : list value) (w : world),
    compare_loop h cities acc w =
    match compare_loop h cities [] w with
    | Outcome (Ok rows) w' tr => Outcome (Ok (acc ++ rows)) w' tr
    | Outcome (Raise e) w' tr => Outcome (Raise e) w' tr
    end.
Proof.
  induction cities as [|c cities IH]; intros acc w.
  - cbn. now rewrite app_nil_r.
  - cbn [compare_loop]. unfold bind. rewrite !compare_step_run. cbv zeta.
    destruct (get_current_weather h (city_of c) (country_of c) w)
      as [[data|e] w1 tr]; [|reflexivity].
    destruct (truthy data).
    2: { rewrite (IH acc). destruct (compare_loop h cities [] _) as [[rows|e] w2 tr2];
         reflexivity. }
    destruct (parse_weather_data h data (display_name_of c)) as [parsed|e];
      [|reflexivity].
    destruct (truthy parsed).
    2: { rewrite (IH acc). destruct (compare_loop h cities [] _) as [[rows|e] w2 tr2];
         reflexivity. }
    destruct (comparison_row parsed) as [row|e]; [|reflexivity].
    rewrite (IH (acc ++ [row])), (IH ([] ++ [row])).
    destruct (compare_loop h cities [] _) as [[rows|e] w2 tr2]; [|reflexivity].
    cbn [app]. now rewrite <- app_assoc.
Qed.

(** The loop over a list followed by another is the loop over the first,
    then the loop over the second from where the first stopped. *)
Lemma compare_loop_app (h : host) (cs1 cs2 : list (gmap string (option string))) :
  forall (acc : list value) (w : world),
    compare_loop h (cs1 ++ cs2) acc w
    = bind (compare_loop h cs1 acc) (compare_loop h cs2) w.
Proof.
  induction cs1 as [|c cs1 IH]; intros acc w.
  - cbn [app compare_loop]. unfold bind, ret.
    destruct (compare_loop h cs2 acc w) as [r w2 tr2]. reflexivity.
  - cbn [app compare_loop]. unfold bind at 1 2 3.
    destruct (compare_step h c acc w) as [[acc'|e] w1 tr1]; [|reflexivity].
    rewrite IH. unfold bind.
    destruct (compare_loop h cs1 acc' w1) as [[rows|e] w2 tr2]; [|reflexivity].
    destruct (compare_loop h cs2 rows w2) as [r w3 tr3].
    now rewrite app_assoc.
Qed.

(** C8, amended: [compare_cities] takes the cities one after the other,
    appends a row with the reduced field set for each city whose fetch
    gave data and nothing for a city whose fetch returned no data, so the
    rows come in input order (the rows of a list of cities followed by
    more cities are the rows of the list, then the rows of the others); it
    waits 1.1 s after each city, so two successive requests are at least
    1.1 s apart; in particular, for three cities of which the second
    returns no data, it returns the row of the first followed by the row
    of the third.  A city whose fetch raises, or whose payload makes the
    parser raise, is not skipped: the exception leaves [compare_cities]
    and no row is returned, those of the cities before it included. *)
Theorem compare_cities_skips_failures (h : host)
    (cities : list (gmap string (option string)))
    (c1 c2 c3 : gmap string (option string)) (w : world) (d1 d2 d3 : value) :
  (let o := compare_cities h cities w in
   spaced RATE_LIMIT_DELAY (request_times (trace o))
   /\ (forall rows, res o = Ok rows ->
         (length rows <= length cities)%nat
         /\ Forall has_row_fields rows
         /\ clock (final o)
            = clock w + Z.of_nat (length cities) * RATE_LIMIT_DELAY))
  /\ (forall more rows,
        res (compare_cities h (cities ++ more) w) = Ok rows ->
        exists rows1 rows2,
          res (compare_cities h cities w) = Ok rows1
          /\ res (compare_cities h more (final (compare_cities h cities w)))
             = Ok rows2
          /\ rows = rows1 ++ rows2)
  /\ (let o1 := get_current_weather h (city_of c1) (country_of c1) w in
      let w1 := elapse RATE_LIMIT_DELAY (final o1) in
      let o2 := get_current_weather h (city_of c2) (country_of c2) w1 in
      let w2 := elapse RATE_LIMIT_DELAY (final o2) in
      let o3 := get_current_weather h (city_of c3) (country_of c3) w2 in
      res o1 = Ok d1 -> well_formed h d1 = true ->
      res o2 = Ok d2 -> truthy d2 = false ->
      res o3 = Ok d3 -> well_formed h d3 = true ->
      exists p1 p3 r1 r3,
        parse_weather_data h d1 (display_name_of c1) = Ok p1
        /\ comparison_row p1 = Ok r1
        /\ parse_weather_data h d3 (display_name_of c3) = Ok p3
        /\ comparison_row p3 = Ok r3
        /\ res (compare_cities h [c1; c2; c3] w) = Ok [r1; r3]
        /\ clock (final (compare_cities h [c1; c2; c3] w))
           = clock w + 3 * RATE_LIMIT_DELAY)
  /\ (forall (before after : list (gmap string (option string)))
             (c : gmap string (option string)) (rows : list value) (e : exn),
        res (compare_cities h before w) = Ok rows ->
        let w1 := final (compare_cities h before w) in
        let o := get_current_weather h (city_of c) (country_of c) w1 in
        (res o = Raise e
         \/ exists data, res o = Ok data /\ truthy data = true
                         /\ parse_weather_data h data (display_name_of c) = Raise e) ->
        res (compare_cities h (before ++ c :: after) w) = Raise e).
Proof.
  split; [|split; [|split]].
  - cbv zeta. unfold compare_cities.
    pose proof (compare_loop_props h cities [] w) as (Hs & _ & Hres).
    cbv zeta in Hs, Hres. split; [exact Hs|].
    intros rows Hr. destruct (Hres rows Hr) as (Hclock & new & -> & Hlen & Hall).
    cbn [app]. auto.
  - unfold compare_cities. intros more rows. rewrite compare_loop_app.
    unfold bind.
    destruct (compare_loop h cities [] w) as [[rows1|e] w1 tr1];
      [|discriminate].
    cbn [res final]. rewrite compare_loop_acc.
    destruct (compare_loop h more [] w1) as [[rows2|e] w2 tr2];
      cbn [res]; [|discriminate].
    intros [= <-]. eauto.
  - cbv zeta. intros H1 Hwf1 H2 Hfalsy H3 Hwf3.
    destruct (comparison_row_well_formed h d1 (display_name_of c1) Hwf1)
      as (T1 & p1 & r1 & Hp1 & Tp1 & Hr1 & _).
    destruct (comparison_row_well_formed h d3 (display_name_of c3) Hwf3)
      as (T3 & p3 & r3 & Hp3 & Tp3 & Hr3 & _).
    exists p1, p3, (VDict r1), (VDict r3).
    do 4 (split; [assumption|]).
    pose proof (get_current_weather_times h (city_of c1) (country_of c1) w)
      as (Hc1 & _).
    destruct (get_current_weather h (city_of c1) (country_of c1) w)
      as [[x1|e1] wa tr1] eqn:E1; cbn [res final] in *; [|discriminate].
    injection H1 as ->.
    pose proof (get_current_weather_times h (city_of c2) (country_of c2)
                  (elapse RATE_LIMIT_DELAY wa)) as (Hc2 & _).
    destruct (get_current_weather h (city_of c2) (country_of c2) _)
      as [[x2|e2] wb tr2] eqn:E2; cbn [res final] in *; [|discriminate].
    injection H2 as ->.
    pose proof (get_current_weather_times h (city_of c3) (country_of c3)
                  (elapse RATE_LIMIT_DELAY wb)) as (Hc3 & _).
    destruct (get_current_weather h (city_of c3) (country_of c3) _)
      as [[x3|e3] wc tr3] eqn:E3; cbn [res final] in *; [|discriminate].
    injection H3 as ->.
    unfold compare_cities. cbn [compare_loop]. unfold bind, ret.
    rewrite compare_step_run. cbv zeta. rewrite E1, T1, Hp1, Tp1, Hr1.
    rewrite compare_step_run. cbv zeta. rewrite E2, Hfalsy.
    rewrite compare_step_run. cbv zeta. rewrite E3, T3, Hp3, Tp3, Hr3.
    cbn [res final app]. split; [reflexivity|].
    cbn [elapse clock] in *. lia.
  - intros before after c rows e. unfold compare_cities. intros Hrows.
    cbv zeta. intros Hbad.
    rewrite compare_loop_app. unfold bind.
    destruct (compare_loop h before [] w) as [[rows'|e'] wb trb];
      cbn [res final] in *; [|discriminate].
    cbn [compare_loop]. unfold bind. rewrite compare_step_run. cbv zeta.
    destruct (get_current_weather h (city_of c) (country_of c) wb)
      as [[data|e'] wc trc]; cbn [res] in Hbad.
    + destruct Hbad as [[=]|(data' & [= <-] & Ht & Hp)].
      rewrite Ht, Hp. reflexivity.
    + destruct Hbad as [[= ->]|(data' & [=] & _)]. reflexivity.
Qed.

(** * Further properties *)

(** ** What the parser returns *)

Lemma getitem_has (v : value) (k : string) (x : value) (P : value -> bool) :
  getitem v k = Ok x -> P x = true -> has k P v = true.
Proof.
  destruct v; try discriminate. cbn [getitem has].
  destruct (assoc k d); [|discriminate]. now intros [= ->].
Qed.

(** Every step of a successful parse, named. *)
Lemma parse_weather_data_steps (h : host) (data : value) (name : option string)
    (out : value) :
  parse_weather_data h data name = Ok out ->
  (truthy data = false /\ out = VNone)
  \/ (truthy data = true
      /\ exists display ws w0 en wz actual sys country dt updated description
                mn temp temp_r feels feels_r tmax tmax_r tmin tmin_r
                humidity pressure wd speed deg cl clouds_all visibility
                sunrise sunrise_t sunset sunset_t timezone comfort,
           (match name with
            | Some s => if String.eqb s "" then dict_get data "name" (VStr "未知城市")
                        else Ok (VStr s)
            | None => dict_get data "name" (VStr "未知城市")
            end) = Ok display
           /\ getitem data "weather" = Ok ws /\ getitem0 ws = Ok w0
           /\ getitem w0 "main" = Ok en /\ weather_map_get en = Ok wz
           /\ dict_get data "name" (VStr "未知") = Ok actual
           /\ getitem data "sys" = Ok sys /\ getitem sys "country" = Ok country
           /\ getitem data "dt" = Ok dt /\ fromtimestamp h dt = Ok updated
           /\ getitem w0 "description" = Ok description
           /\ getitem data "main" = Ok mn
           /\ getitem mn "temp" = Ok temp /\ round1 temp = Ok temp_r
           /\ getitem mn "feels_like" = Ok feels /\ round1 feels = Ok feels_r
           /\ getitem mn "temp_max" = Ok tmax /\ round1 tmax = Ok tmax_r
           /\ getitem mn "temp_min" = Ok tmin /\ round1 tmin = Ok tmin_r
           /\ getitem mn "humidity" = Ok humidity
           /\ getitem mn "pressure" = Ok pressure
           /\ getitem data "wind" = Ok wd /\ getitem wd "speed" = Ok speed
           /\ dict_get wd "deg" (VStr "无数据") = Ok deg
           /\ getitem data "clouds" = Ok cl /\ getitem cl "all" = Ok clouds_all
           /\ dict_get data "visibility" (VStr "无数据") = Ok visibility
           /\ getitem sys "sunrise" = Ok sunrise
           /\ fromtimestamp h sunrise = Ok sunrise_t
           /\ getitem sys "sunset" = Ok sunset
           /\ fromtimestamp h sunset = Ok sunset_t
           /\ getitem data "timezone" = Ok timezone
           /\ comfort_of_values temp_r humidity speed = Ok comfort
           /\ out = VDict
                  [("城市", display);
                   ("实际城市名", actual);
                   ("国家", country);
                   ("更新时间", VStr (strftime_full updated));
                   ("天气状况", wz);
                   ("详细描述", description);
                   ("当前温度(℃)", temp_r);
                   ("体感温度(℃)", feels_r);
                   ("最高温度(℃)", tmax_r);
                   ("最低温度(℃)", tmin_r);
                   ("湿度(%)", humidity);
                   ("气压(hPa)", pressure);
                   ("风速(m/s)", speed);
                   ("风向(°)", deg);
                   ("云量(%)", clouds_all);
                   ("能见度(m)", visibility);
                   ("日出时间", VStr (strftime_HMS sunrise_t));
                   ("日落时间", VStr (strftime_HMS sunset_t));
                   ("时区偏移", timezone);
                   ("数据来源", VStr "OpenWeatherMap");
                   ("舒适度评级", comfort)]).
Proof.
  unfold parse_weather_data.
  destruct (truthy data); cbn [negb]; [|intros [= <-]; now left].
  intros H. right. split; [reflexivity|].
  repeat match type of H with
         | rbind ?r _ = Ok _ =>
             let E := fresh "E" in
             destruct r eqn:E; cbn [rbind] in H; [|discriminate H]
         end.
  injection H as <-.
  repeat match goal with
         | E1 : ?x = Ok ?a, E2 : ?x = Ok ?b |- _ =>
             rewrite E1 in E2; injection E2 as <-
         end.
  do 34 eexists. repeat (split; [first [reflexivity | eassumption]|]).
  reflexivity.
Qed.

Lemma round1_ok_number (v out : value) :
  round1 v = Ok out -> is_number v = true /\ is_number out = true.
Proof. destruct v; try discriminate; intros [= <-]; now split. Qed.

Lemma is_number_round1 (v : value) :
  is_number v = true -> exists out, round1 v = Ok out /\ is_number out = true.
Proof. destruct v; try discriminate; intros _; eexists; now split. Qed.

Lemma comfort_of_values_ok (t hum spd out : value) :
  comfort_of_values t hum spd = Ok out ->
  exists qt qh qs,
    as_number t = Some qt /\ as_number hum = Some qh /\ as_number spd = Some qs
    /\ out = VStr (calculate_comfort_index qt qh qs).
Proof.
  unfold comfort_of_values.
  destruct (as_number t) as [qt|]; [|discriminate].
  destruct (as_number hum) as [qh|]; [|discriminate].
  destruct (as_number spd) as [qs|]; [|discriminate].
  intros [= <-]. eauto 10.
Qed.

(** X1: [parse_weather_data] returns [None] exactly for a falsy input;
    any other value it returns is a record with the twenty-one keys of the
    parser, in their order, whose source field reads OpenWeatherMap. *)
Theorem parse_weather_data_result (h : host) (data : value) (name : option string) :
  (parse_weather_data h data name = Ok VNone <-> truthy data = false)
  /\ (forall out,
        parse_weather_data h data name = Ok out -> out <> VNone ->
        exists p, out = VDict p
                  /\ map fst p = parsed_fields
                  /\ assoc "数据来源" p = Some (VStr "OpenWeatherMap")).
Proof.
  split; [split|].
  - intros H. apply parse_weather_data_steps in H as [[Hf _]|[_ H]]; [exact Hf|].
    repeat match type of H with
           | ex _ => destruct H as [? H]
           | _ /\ _ => destruct H as [_ H]
           end.
    discriminate.
  - intros Hf. unfold parse_weather_data. now rewrite Hf.
  - intros out H Hne. apply parse_weather_data_steps in H as [[_ ->]|[_ H]];
      [congruence|].
    repeat match type of H with
           | ex _ => destruct H as [? H]
           | _ /\ _ => destruct H as [_ H]
           end.
    subst out. eexists. repeat split.
Qed.

(** X2: the record's city is the display name given, when there is one
    and it is not empty, and the payload's own name otherwise; a payload
    without a name, wind direction or visibility gets the placeholder
    texts of the parser in their place. *)
Theorem parse_weather_data_defaults (h : host) (data : value)
    (name : option string) (p : list (string * value)) :
  parse_weather_data h data name = Ok (VDict p) ->
  exists d wd,
    data = VDict d /\ assoc "wind" d = Some (VDict wd)
    /\ assoc "城市" p
       = Some (match name with
               | Some s => if String.eqb s "" then
                             default (VStr "未知城市") (assoc "name" d)
                           else VStr s
               | None => default (VStr "未知城市") (assoc "name" d)
               end)
    /\ assoc "实际城市名" p = Some (default (VStr "未知") (assoc "name" d))
    /\ assoc "风向(°)" p = Some (default (VStr "无数据") (assoc "deg" wd))
    /\ assoc "能见度(m)" p = Some (default (VStr "无数据") (assoc "visibility" d)).
Proof.
  intros H. apply parse_weather_data_steps in H as [[_ [=]]|[_ H]].
  destruct H as (display & ws & w0 & en & wz & actual & sys & country & dt
                 & updated & description & mn & temp & temp_r & feels & feels_r
                 & tmax & tmax_r & tmin & tmin_r & humidity & pressure & wd
                 & speed & deg & cl & clouds_all & visibility & sunrise
                 & sunrise_t & sunset & sunset_t & timezone & comfort & H).
  destruct H as (Hdisp & _ & _ & _ & _ & Hact & _ & _ & _ & _ & _ & _ & _ & _
                 & _ & _ & _ & _ & _ & _ & _ & _ & Hwind & _ & Hdeg & _ & _
                 & Hvis & _ & _ & _ & _ & _ & _ & [= ->]).
  destruct data as [| | | | | |d]; try discriminate Hact.
  cbn [dict_get getitem] in *.
  destruct (assoc "wind" d) as [wv|] eqn:Ew; [|discriminate].
  injection Hwind as ->.
  destruct wd as [| | | | | |wd]; try discriminate Hdeg.
  cbn [dict_get] in Hdeg.
  injection Hact as <-. injection Hdeg as <-. injection Hvis as <-.
  exists d, wd. split; [reflexivity|]. split; [exact Ew|].
  split; [|repeat split].
  destruct name as [s|]; [destruct (String.eqb s "")|];
    injection Hdisp as <-; reflexivity.
Qed.

(** X3: the comfort rating of a record is the comfort index of the
    temperature, humidity and wind speed shown in the same record: of the
    rounded temperature, not of the one received. *)
Theorem parse_weather_data_comfort (h : host) (data : value)
    (name : option string) (p : list (string * value)) :
  parse_weather_data h data name = Ok (VDict p) ->
  exists raw t hum spd qt qh qs,
    field2 data "main" "temp" = Some raw /\ round1 raw = Ok t
    /\ assoc "当前温度(℃)" p = Some t
    /\ assoc "湿度(%)" p = Some hum
    /\ assoc "风速(m/s)" p = Some spd
    /\ as_number t = Some qt /\ as_number hum = Some qh /\ as_number spd = Some qs
    /\ assoc "舒适度评级" p = Some (VStr (calculate_comfort_index qt qh qs)).
Proof.
  intros H. apply parse_weather_data_steps in H as [[_ [=]]|[_ H]].
  destruct H as (display & ws & w0 & en & wz & actual & sys & country & dt
                 & updated & description & mn & temp & temp_r & feels & feels_r
                 & tmax & tmax_r & tmin & tmin_r & humidity & pressure & wd
                 & speed & deg & cl & clouds_all & visibility & sunrise
                 & sunrise_t & sunset & sunset_t & timezone & comfort & H).
  destruct H as (_ & _ & _ & _ & _ & _ & _ & _ & _ & _ & _ & Hmn & Htemp & Hr
                 & _ & _ & _ & _ & _ & _ & _ & _ & _ & _ & _ & _ & _
                 & _ & _ & _ & _ & _ & _ & Hc & [= ->]).
  destruct (comfort_of_values_ok _ _ _ _ Hc) as (qt & qh & qs & Et & Eh & Es & ->).
  exists temp, temp_r, humidity, speed, qt, qh, qs.
  unfold field2. rewrite Hmn, Htemp. repeat split; assumption.
Qed.

Lemma in_datetime_range_valid (t : datetime) :
  in_datetime_range t = valid_datetime t.
Proof.
  apply eq_true_iff_eq. unfold in_datetime_range.
  now rewrite valid_datetime_range, andb_true_iff, !Z.leb_le.
Qed.

(** The timestamps that can be converted are those
    [datetime.fromtimestamp] accepts. *)
Lemma is_timestamp_spec (h : host) (v : value) :
  is_timestamp h v = true <-> exists t, fromtimestamp h v = Ok t.
Proof.
  unfold is_timestamp, fromtimestamp.
  destruct (as_number v) as [q|]; [|split; [discriminate|intros [t [=]]]].
  cbv zeta. set (us := round_half_even (q * inject_Z US_PER_SECOND)).
  set (o1 := utc_offset h (us / US_PER_SECOND)).
  set (o0 := utc_offset h (us / US_PER_SECOND - 86400)).
  rewrite !in_datetime_range_valid.
  replace (us - (o0 - o1) * US_PER_SECOND) with (us + (o1 - o0) * US_PER_SECOND)
    by lia.
  replace (o0 - o1 <=? 0) with (0 <=? o1 - o0)
    by (apply eq_true_iff_eq; rewrite !Z.leb_le; lia).
  destruct (in_time_t v (us / US_PER_SECOND)); cbn [negb andb];
    [|split; [discriminate|intros [t [=]]]].
  destruct (valid_datetime (local_time h us)) eqn:V; cbn [andb].
  - assert (in_tm_year (year_of (local_time h us)) = true) as ->.
    { unfold valid_datetime in V.
      apply andb_true_iff in V as [?%Z.leb_le ?%Z.leb_le].
      unfold in_tm_year. change (2 ^ 31) with 2147483648.
      apply andb_true_iff. split; apply Z.leb_le; lia. }
    cbn [negb].
    destruct (valid_datetime (local_time h (us - US_PER_DAY))
              && ((0 <=? o1 - o0)
                  || valid_datetime
                       (local_time h (us + (o1 - o0) * US_PER_SECOND)))).
    + split; eauto.
    + split; [discriminate|intros [t [=]]].
  - split; [discriminate|].
    destruct (negb (in_tm_year _)); intros [t [=]].
Qed.

Lemma is_timestamp_ok (h : host) (v : value) :
  is_timestamp h v = true -> exists t, fromtimestamp h v = Ok t.
Proof. apply is_timestamp_spec. Qed.

Lemma is_hashable_get (v : value) :
  is_hashable v = true -> exists wz, weather_map_get v = Ok wz.
Proof. destruct v; try discriminate; intros _; eexists; reflexivity. Qed.

Lemma is_number_as_number (v : value) :
  is_number v = true -> exists q, as_number v = Some q.
Proof. unfold is_number. destruct (as_number v); [eauto|discriminate]. Qed.

Lemma parseable_parsed (h : host) (data : value) (name : option string) :
  parseable h data = true ->
  exists p, parse_weather_data h data name = Ok (VDict p).
Proof.
  unfold parseable. intros H. split_andb.
  match goal with H : has "timezone" _ _ = true |- _ =>
    pose proof (has_truthy _ _ _ H) as Htruthy;
    pose proof (has_dict_get _ _ _ "name" (VStr "未知城市") H) as (nm1 & Enm1);
    pose proof (has_dict_get _ _ _ "name" (VStr "未知") H) as (nm2 & Enm2);
    pose proof (has_dict_get _ _ _ "visibility" (VStr "无数据") H) as (vis & Evis);
    use_has H tz
  end.
  match goal with H : has "weather" _ _ = true |- _ => use_has H ws end.
  destruct ws as [| | | | |[|w0 ws]|]; try discriminate. split_andb.
  match goal with H : has "main" _ w0 = true |- _ => use_has H kw end.
  match goal with H : is_hashable kw = true |- _ =>
    apply is_hashable_get in H; destruct H as (wz & Ewz) end.
  match goal with H : has "description" _ w0 = true |- _ => use_has H desc end.
  match goal with H : has "main" _ data = true |- _ => use_has H mn end.
  split_andb.
  match goal with H : has "temp" _ mn = true |- _ => use_has H temp end.
  match goal with H : has "feels_like" _ mn = true |- _ => use_has H feels end.
  match goal with H : has "temp_max" _ mn = true |- _ => use_has H tmax end.
  match goal with H : has "temp_min" _ mn = true |- _ => use_has H tmin end.
  match goal with H : has "humidity" _ mn = true |- _ => use_has H hum end.
  match goal with H : has "pressure" _ mn = true |- _ => use_has H pres end.
  match goal with H : has "wind" _ data = true |- _ => use_has H wd end.
  match goal with H : has "speed" _ wd = true |- _ =>
    pose proof (has_dict_get _ _ _ "deg" (VStr "无数据") H) as (dg & Edg);
    use_has H spd
  end.
  match goal with H : has "clouds" _ data = true |- _ => use_has H cl end.
  match goal with H : has "all" _ cl = true |- _ => use_has H call end.
  match goal with H : has "sys" _ data = true |- _ => use_has H sy end.
  split_andb.
  match goal with H : has "country" _ sy = true |- _ => use_has H ctry end.
  match goal with H : has "sunrise" _ sy = true |- _ => use_has H sr end.
  match goal with H : has "sunset" _ sy = true |- _ => use_has H ss end.
  match goal with H : has "dt" _ data = true |- _ => use_has H dt end.
  destruct (is_timestamp_ok h sr) as (sr_t & Esr); [assumption|].
  destruct (is_timestamp_ok h ss) as (ss_t & Ess); [assumption|].
  destruct (is_timestamp_ok h dt) as (dt_t & Edt); [assumption|].
  destruct (is_number_round1 temp) as (temp_r & Etr & Nt); [assumption|].
  destruct (is_number_round1 feels) as (feels_r & Efr & _); [assumption|].
  destruct (is_number_round1 tmax) as (tmax_r & Exr & _); [assumption|].
  destruct (is_number_round1 tmin) as (tmin_r & Enr & _); [assumption|].
  destruct (is_number_as_number temp_r Nt) as (qt & Eqt).
  destruct (is_number_as_number hum) as (qh & Eqh); [assumption|].
  destruct (is_number_as_number spd) as (qs & Eqs); [assumption|].
  unfold parse_weather_data, comfort_of_values.
  rewrite Htruthy, Enm1. cbn [negb].
  replace (match name with
           | Some s => if String.eqb s "" then Ok nm1 else Ok (VStr s)
           | None => Ok nm1
           end)
    with (Ok (match name with
              | Some s => if String.eqb s "" then nm1 else VStr s
              | None => nm1
              end))
    by (destruct name as [s|]; [destruct (String.eqb s "")|]; reflexivity).
  repeat (cbn [rbind getitem0];
          match goal with
          | E : ?lhs = Ok _ |- context [rbind ?lhs _] => rewrite E
          end).
  cbn [rbind]. rewrite Eqt, Eqh, Eqs. eexists. reflexivity.
Qed.

Lemma parsed_parseable (h : host) (data : value) (name : option string)
    (p : list (string * value)) :
  parse_weather_data h data name = Ok (VDict p) -> parseable h data = true.
Proof.
  intros H. apply parse_weather_data_steps in H as [[_ [=]]|[_ H]].
  destruct H as (display & ws & w0 & en & wz & actual & sys & country & dt
                 & updated & description & mn & temp & temp_r & feels & feels_r
                 & tmax & tmax_r & tmin & tmin_r & humidity & pressure & wd
                 & speed & deg & cl & clouds_all & visibility & sunrise
                 & sunrise_t & sunset & sunset_t & timezone & comfort & H).
  destruct H as (_ & Hws & Hw0 & Hen & Hwz & _ & Hsys & Hcountry & Hdt & Hupd
                 & Hdesc & Hmn & Htemp & Rtemp & Hfeels & Rfeels & Htmax & Rtmax
                 & Htmin & Rtmin & Hhum & Hpres & Hwd & Hspd & _ & Hcl & Hall
                 & _ & Hsr & Tsr & Hss & Tss & Htz & Hc & _).
  destruct (comfort_of_values_ok _ _ _ _ Hc) as (qt & qh & qs & _ & Eh & Es & _).
  unfold parseable.
  repeat (apply andb_true_iff; split).
  - apply (getitem_has _ _ _ _ Hws).
    destruct ws as [| | | |[|c r]|[|x l]|]; try discriminate Hw0;
      injection Hw0 as <-; [discriminate Hen|].
    apply andb_true_iff. split.
    + apply (getitem_has _ _ _ _ Hen). destruct en; try discriminate Hwz; reflexivity.
    + now apply (getitem_has _ _ _ _ Hdesc).
  - apply (getitem_has _ _ _ _ Hmn).
    repeat (apply andb_true_iff; split).
    + apply (getitem_has _ _ _ _ Htemp). now apply (round1_ok_number _ _ Rtemp).
    + apply (getitem_has _ _ _ _ Hfeels). now apply (round1_ok_number _ _ Rfeels).
    + apply (getitem_has _ _ _ _ Htmax). now apply (round1_ok_number _ _ Rtmax).
    + apply (getitem_has _ _ _ _ Htmin). now apply (round1_ok_number _ _ Rtmin).
    + apply (getitem_has _ _ _ _ Hhum). unfold is_number. now rewrite Eh.
    + now apply (getitem_has _ _ _ _ Hpres).
  - apply (getitem_has _ _ _ _ Hwd). apply (getitem_has _ _ _ _ Hspd).
    unfold is_number. now rewrite Es.
  - apply (getitem_has _ _ _ _ Hcl). now apply (getitem_has _ _ _ _ Hall).
  - apply (getitem_has _ _ _ _ Hsys).
    repeat (apply andb_true_iff; split).
    + now apply (getitem_has _ _ _ _ Hcountry).
    + apply (getitem_has _ _ _ _ Hsr). apply is_timestamp_spec. eauto.
    + apply (getitem_has _ _ _ _ Hss). apply is_timestamp_spec. eauto.
  - apply (getitem_has _ _ _ _ Hdt). apply is_timestamp_spec. eauto.
  - now apply (getitem_has _ _ _ _ Htz).
Qed.

Lemma is_timestamp_number (h : host) (v : value) :
  is_timestamp h v = true -> is_number v = true.
Proof.
  unfold is_timestamp, is_number.
  destruct (as_number v); [reflexivity|discriminate].
Qed.

Lemma has_weaken (k : string) (P Q : value -> bool) (v : value) :
  (forall x, P x = true -> Q x = true) -> has k P v = true -> has k Q v = true.
Proof.
  intros HPQ. unfold has. destruct v; try discriminate.
  destruct (assoc k _); [apply HPQ|discriminate].
Qed.

(** A payload the parser accepts has the shape it expects. *)
Lemma parseable_shaped (h : host) (data : value) :
  parseable h data = true -> shaped data = true.
Proof.
  unfold parseable, shaped. rewrite !andb_true_iff.
  intros ((((((Hw & Hm) & Hwi) & Hc) & Hs) & Hdt) & Htz).
  repeat split; try assumption.
  - revert Hs. apply has_weaken. intros s. rewrite !andb_true_iff.
    intros ((Hco & Hsr) & Hss).
    repeat split; [assumption| |];
      eapply has_weaken; try eassumption; apply is_timestamp_number.
  - revert Hdt. apply has_weaken, is_timestamp_number.
Qed.

(** Where the offset of local time from UTC never changes,
    [datetime.fromtimestamp] accepts the numbers whose local time, to the
    microsecond, is at least one day after [datetime.min] and at most
    [datetime.max]. *)
Lemma fromtimestamp_fixed_offset (h : host) (c : Z) (v : value) :
  (forall t, utc_offset h t = c) -> -86400 <= c <= 86400 ->
  (exists t, fromtimestamp h v = Ok t)
  <-> exists q, as_number v = Some q
                /\ datetime_min + US_PER_DAY
                   <= round_half_even (q * inject_Z US_PER_SECOND) + c * US_PER_SECOND
                   <= datetime_max.
Proof.
  intros Hc Hb. unfold fromtimestamp.
  destruct (as_number v) as [q|]; [|split; [intros [t [=]]|intros (q & [=] & _)]].
  cbv zeta. set (us := round_half_even (q * inject_Z US_PER_SECOND)).
  unfold local_time. rewrite !Hc. rewrite Z.sub_diag. cbn [Z.leb orb].
  rewrite andb_true_r.
  assert (valid_datetime (us + c * US_PER_SECOND)
          && valid_datetime (us - US_PER_DAY + c * US_PER_SECOND) = true
          <-> datetime_min + US_PER_DAY <= us + c * US_PER_SECOND <= datetime_max)
    as Hvalid.
  { rewrite andb_true_iff, !valid_datetime_range.
    unfold datetime_min, datetime_max, US_PER_DAY, US_PER_SECOND. lia. }
  split.
  - intros (t & Ht).
    destruct (negb (in_time_t v (us / US_PER_SECOND))); [discriminate|].
    destruct (negb (in_tm_year _)); [discriminate|].
    destruct (valid_datetime (us + c * US_PER_SECOND)
              && valid_datetime (us - US_PER_DAY + c * US_PER_SECOND)) eqn:E;
      [|discriminate].
    exists q. split; [reflexivity|]. now apply Hvalid.
  - intros (q' & [= <-] & Hrange). fold us in Hrange.
    pose proof (proj2 Hvalid Hrange) as E. rewrite E.
    apply andb_true_iff in E as [E _].
    assert (in_time_t v (us / US_PER_SECOND) = true) as ->.
    { unfold in_time_t. apply andb_true_iff.
      change (2 ^ 63) with 9223372036854775808.
      revert Hrange. unfold datetime_min, datetime_max, US_PER_DAY, US_PER_SECOND.
      intros Hrange. clearbody us. split; apply Z.leb_le; [|destruct v];
        Z.div_mod_to_equations; lia. }
    assert (in_tm_year (year_of (us + c * US_PER_SECOND)) = true) as ->.
    { unfold valid_datetime in E.
      apply andb_true_iff in E as [?%Z.leb_le ?%Z.leb_le].
      unfold in_tm_year. change (2 ^ 31) with 2147483648.
      apply andb_true_iff. split; apply Z.leb_le; lia. }
    cbn [negb]. eauto.
Qed.

(** A payload that is not falsy and that the parser does not accept
    makes it raise. *)
Lemma parse_weather_data_raises (h : host) (data : value) (name : option string) :
  truthy data = true -> parseable h data = false ->
  exists e, parse_weather_data h data name = Raise e.
Proof.
  intros Ht Hnp.
  destruct (parse_weather_data h data name) as [out|e] eqn:E; [|eauto].
  exfalso. pose proof E as E'.
  apply parse_weather_data_steps in E' as [[Hf _]|[_ H]]; [congruence|].
  repeat match type of H with
         | ex _ => destruct H as [? H]
         | _ /\ _ => destruct H as [_ H]
         end.
  subst out. apply parsed_parseable in E. congruence.
Qed.

(** X4: [parse_weather_data] builds a record exactly for the payloads
    that have every field it subscripts, with numbers where it rounds or
    compares, a hashable condition keyword, and timestamps that can be
    converted: numbers within [time_t] whose local time, and the local
    time a day earlier, a [datetime] can hold; for any other payload that
    is not falsy it raises.  These timestamps are the ones
    [datetime.fromtimestamp] accepts; where the offset of local time from
    UTC never changes, they are the numbers whose local time, to the
    microsecond, lies from one day after [datetime.min] to
    [datetime.max]. *)
Theorem parse_weather_data_domain (h : host) (data : value) (name : option string) :
  ((exists p, parse_weather_data h data name = Ok (VDict p))
   <-> parseable h data = true)
  /\ (truthy data = true -> parseable h data = false ->
      exists e, parse_weather_data h data name = Raise e)
  /\ (parseable h data = true -> shaped data = true)
  /\ (forall v, is_timestamp h v = true <-> exists t, fromtimestamp h v = Ok t)
  /\ (forall (c : Z) (v : value),
        (forall t, utc_offset h t = c) -> -86400 <= c <= 86400 ->
        (is_timestamp h v = true
         <-> exists q, as_number v = Some q
                       /\ datetime_min + US_PER_DAY
                          <= round_half_even (q * inject_Z US_PER_SECOND)
                             + c * US_PER_SECOND
                          <= datetime_max)).
Proof.
  split; [split|split; [|split; [|split]]].
  - intros (p & Hp). now apply (parsed_parseable h data name p).
  - apply parseable_parsed.
  - apply parse_weather_data_raises.
  - apply parseable_shaped.
  - apply is_timestamp_spec.
  - intros c v Hc Hb.
    rewrite <- (fromtimestamp_fixed_offset h c v Hc Hb).
    apply is_timestamp_spec.
Qed.

(** ** Failures that are values, and failures that are not *)

(** What [get_current_weather] returns when the cache file of the query,
    if there is one, can be read back: a truthy payload from the cache
    without a request, or what the one request gives. *)
Lemma get_current_weather_value (h : host) (city country : option string)
    (w : world) :
  readable w (current_cache_file h w city) = true ->
  let o := get_current_weather h city country w in
  (count_requests (trace o) = 0%nat
   /\ exists v, res o = Ok v /\ truthy v = true)
  \/ (count_requests (trace o) = 1%nat
      /\ res o = Ok (fetched_value
                       (server w (clock w) (current_request h city country))
                       (disk_writable w))).
Proof.
  unfold readable, current_cache_file. intros Hread. cbv zeta.
  rewrite get_current_weather_run. cbv zeta.
  rewrite _load_from_cache_run. cbv zeta.
  destruct (negb (USE_CACHE (config h))).
  2: destruct (cache_dir w !! cache_file_name _ "current") as [[m [v|]]|];
       [| discriminate |].
  2: destruct (naive_age h w _ <? freshness_window h); cbn [contents].
  2: destruct (truthy v) eqn:T; [left; split; [reflexivity|eauto]|].
  all: cbn [truthy]; right.
  all: unfold fetched_value.
  all: destruct (server w (clock w) _) as [code body|msg];
    [|split; reflexivity].
  all: destruct (code =? 200);
    [destruct body as [data'|]; [destruct (disk_writable w)|]
    |destruct (code =? 404); destruct body];
    split; reflexivity.
Qed.

Lemma get_forecast_value (h : host) (city country : option string)
    (days : option Z) (w : world) :
  readable w (forecast_cache_file h w city) = true ->
  let o := get_forecast h city country days w in
  (count_requests (trace o) = 0%nat
   /\ exists v, res o = Ok v /\ truthy v = true)
  \/ (count_requests (trace o) = 1%nat
      /\ res o = Ok (fetched_value
                       (server w (clock w) (forecast_request h city country days))
                       (disk_writable w))).
Proof.
  unfold readable, forecast_cache_file. intros Hread. cbv zeta.
  rewrite get_forecast_run. cbv zeta.
  rewrite _load_from_cache_run. cbv zeta.
  destruct (negb (USE_CACHE (config h))).
  2: destruct (cache_dir w !! cache_file_name _ "forecast") as [[m [v|]]|];
       [| discriminate |].
  2: destruct (naive_age h w _ <? freshness_window h); cbn [contents].
  2: destruct (truthy v) eqn:T; [left; split; [reflexivity|eauto]|].
  all: cbn [truthy]; right.
  all: unfold fetched_value.
  all: destruct (server w (clock w) _) as [code body|msg];
    [|split; reflexivity].
  all: destruct (code =? 200);
    [destruct body as [data'|]; [destruct (disk_writable w)|]
    |destruct body];
    split; reflexivity.
Qed.

(** C4, amended: a failed request is reported as [None], not as an
    exception, but not every failure is.  [get_weather_by_coordinates]
    never raises and returns [None] unless the server answered 200 with a
    JSON body.  When [CACHE_HOURS] is a number of hours a [timedelta] can
    hold and the cache file of the query, if there is one, can be read
    back, [get_current_weather] and [get_forecast] do not raise: they
    return a truthy payload from the cache without a request, or send one
    request and return the JSON body of a 200 response that they could
    save, and [None] for any other reply.  [parse_weather_data] returns
    [None] for a falsy input and a record for a well-formed payload, and
    raises for every payload that is not falsy and lacks a field it
    subscripts, or has something else than a number where it rounds,
    compares or converts to a time, or has a time
    [datetime.fromtimestamp] refuses. *)
Theorem failures_are_values (h : host) (city country : option string)
    (days : option Z) (lat lon : option Q) (w : world) (data : value)
    (name : option string) :
  (res (get_weather_by_coordinates h lat lon w)
   = match server w (clock w) (coordinates_request h lat lon) with
     | Response 200 (Some d) => Ok d
     | _ => Ok VNone
     end)
  /\ (timedelta_ok (CACHE_HOURS (config h)) = true ->
      readable w (current_cache_file h w city) = true ->
      let o := get_current_weather h city country w in
      (exists v, res o = Ok v)
      /\ ((count_requests (trace o) = 0%nat
           /\ exists v, res o = Ok v /\ truthy v = true)
          \/ (count_requests (trace o) = 1%nat
              /\ res o = Ok (fetched_value
                               (server w (clock w) (current_request h city country))
                               (disk_writable w)))))
  /\ (timedelta_ok (CACHE_HOURS (config h)) = true ->
      readable w (forecast_cache_file h w city) = true ->
      let o := get_forecast h city country days w in
      (exists v, res o = Ok v)
      /\ ((count_requests (trace o) = 0%nat
           /\ exists v, res o = Ok v /\ truthy v = true)
          \/ (count_requests (trace o) = 1%nat
              /\ res o = Ok (fetched_value
                               (server w (clock w)
                                  (forecast_request h city country days))
                               (disk_writable w)))))
  /\ (truthy data = false -> parse_weather_data h data name = Ok VNone)
  /\ (well_formed h data = true ->
      exists parsed, parse_weather_data h data name = Ok (VDict parsed))
  /\ (truthy data = true -> shaped data = false \/ parseable h data = false ->
      exists e, parse_weather_data h data name = Raise e).
Proof.
  split; [|split; [|split; [|split; [|split]]]].
  - rewrite get_weather_by_coordinates_run. cbv zeta.
    destruct (server w (clock w) _) as [code body|msg]; [|reflexivity].
    destruct (Z.eqb_spec code 200) as [->|Hne].
    + destruct body; reflexivity.
    + destruct code as [|p|p]; try reflexivity.
      do 8 (destruct p as [p|p|]; try reflexivity). congruence.
  - intros _ Hread. cbv zeta.
    pose proof (get_current_weather_value h city country w Hread) as H.
    cbv zeta in H. split; [|exact H].
    destruct H as [(_ & v & -> & _)|(_ & ->)]; eauto.
  - intros _ Hread. cbv zeta.
    pose proof (get_forecast_value h city country days w Hread) as H.
    cbv zeta in H. split; [|exact H].
    destruct H as [(_ & v & -> & _)|(_ & ->)]; eauto.
  - intros Hfalsy. unfold parse_weather_data. now rewrite Hfalsy.
  - intros Hwf.
    pose proof (parse_weather_data_fields h data name Hwf) as Hp.
    repeat match type of Hp with
           | ex _ => destruct Hp as [? Hp]
           | _ /\ _ => destruct Hp as [_ Hp]
           end.
    eauto.
  - intros Ht Hbad. apply parse_weather_data_raises; [exact Ht|].
    destruct Hbad as [Hs|Hp]; [|exact Hp].
    destruct (parseable h data) eqn:E; [|reflexivity].
    apply parseable_shaped in E. congruence.
Qed.

(** ** Failures of the forecast *)

(** X5: when [get_forecast] receives a status other than 200, 404
    included, it prints the forecast-failure line with the status, returns
    [None] and leaves the world as it was; on a network error it returns
    [None] and leaves the world as it was; and it writes a cache file only
    after a 200 response, whose body is then what it returns. *)
Theorem get_forecast_failures (h : host) (city country : option string)
    (days : option Z) (w : world) :
  let o := get_forecast h city country days w in
  (forall t r code body,
     In (EvRequest t r (Response code body)) (trace o) ->
     code <> 200 ->
     res o = Ok VNone
     /\ In (EvPrint ("❌ 预报请求失败: " +:+ pretty code)) (trace o)
     /\ List.filter is_write (trace o) = [] /\ final o = w)
  /\ (forall t r msg,
        In (EvRequest t r (NetworkError msg)) (trace o) ->
        res o = Ok VNone
        /\ In (EvPrint ("❌ 网络错误: " +:+ msg)) (trace o)
        /\ List.filter is_write (trace o) = [] /\ final o = w)
  /\ (forall name v,
        In (EvWrite name v) (trace o) ->
        In (EvRequest (clock w) (forecast_request h city country days)
                      (Response 200 (Some v))) (trace o)
        /\ res o = Ok v).
Proof.
  cbv zeta. rewrite get_forecast_run. cbv zeta.
  pose proof (_load_from_cache_quiet h
                (cache_key_at h w (str_or city (CITY (config h)) +:+ "_forecast")
                   "forecast")
                "forecast" w) as (Hreq & Hwr & Hsig).
  destruct (_load_from_cache h _ "forecast" w) as [[cached|e] w1 tr];
    cbn [trace] in Hreq, Hwr, Hsig.
  2: { repeat split; intros; exfalso;
       first [ eapply (filter_nil_not_in is_request); [exact Hreq| |eassumption];
               reflexivity
             | eapply (filter_nil_not_in is_write); [exact Hwr| |eassumption];
               reflexivity ]. }
  destruct (truthy cached).
  { repeat split; intros; exfalso;
       first [ eapply (filter_nil_not_in is_request); [exact Hreq| |eassumption];
               reflexivity
             | eapply (filter_nil_not_in is_write); [exact Hwr| |eassumption];
               reflexivity ]. }
  destruct (server w (clock w) _) as [code body|msg].
  2: { cbn [res trace final]. split; [|split].
       - intros t r code body H. in_lookup_trace H Hreq Hwr.
         destruct H as [H|[H|[H|[]]]]; discriminate.
       - intros t r msg' H. in_lookup_trace H Hreq Hwr.
         destruct H as [H|[H|[H|[]]]]; try discriminate.
         injection H as _ _ <-.
         split; [reflexivity|]. split.
         { apply in_or_app. right. right. right. left. reflexivity. }
         split; [|reflexivity]. now rewrite List.filter_app, Hwr.
       - intros name v H. in_lookup_trace H Hreq Hwr.
         destruct H as [H|[H|[H|[]]]]; discriminate. }
  destruct (Z.eqb_spec code 200) as [->|Hne200].
  - destruct body as [data|]; [destruct (disk_writable w)|];
      cbn [res trace final]; (split; [|split]).
    all: try (intros t r msg' H; in_lookup_trace H Hreq Hwr;
              destruct H as [H|[H|[H|[]]]]; discriminate).
    all: try (intros t r code' body' H Hc; in_lookup_trace H Hreq Hwr;
              destruct H as [H|[H|[H|[]]]]; try discriminate;
              injection H as _ _ Hc' _; congruence).
    all: try (intros name v H; in_lookup_trace H Hreq Hwr;
              destruct H as [H|[H|[H|[]]]]; try discriminate).
    injection H as <- <-. split; [|reflexivity].
    apply in_or_app. right. right. left. reflexivity.
  - cbn [res trace final]. split; [|split].
    + intros t r code' body' H Hc. in_lookup_trace H Hreq Hwr.
      destruct H as [H|[H|[H|[]]]]; try discriminate.
      injection H as _ _ <- _.
      split; [reflexivity|]. split.
      { apply in_or_app. right. right. right. left. reflexivity. }
      split; [|reflexivity]. now rewrite List.filter_app, Hwr.
    + intros t r msg' H. in_lookup_trace H Hreq Hwr.
      destruct H as [H|[H|[H|[]]]]; discriminate.
    + intros name v H. in_lookup_trace H Hreq Hwr.
      destruct H as [H|[H|[H|[]]]]; discriminate.
Qed.

(** ** What a fetch changes *)

(** A call leaves the world as it was, or stores the payload it
    returns under the cache file of its query. *)
Lemma get_current_weather_final (h : host) (city country : option string)
    (w : world) :
  let o := get_current_weather h city country w in
  final o = w
  \/ exists data, res o = Ok data
                  /\ final o = saved w (current_cache_file h w city) data.
Proof.
  cbv zeta. rewrite get_current_weather_run. cbv zeta.
  destruct (_load_from_cache h _ "current" w) as [[cached|e] w1 tr]; [|now left].
  destruct (truthy cached); [now left|].
  destruct (server w (clock w) _) as [code body|msg]; [|now left].
  destruct (code =? 200);
    [destruct body as [data|]; [destruct (disk_writable w)|]
    |destruct (code =? 404)]; try (now left).
  right. eauto.
Qed.

Lemma get_forecast_final (h : host) (city country : option string)
    (days : option Z) (w : world) :
  let o := get_forecast h city country days w in
  final o = w
  \/ exists data, res o = Ok data
                  /\ final o = saved w (forecast_cache_file h w city) data.
Proof.
  cbv zeta. rewrite get_forecast_run. cbv zeta.
  destruct (_load_from_cache h _ "forecast" w) as [[cached|e] w1 tr]; [|now left].
  destruct (truthy cached); [now left|].
  destruct (server w (clock w) _) as [code body|msg]; [|now left].
  destruct (code =? 200);
    [destruct body as [data|]; [destruct (disk_writable w)|]|]; try (now left).
  right. eauto.
Qed.

(** The only write of a call is the one of the payload it returns, to
    the cache file of its query. *)
Lemma get_current_weather_writes (h : host) (city country : option string)
    (w : world) (name : string) (v : value) :
  let o := get_current_weather h city country w in
  In (EvWrite name v) (trace o) ->
  name = current_cache_file h w city /\ res o = Ok v
  /\ final o = saved w (current_cache_file h w city) v.
Proof.
  cbv zeta. rewrite get_current_weather_run. cbv zeta.
  pose proof (_load_from_cache_quiet h
                (cache_key_at h w (str_or city (CITY (config h))) "current")
                "current" w) as (Hreq & Hwr & _).
  destruct (_load_from_cache h _ "current" w) as [[cached|e] w1 tr];
    cbn [trace] in Hreq, Hwr.
  2: { intros H. exfalso.
       eapply (filter_nil_not_in is_write); [exact Hwr| |exact H]. reflexivity. }
  destruct (truthy cached).
  { intros H. exfalso.
    eapply (filter_nil_not_in is_write); [exact Hwr| |exact H]. reflexivity. }
  destruct (server w (clock w) _) as [code body|msg];
    [destruct (code =? 200);
     [destruct body as [data|]; [destruct (disk_writable w)|]
     |destruct (code =? 404)]|];
    cbn [res trace final]; intros H; in_lookup_trace H Hreq Hwr;
    repeat (match goal with Hor : _ \/ _ |- _ => destruct Hor as [Hor|Hor] end);
    try discriminate; try contradiction.
  injection H as <- <-. auto.
Qed.

Lemma get_forecast_writes (h : host) (city country : option string)
    (days : option Z) (w : world) (name : string) (v : value) :
  let o := get_forecast h city country days w in
  In (EvWrite name v) (trace o) ->
  name = forecast_cache_file h w city /\ res o = Ok v
  /\ final o = saved w (forecast_cache_file h w city) v.
Proof.
  cbv zeta. rewrite get_forecast_run. cbv zeta.
  pose proof (_load_from_cache_quiet h
                (cache_key_at h w (str_or city (CITY (config h)) +:+ "_forecast")
                   "forecast")
                "forecast" w) as (Hreq & Hwr & _).
  destruct (_load_from_cache h _ "forecast" w) as [[cached|e] w1 tr];
    cbn [trace] in Hreq, Hwr.
  2: { intros H. exfalso.
       eapply (filter_nil_not_in is_write); [exact Hwr| |exact H]. reflexivity. }
  destruct (truthy cached).
  { intros H. exfalso.
    eapply (filter_nil_not_in is_write); [exact Hwr| |exact H]. reflexivity. }
  destruct (server w (clock w) _) as [code body|msg];
    [destruct (code =? 200);
     [destruct body as [data|]; [destruct (disk_writable w)|]|]|];
    cbn [res trace final]; intros H; in_lookup_trace H Hreq Hwr;
    repeat (match goal with Hor : _ \/ _ |- _ => destruct Hor as [Hor|Hor] end);
    try discriminate; try contradiction.
  injection H as <- <-. auto.
Qed.

(** X6: [get_current_weather] and [get_forecast] leave the clock, the
    server and the disk's state alone and change no cache file but the
    one of their query; and every write they complete is the write of the
    payload they return to that file, which then holds it, dated at the
    time of the call.  (Nothing is said of what a write that breaks off
    half-way leaves in that one file.) *)
Theorem fetch_changes_own_file_only (h : host) (city country : option string)
    (days : option Z) (w : world) :
  (let o := get_current_weather h city country w in
   let name := current_cache_file h w city in
   clock (final o) = clock w /\ server (final o) = server w
   /\ disk_writable (final o) = disk_writable w
   /\ (forall other, other <> name ->
         cache_dir (final o) !! other = cache_dir w !! other)
   /\ (forall name' v,
         In (EvWrite name' v) (trace o) ->
         name' = name /\ res o = Ok v
         /\ cache_dir (final o) !! name = Some (File (clock w) (Json v))))
  /\ (let o := get_forecast h city country days w in
      let name := forecast_cache_file h w city in
      clock (final o) = clock w /\ server (final o) = server w
      /\ disk_writable (final o) = disk_writable w
      /\ (forall other, other <> name ->
            cache_dir (final o) !! other = cache_dir w !! other)
      /\ (forall name' v,
            In (EvWrite name' v) (trace o) ->
            name' = name /\ res o = Ok v
            /\ cache_dir (final o) !! name = Some (File (clock w) (Json v)))).
Proof.
  split; cbv zeta.
  - split; [|split; [|split; [|split]]].
    5: { intros name' v H.
         destruct (get_current_weather_writes h city country w name' v H)
           as (-> & Hres & ->).
         split; [reflexivity|]. split; [exact Hres|].
         unfold saved. cbn [cache_dir]. apply lookup_insert_eq. }
    all: destruct (get_current_weather_final h city country w)
           as [->|(data & Hres & ->)]; try reflexivity.
    intros other Hne. unfold saved. cbn [cache_dir]. now apply lookup_insert_ne.
  - split; [|split; [|split; [|split]]].
    5: { intros name' v H.
         destruct (get_forecast_writes h city country days w name' v H)
           as (-> & Hres & ->).
         split; [reflexivity|]. split; [exact Hres|].
         unfold saved. cbn [cache_dir]. apply lookup_insert_eq. }
    all: destruct (get_forecast_final h city country days w)
           as [->|(data & Hres & ->)]; try reflexivity.
    intros other Hne. unfold saved. cbn [cache_dir]. now apply lookup_insert_ne.
Qed.

Lemma cache_file_names_apart (k1 k2 : string) :
  cache_file_name k1 "current" <> cache_file_name k2 "forecast".
Proof.
  intros Heq.
  assert (cache_file_name k1 "current" = (k1 +:+ "_") +:+ "current.json") as E1
    by (unfold cache_file_name; now rewrite append_assoc).
  assert (cache_file_name k2 "forecast" = (k2 +:+ "_f") +:+ "orecast.json") as E2
    by (unfold cache_file_name; now rewrite append_assoc).
  rewrite E1, E2 in Heq.
  apply append_inj_suffix in Heq as [_ Heq]; [discriminate|reflexivity].
Qed.

(** X7: the cache file of a current-weather query is never the cache
    file of a forecast query, whatever the cities and the days; so a
    current-weather call changes the cache file of no forecast, and a
    forecast call the cache file of no current weather. *)
Theorem current_and_forecast_caches_apart (h : host)
    (city city' country : option string) (days : option Z) (w w' : world) :
  current_cache_file h w city <> forecast_cache_file h w' city'
  /\ cache_dir (final (get_current_weather h city country w))
       !! forecast_cache_file h w' city'
     = cache_dir w !! forecast_cache_file h w' city'
  /\ cache_dir (final (get_forecast h city country days w))
       !! current_cache_file h w' city'
     = cache_dir w !! current_cache_file h w' city'.
Proof.
  split; [apply cache_file_names_apart|]. split.
  - destruct (get_current_weather_final h city country w) as [->|(data & _ & ->)];
      [reflexivity|].
    unfold saved. cbn [cache_dir]. apply lookup_insert_ne.
    apply cache_file_names_apart.
  - destruct (get_forecast_final h city country days w) as [->|(data & _ & ->)];
      [reflexivity|].
    unfold saved. cbn [cache_dir]. apply lookup_insert_ne.
    intros Heq. symmetry in Heq. revert Heq. apply cache_file_names_apart.
Qed.

(** ** Saving and loading *)

(** X8: what [_save_to_cache] saved, [_load_from_cache] returns
    unchanged as long as less than the freshness window has passed since,
    and no longer from the moment the window has passed -- when the offset
    of local time from UTC is the same at the two moments and
    [CACHE_HOURS] is a number of hours a [timedelta] can hold. *)
Theorem cache_round_trip (h : host) (key endpoint : string) (data : value)
    (w : world) (dt : Z) :
  USE_CACHE (config h) = true ->
  timedelta_ok (CACHE_HOURS (config h)) = true ->
  disk_writable w = true ->
  utc_offset h ((clock w + dt) / US_PER_SECOND) = utc_offset h (clock w / US_PER_SECOND) ->
  let w1 := elapse dt (final (_save_to_cache key endpoint data w)) in
  (dt < freshness_window h ->
   res (_load_from_cache h key endpoint w1) = Ok data)
  /\ (freshness_window h <= dt ->
      res (_load_from_cache h key endpoint w1) = Ok VNone).
Proof.
  intros Huse _ Hdisk Hzone. cbv zeta.
  unfold _save_to_cache, json_dump. rewrite Hdisk. cbn [final].
  set (f := File (clock w) (Json data)).
  set (w1 := elapse dt _).
  assert (cache_dir w1 !! cache_file_name key endpoint = Some f) as Hfile
    by (subst w1; cbn [elapse cache_dir]; apply lookup_insert_eq).
  assert (naive_age h w1 f = dt) as Hage.
  { rewrite naive_age_same_offset.
    - subst w1. unfold file_age. cbn. lia.
    - subst w1 f. cbn [st_mtime elapse clock]. now rewrite Hzone. }
  split; intros Hdt.
  - rewrite (_load_from_cache_fresh h key endpoint w1 f Huse Hfile); [reflexivity|].
    now rewrite Hage.
  - apply (_load_from_cache_stale h key endpoint w1 f Hfile). now rewrite Hage.
Qed.

(** ** Caching switched off, and a window of no hours *)

(** X9: with [USE_CACHE] off, [get_current_weather] looks at no cache
    file and sends exactly one request; but it still writes the payload of
    a 200 response to the cache directory. *)
Theorem cache_disabled_still_writes (h : host) (city country : option string)
    (w : world) :
  USE_CACHE (config h) = false ->
  let o := get_current_weather h city country w in
  count_requests (trace o) = 1%nat
  /\ List.filter is_cache_read (trace o) = []
  /\ (forall data,
        server w (clock w) (current_request h city country)
        = Response 200 (Some data) ->
        disk_writable w = true ->
        res o = Ok data
        /\ cache_dir (final o) !! current_cache_file h w city
           = Some (File (clock w) (Json data))).
Proof.
  intros Huse. cbv zeta. rewrite get_current_weather_run. cbv zeta.
  rewrite _load_from_cache_run. cbv zeta. rewrite Huse. cbn [negb truthy].
  destruct (server w (clock w) _) as [code body|msg] eqn:Es.
  2: { split; [reflexivity|]. split; [reflexivity|]. intros data [=]. }
  destruct (Z.eqb_spec code 200) as [->|Hne].
  - destruct body as [data|]; [destruct (disk_writable w) eqn:Ed|];
      (split; [reflexivity|]); (split; [reflexivity|]).
    + intros data' [= <-] _. split; [reflexivity|].
      unfold saved. cbn [final cache_dir]. apply lookup_insert_eq.
    + intros data' _ [=].
    + intros data' [=].
  - destruct (code =? 404); (split; [reflexivity|]); (split; [reflexivity|]);
      intros data' [= ? _]; congruence.
Qed.

Lemma freshness_window_nonpositive (h : host) :
  CACHE_HOURS (config h) <= 0 -> freshness_window h <= 0.
Proof. unfold freshness_window, timedelta_hours, US_PER_SECOND. lia. Qed.

(** X10: with [CACHE_HOURS] zero or negative (and a number of hours a
    [timedelta] can hold), a cache file whose time of writing, read on the
    local clock, is not after the local time of the call is never used:
    [get_current_weather] and [get_forecast] send their request at every
    call. *)
Theorem no_window_no_reuse (h : host) (city country : option string)
    (days : option Z) (w : world) :
  CACHE_HOURS (config h) <= 0 ->
  timedelta_ok (CACHE_HOURS (config h)) = true ->
  ((forall f, cache_dir w !! current_cache_file h w city = Some f ->
              local_time h (st_mtime f) <= local_time h (clock w)) ->
   count_requests (trace (get_current_weather h city country w)) = 1%nat)
  /\ ((forall f, cache_dir w !! forecast_cache_file h w city = Some f ->
                 local_time h (st_mtime f) <= local_time h (clock w)) ->
      count_requests (trace (get_forecast h city country days w)) = 1%nat).
Proof.
  intros Hhours _. apply freshness_window_nonpositive in Hhours.
  split; intros Hpast.
  - apply (get_current_weather_miss h city country w VNone); [|reflexivity].
    rewrite _load_from_cache_run. cbv zeta.
    destruct (negb (USE_CACHE (config h))); [reflexivity|].
    fold (current_cache_file h w city).
    destruct (cache_dir w !! current_cache_file h w city) as [f|] eqn:E;
      [|reflexivity].
    specialize (Hpast f eq_refl).
    destruct (Z.ltb_spec (naive_age h w f) (freshness_window h)); [|reflexivity].
    unfold naive_age in *. lia.
  - apply (get_forecast_miss h city country days w VNone); [|reflexivity].
    rewrite _load_from_cache_run. cbv zeta.
    destruct (negb (USE_CACHE (config h))); [reflexivity|].
    fold (forecast_cache_file h w city).
    destruct (cache_dir w !! forecast_cache_file h w city) as [f|] eqn:E;
      [|reflexivity].
    specialize (Hpast f eq_refl).
    destruct (Z.ltb_spec (naive_age h w f) (freshness_window h)); [|reflexivity].
    unfold naive_age in *. lia.
Qed.

(** ** A disk that cannot be written *)


(** ** Arguments that are falsy *)

(** X12: an argument that is falsy is replaced by the configured
    default like a missing one: a latitude or longitude of zero in
    [get_weather_by_coordinates], a number of days of zero in
    [get_forecast], an empty city or an empty country in
    [get_current_weather] and in [get_forecast]. *)
Theorem falsy_arguments_use_defaults (h : host) (city country : option string)
    (lat lon : option Q) (days : option Z) (q : Q) (w : world) :
  (q == 0)%Q ->
  get_weather_by_coordinates h (Some q) lon w
  = get_weather_by_coordinates h None lon w
  /\ get_weather_by_coordinates h lat (Some q) w
     = get_weather_by_coordinates h lat None w
  /\ get_forecast h city country (Some 0) w = get_forecast h city country None w
  /\ get_current_weather h (Some "") country w
     = get_current_weather h None country w
  /\ get_current_weather h city (Some "") w = get_current_weather h city None w
  /\ get_forecast h (Some "") country days w = get_forecast h None country days w
  /\ get_forecast h city (Some "") days w = get_forecast h city None days w.
Proof.
  intros Hq.
  assert (Qnum q = 0) as Hnum.
  { unfold Qeq in Hq. cbn in Hq. lia. }
  repeat split.
  - unfold get_weather_by_coordinates, float_or. now rewrite Hnum.
  - unfold get_weather_by_coordinates, float_or. now rewrite Hnum.
Qed.

(** ** Queries that share a cache file *)



(** ** A comparison that stops *)

(** X14: a city whose cache file cannot be read, or whose payload makes
    the parser raise, stops [compare_cities]: the exception leaves the
    method and the rows of the cities before it are not returned. *)
Theorem compare_cities_aborts (h : host)
    (before after : list (gmap string (option string)))
    (c : gmap string (option string)) (w : world) (rows : list value) (e : exn) :
  res (compare_cities h before w) = Ok rows ->
  let w1 := final (compare_cities h before w) in
  let o := get_current_weather h (city_of c) (country_of c) w1 in
  (res o = Raise e
   \/ exists data, res o = Ok data /\ truthy data = true
                   /\ parse_weather_data h data (display_name_of c) = Raise e) ->
  res (compare_cities h (before ++ c :: after) w) = Raise e.
Proof.
  unfold compare_cities. intros Hrows. cbv zeta. intros Hbad.
  rewrite compare_loop_app. unfold bind.
  destruct (compare_loop h before [] w) as [[rows'|e'] w1 tr1];
    cbn [res final] in *; [|discriminate].
  cbn [compare_loop]. unfold bind. rewrite compare_step_run. cbv zeta.
  destruct (get_current_weather h (city_of c) (country_of c) w1)
    as [[data|e'] w2 tr2]; cbn [res] in Hbad.
  - destruct Hbad as [[=]|(data' & [= <-] & Ht & Hp)].
    rewrite Ht, Hp. reflexivity.
  - destruct Hbad as [[= ->]|(data' & [=] & _)]. reflexivity.
Qed.

(** ** The two comfortable labels *)

Ltac float_facts :=
  cbn [float_ltb float_leb] in *;
  repeat match goal with
         | H : _ /\ _ |- _ => destruct H
         | H : _ \/ _ |- _ => destruct H
         | H : Qltb _ _ = true |- _ => apply Qltb_lt in H
         | H : Qle_bool _ _ = true |- _ => apply Qle_bool_iff in H
         | H : false = true |- _ => discriminate H
         end.

Lemma float_ltb_leb (x : pyfloat) (a b : Q) :
  (a <= b)%Q -> float_ltb x a = true -> float_leb x b = true.
Proof.
  intros Hab. destruct x as [q| | |]; cbn [float_ltb float_leb]; try easy.
  intros H. apply Qltb_lt in H. apply Qle_bool_iff. lra.
Qed.

(** X15: for a humidity that is not NaN, the index is the
    very-comfortable label exactly when the temperature is from 18 to
    below 26 and the humidity from 30 to 85, and the fairly-comfortable
    label exactly when the temperature is from 10 to below 18 or from 26
    to below 32 and the humidity at most 85; the wind speed plays no
    part. *)
Theorem comfort_index_labels (temp humidity wind_speed : pyfloat) :
  humidity <> NaN ->
  (calculate_comfort_index temp humidity wind_speed = "非常舒适"
   <-> (float_leb 18 temp = true /\ float_ltb temp 26 = true)
       /\ (float_leb 30 humidity = true /\ float_leb humidity 85 = true))
  /\ (calculate_comfort_index temp humidity wind_speed = "较为舒适"
      <-> ((float_leb 10 temp = true /\ float_ltb temp 18 = true)
           \/ (float_leb 26 temp = true /\ float_ltb temp 32 = true))
          /\ float_leb humidity 85 = true).
Proof.
  intros Hh. rewrite (comfort_index_by_classes _ _ _ Hh).
  unfold Spec.comfort_rating.
  pose proof (humidity_of_bounds humidity Hh) as Hhum.
  assert (temp = NaN \/ temp <> NaN) as [->|Ht]
    by (destruct temp; [right|right|right|left]; congruence).
  - change (Spec.band_of NaN) with Spec.Hot.
    destruct (Spec.humidity_of humidity);
      (split; (split; [intros Heq; vm_compute in Heq; discriminate Heq
                      |intros Hr; exfalso; float_facts])).
  - pose proof (band_of_bounds temp Ht) as Hb.
    destruct (Spec.band_of temp), (Spec.humidity_of humidity);
      (split; (split; [intros Heq; vm_compute in Heq; try discriminate Heq;
                       first [ tauto
                             | split;
                               [tauto|apply (float_ltb_leb _ 30 85); [lra|tauto]] ]
                      |intros Hr; try reflexivity; exfalso;
                       destruct temp as [t| | |], humidity as [u| | |];
                       try congruence; float_facts; lra])).
Qed.

(** ** Checking a configuration *)

Ltac refused :=
  split; [right; reflexivity|];
  split; [discriminate|];
  split; [intros _; eexists; reflexivity | reflexivity].

(** X16: [validate] accepts a configuration exactly when the API key
    is set and has 32 characters and the city is not empty -- a key of any
    other length is refused, although the line printed for it only says
    the length may be wrong; it prints nothing when it accepts and one
    message when it refuses, and it never raises or changes anything. *)
Theorem validate_accepts (c : WeatherConfig) (w : world) :
  let o := validate c w in
  (res o = Ok true
   <-> (exists k, API_KEY c = Some k /\ py_len k = 32) /\ CITY c <> "")
  /\ (res o = Ok true \/ res o = Ok false)
  /\ (res o = Ok true -> trace o = [])
  /\ (res o = Ok false -> exists text, trace o = [EvPrint text])
  /\ final o = w.
Proof.
  cbv zeta. unfold validate.
  destruct (API_KEY c) as [k|].
  2: { cbn [app]. destruct (String.eqb_spec (CITY c) "") as [E|E];
       cbn; (split; [split; [discriminate|intros [(k & [=] & _) _]]|]); refused. }
  destruct (String.eqb_spec k "") as [->|Hk].
  { cbn [app]. destruct (String.eqb_spec (CITY c) "") as [E|E];
      cbn; (split; [split; [discriminate
                           |intros [(k & [= <-] & Hlen) _]; cbn in Hlen; lia]|]);
      refused. }
  destruct (Z.eqb_spec (py_len k) 32) as [Hlen|Hlen]; cbn [negb app].
  - destruct (String.eqb_spec (CITY c) "") as [E|E]; cbn.
    + split; [split; [discriminate|intros [_ Hc]; congruence]|]. refused.
    + split; [split; [intros _; split; [eauto|assumption]|reflexivity]|].
      split; [left; reflexivity|]. split; [reflexivity|].
      split; [discriminate|reflexivity].
  - destruct (String.eqb_spec (CITY c) "") as [E|E]; cbn;
      (split; [split; [discriminate
                      |intros [(k' & [= <-] & Hl) _]; congruence]|]);
      refused.
Qed.

(** ** City presets *)

Lemma assoc_dict_set_eq (d : list (string * value)) (k : string) (v : value) :
  assoc k (dict_set d k v) = Some v.
Proof.
  induction d as [|[k' v'] d IH]; cbn [dict_set assoc].
  - now rewrite String.eqb_refl.
  - destruct (String.eqb_spec k k') as [->|Hne]; cbn [assoc].
    + now rewrite String.eqb_refl.
    + destruct (String.eqb_spec k k'); [congruence|exact IH].
Qed.

Lemma assoc_dict_set_ne (d : list (string * value)) (k k' : string) (v : value) :
  k <> k' -> assoc k (dict_set d k' v) = assoc k d.
Proof.
  intros Hne. induction d as [|[k0 v0] d IH]; cbn [dict_set assoc].
  - destruct (String.eqb_spec k k'); [congruence|reflexivity].
  - destruct (String.eqb_spec k' k0) as [->|Hne0]; cbn [assoc].
    + destruct (String.eqb_spec k k0); [congruence|reflexivity].
    + destruct (String.eqb_spec k k0); [reflexivity|exact IH].
Qed.

(** X17: [_load_presets] never raises: it returns what a readable
    preset file holds and leaves the file alone; with no file it returns
    the six default cities and writes them to the file, or no city at all
    when the file cannot be written; with an unreadable file it returns no
    city and leaves the file alone. Loading again gives the same presets. *)
Theorem load_presets_cases (s : session) :
  let r := fst (_load_presets s) in
  let s' := snd (_load_presets s) in
  match preset_on_disk s with
  | Some (Json v) => r = Ok v /\ s' = s
  | Some Corrupt => r = Ok no_presets /\ preset_on_disk s' = Some Corrupt
  | None =>
      if preset_writable s then
        r = Ok default_presets /\ preset_on_disk s' = Some (Json default_presets)
      else r = Ok no_presets /\ preset_on_disk s' = None
  end
  /\ fst (_load_presets s') = r
  /\ presets s' = presets s /\ settings s' = settings s
  /\ config_py s' = config_py s.
Proof.
  cbv zeta. unfold _load_presets, stry, sbind, preset_exists, read_preset_file,
    write_preset_file, print_line, sret.
  destruct s as [pf p disk pw cpy cw st out]. cbn [preset_on_disk preset_writable].
  destruct disk as [[v|]|]; cbn; [repeat split..|].
  destruct pw; cbn; repeat split.
Qed.

(** X18: on presets that are a dictionary whose cities, if any, are
    a dictionary, [add_city] stores the city under its id, creating the
    cities when they are missing, and touches no other preset and no other
    key; it returns whether the preset file could be written, and when it
    could not, the city is in the manager's presets all the same. *)
Theorem add_city_updates (city_id : string) (city_info : value) (s : session)
    (d cs : list (string * value)) :
  presets s = VDict d ->
  match assoc "cities" d with
  | Some x => x = VDict cs
  | None => cs = []
  end ->
  let r := fst (add_city city_id city_info s) in
  let s' := snd (add_city city_id city_info s) in
  r = Ok (preset_writable s)
  /\ (exists d' cs',
        presets s' = VDict d'
        /\ assoc "cities" d' = Some (VDict cs')
        /\ assoc city_id cs' = Some city_info
        /\ (forall other, other <> city_id -> assoc other cs' = assoc other cs)
        /\ (forall k, k <> "cities" -> assoc k d' = assoc k d))
  /\ preset_on_disk s'
     = (if preset_writable s then Some (Json (presets s')) else preset_on_disk s)
  /\ settings s' = settings s.
Proof.
  intros Hp Hcs. cbv zeta.
  unfold add_city, stry, sbind, get_presets, set_presets, slift, write_preset_file,
    print_line, sret.
  destruct s as [pf p disk pw cpy cw st out]. cbn [presets] in Hp. subst p.
  cbn [presets py_in preset_writable preset_on_disk settings].
  destruct (assoc "cities" d) as [x|] eqn:E.
  - subst x. cbn [negb presets getitem setitem]. rewrite E.
    cbn [setitem preset_writable].
    destruct pw; cbn [fst snd presets preset_on_disk settings];
      (split; [reflexivity|]); (split; [|split; reflexivity]);
      exists (dict_set d "cities" (VDict (dict_set cs city_id city_info))),
             (dict_set cs city_id city_info);
      (split; [reflexivity|]);
      (split; [apply assoc_dict_set_eq|]);
      (split; [apply assoc_dict_set_eq|]);
      (split; [intros other Hne; now apply assoc_dict_set_ne
              |intros k Hne; now apply assoc_dict_set_ne]).
  - subst cs. cbn [negb presets getitem setitem].
    rewrite assoc_dict_set_eq.
    cbn [setitem preset_writable].
    destruct pw; cbn [fst snd presets preset_on_disk settings];
      (split; [reflexivity|]); (split; [|split; reflexivity]);
      exists (dict_set (dict_set d "cities" (VDict [])) "cities"
                (VDict (dict_set [] city_id city_info))),
             (dict_set [] city_id city_info);
      (split; [reflexivity|]);
      (split; [apply assoc_dict_set_eq|]);
      (split; [apply assoc_dict_set_eq|]);
      (split; [intros other Hne; now apply assoc_dict_set_ne
              |intros k Hne; now rewrite !assoc_dict_set_ne]).
Qed.

(** X19: [add_city] never raises, whatever the presets are; it
    returns [True] only after writing the preset file, which then holds
    the manager's presets, so that loading the presets again gives them
    back; and when the presets are not a dictionary it changes nothing
    but the console. *)
Theorem add_city_persists (city_id : string) (city_info : value) (s : session) :
  let r := fst (add_city city_id city_info s) in
  let s' := snd (add_city city_id city_info s) in
  (r = Ok true \/ r = Ok false)
  /\ (r = Ok true ->
      preset_on_disk s' = Some (Json (presets s'))
      /\ fst (_load_presets s') = Ok (presets s'))
  /\ ((forall d, presets s <> VDict d) ->
      r = Ok false /\ presets s' = presets s
      /\ preset_on_disk s' = preset_on_disk s)
  /\ settings s' = settings s /\ config_py s' = config_py s.
Proof.
  cbv zeta.
  unfold add_city, stry, sbind, get_presets, set_presets, slift, write_preset_file,
    print_line, sret.
  destruct s as [pf p disk pw cpy cw st out].
  cbn [presets preset_writable preset_on_disk settings config_py].
  destruct p as [|b|z|q|str|l|d]; cbn;
    try (split; [now right|]; split; [discriminate|]; now repeat split).
  - destruct (contains "cities" str); cbn;
      (split; [now right|]); (split; [discriminate|]); now repeat split.
  - destruct (existsb _ l); cbn;
      (split; [now right|]); (split; [discriminate|]); now repeat split.
  - destruct (assoc "cities" d) as [x|] eqn:E; cbn.
    + rewrite E.
      destruct x as [| | | | | |cs]; cbn;
        try (split; [now right|]; split; [discriminate|];
             split; [intros Hd; now destruct (Hd d)|now split]).
      destruct pw; cbn.
      * split; [now left|]. split; [intros _; now split|].
        split; [intros Hd; now destruct (Hd d)|now split].
      * split; [now right|]. split; [discriminate|].
        split; [intros Hd; now destruct (Hd d)|now split].
    + rewrite assoc_dict_set_eq. cbn.
      destruct pw; cbn.
      * split; [now left|]. split; [intros _; now split|].
        split; [intros Hd; now destruct (Hd d)|now split].
      * split; [now right|]. split; [discriminate|].
        split; [intros Hd; now destruct (Hd d)|now split].
Qed.

(** X20: [switch_city] with an id that has no preset, or whose preset
    is falsy -- an empty dictionary, say -- prints the not-found line and
    returns [False]; the configuration, the configuration file and the
    presets stay as they were. *)
Theorem switch_city_unknown (py_str : value -> string) (city_id : string)
    (s : session) (cs : list (string * value)) :
  cities_are (presets s) cs ->
  match assoc city_id cs with
  | Some x => truthy x = false
  | None => True
  end ->
  switch_city py_str city_id s
  = (Ok false,
     Session (preset_file s) (presets s) (preset_on_disk s) (preset_writable s)
             (config_py s) (config_writable s) (settings s)
             (console s ++ ["❌ 未找到城市预设: " +:+ city_id])).
Proof.
  intros (d & Hp & Hcs) Hfalsy.
  unfold switch_city, sbind, get_presets, slift, print_line, sret.
  rewrite Hp. cbn [dict_get]. rewrite Hcs. cbn [dict_get].
  destruct (assoc city_id cs) as [x|]; cbn [from_option id].
  - rewrite Hfalsy. cbn [negb]. now rewrite <- Hp.
  - cbn [truthy negb]. now rewrite <- Hp.
Qed.

(** X21: [switch_city] with an id whose preset is a dictionary that
    is not empty assigns the five city attributes of the configuration
    from the preset -- the id for a missing name or display name, CN for a
    missing country, 0 for a missing latitude or longitude -- and returns
    whether the configuration file could be written; when it could not,
    the attributes are assigned all the same. *)
Theorem switch_city_known (py_str : value -> string) (city_id : string)
    (s : session) (cs fields : list (string * value)) :
  cities_are (presets s) cs ->
  assoc city_id cs = Some (VDict fields) ->
  fields <> [] ->
  let r := fst (switch_city py_str city_id s) in
  let s' := snd (switch_city py_str city_id s) in
  r = Ok (config_writable s)
  /\ settings s'
     = {| set_CITY := default (VStr city_id) (assoc "name" fields);
          set_COUNTRY := default (VStr "CN") (assoc "country" fields);
          set_LAT := default (VInt 0) (assoc "lat" fields);
          set_LON := default (VInt 0) (assoc "lon" fields);
          set_CITY_DISPLAY_NAME := default (VStr city_id)
                                     (assoc "display_name" fields) |}
  /\ config_py s'
     = (if config_writable s then Some (config_content py_str (settings s'))
        else config_py s)
  /\ presets s' = presets s /\ preset_on_disk s' = preset_on_disk s.
Proof.
  intros (d & Hp & Hcs) Hpreset Hne. cbv zeta.
  unfold switch_city, _save_config, stry, sbind, get_presets, get_settings,
    set_settings, slift, write_config_file, print_line, sret.
  destruct s as [pf p disk pw cpy cw st out]. cbn [presets] in Hp. subst p.
  cbn [presets dict_get]. rewrite Hcs. cbn [dict_get]. rewrite Hpreset.
  cbn [from_option id]. destruct fields as [|kv fields]; [congruence|].
  cbn [truthy negb dict_get config_writable settings].
  destruct cw; cbn [fst snd settings config_py presets preset_on_disk
                    config_writable]; repeat split.
Qed.

(** X22: [switch_city] raises when the preset of the id is truthy
    but not a dictionary, and then changes nothing. *)
Theorem switch_city_raises (py_str : value -> string) (city_id : string)
    (s : session) (cs : list (string * value)) (x : value) :
  cities_are (presets s) cs ->
  assoc city_id cs = Some x ->
  truthy x = true ->
  (forall fields, x <> VDict fields) ->
  exists e, switch_city py_str city_id s = (Raise e, s) /\ exn_type e = AttributeError.
Proof.
  intros (d & Hp & Hcs) Hpreset Htruthy Hnd.
  unfold switch_city, sbind, get_presets, slift.
  rewrite Hp. cbn [dict_get]. rewrite Hcs. cbn [dict_get]. rewrite Hpreset.
  cbn [from_option id]. rewrite Htruthy. cbn [negb].
  destruct x as [| | | | | |fields]; try (eexists; split; reflexivity).
  now destruct (Hnd fields).
Qed.

(** X23: a city added with [add_city] is found by [switch_city]: after
    adding a preset that is a dictionary and not empty, switching to its
    id assigns the five city attributes (name, country, latitude,
    longitude, display name) from it, with the defaults of [switch_city]
    for the keys it lacks, whether or not the preset file could be
    written. *)
Theorem add_city_then_switch (py_str : value -> string) (city_id : string)
    (fields : list (string * value)) (s : session) (cs : list (string * value)) :
  cities_are (presets s) cs ->
  fields <> [] ->
  let s1 := snd (add_city city_id (VDict fields) s) in
  let s2 := snd (switch_city py_str city_id s1) in
  fst (switch_city py_str city_id s1) = Ok (config_writable s)
  /\ set_CITY (settings s2) = default (VStr city_id) (assoc "name" fields)
  /\ set_COUNTRY (settings s2) = default (VStr "CN") (assoc "country" fields)
  /\ set_LAT (settings s2) = default (VInt 0) (assoc "lat" fields)
  /\ set_LON (settings s2) = default (VInt 0) (assoc "lon" fields)
  /\ set_CITY_DISPLAY_NAME (settings s2)
     = default (VStr city_id) (assoc "display_name" fields).
Proof.
  intros (d & Hp & Hcs) Hne. cbv zeta.
  unfold add_city, stry, sbind, get_presets, set_presets, slift, write_preset_file,
    print_line, sret.
  destruct s as [pf p disk pw cpy cw st out]. cbn [presets] in Hp. subst p.
  cbn [presets py_in preset_writable].
  assert (forall d1 s1,
            presets s1 = VDict (dict_set d1 "cities"
                                  (VDict (dict_set cs city_id (VDict fields)))) ->
            config_writable s1 = cw ->
            fst (switch_city py_str city_id s1) = Ok cw
            /\ set_CITY (settings (snd (switch_city py_str city_id s1)))
               = default (VStr city_id) (assoc "name" fields)
            /\ set_COUNTRY (settings (snd (switch_city py_str city_id s1)))
               = default (VStr "CN") (assoc "country" fields)
            /\ set_LAT (settings (snd (switch_city py_str city_id s1)))
               = default (VInt 0) (assoc "lat" fields)
            /\ set_LON (settings (snd (switch_city py_str city_id s1)))
               = default (VInt 0) (assoc "lon" fields)
            /\ set_CITY_DISPLAY_NAME (settings (snd (switch_city py_str city_id s1)))
               = default (VStr city_id) (assoc "display_name" fields)) as Hswitch.
  { intros d1 s1 Hp1 Hcw.
    unfold switch_city, _save_config, stry, sbind, get_presets, get_settings,
      set_settings, slift, write_config_file, print_line, sret.
    rewrite Hp1. cbn [dict_get]. rewrite assoc_dict_set_eq. cbn [from_option id dict_get].
    rewrite assoc_dict_set_eq. cbn [from_option id].
    destruct fields as [|kv fields]; [congruence|].
    cbn [truthy negb dict_get config_writable]. rewrite Hcw.
    destruct cw;
      cbn [fst snd settings set_CITY set_COUNTRY set_LAT set_LON set_CITY_DISPLAY_NAME];
      repeat split. }
  destruct (assoc "cities" d) as [x|] eqn:E; cbn [from_option id] in Hcs.
  - subst x. cbn [negb presets getitem setitem]. rewrite E.
    cbn [setitem preset_writable].
    destruct pw; cbn [snd config_writable]; apply (Hswitch d); reflexivity.
  - injection Hcs as <-. cbn [negb presets getitem setitem].
    rewrite assoc_dict_set_eq. cbn [setitem preset_writable].
    destruct pw; cbn [snd config_writable];
      apply (Hswitch (dict_set d "cities" (VDict []))); reflexivity.
Qed.

Lemma assoc_not_in (k : string) (d : list (string * value)) :
  ~ In k (map fst d) -> assoc k d = None.
Proof.
  induction d as [|[k' v'] d IH]; cbn [assoc map fst In]; [reflexivity|].
  intros Hn. destruct (String.eqb_spec k k') as [->|_]; [tauto|].
  apply IH. tauto.
Qed.

Lemma assoc_fold_dict_set (d acc : list (string * value)) (k : string) :
  List.NoDup (map fst d) ->
  assoc k (fold_left (fun acc kv => dict_set acc (fst kv) (snd kv)) d acc)
  = match assoc k d with
    | Some v => Some v
    | None => assoc k acc
    end.
Proof.
  revert acc. induction d as [|[k0 v0] d IH]; intros acc Hnd;
    cbn [fold_left assoc map fst snd] in *; [reflexivity|].
  apply List.NoDup_cons_iff in Hnd as [Hnotin Hnd]. rewrite (IH _ Hnd).
  destruct (String.eqb_spec k k0) as [->|Hne].
  - now rewrite (assoc_not_in _ _ Hnotin), assoc_dict_set_eq.
  - now rewrite (assoc_dict_set_ne _ _ _ _ Hne).
Qed.

Lemma list_cities_loop_entries (items : list (string * value)) (acc : list value) :
  Forall preset_dict items ->
  exists l, list_cities_loop items acc = Ok (acc ++ l) /\ Forall2 entry_of items l.
Proof.
  intros Hall. revert acc.
  induction Hall as [|[city_id city_info] items (fields & Hf & Hnd) _ IH]; intros acc;
    cbn [list_cities_loop].
  - exists []. now rewrite app_nil_r.
  - cbn [snd] in Hf. subst city_info. cbn [with_id rbind].
    destruct (IH (acc ++ [VDict
                (fold_left (fun acc kv => dict_set acc (fst kv) (snd kv)) fields
                           [("id", VStr city_id)])])) as (l & -> & Hl).
    eexists (_ :: l). split; [now rewrite <- app_assoc|].
    constructor; [|exact Hl].
    exists fields. eexists. split; [reflexivity|]. split; [reflexivity|].
    intros k. rewrite (assoc_fold_dict_set _ _ _ Hnd). cbn [assoc fst].
    reflexivity.
Qed.

Lemma list_cities_loop_raises (items : list (string * value)) (acc : list value) :
  Exists (fun kv => forall fields, snd kv <> VDict fields) items ->
  exists e, list_cities_loop items acc = Raise e /\ exn_type e = TypeError.
Proof.
  intros Hex. revert acc.
  induction Hex as [[city_id city_info] items Hnd|[city_id city_info] items _ IH];
    intros acc; cbn [list_cities_loop].
  - cbn [snd] in Hnd.
    destruct city_info as [| | | | | |fields];
      try (eexists; split; reflexivity).
    now destruct (Hnd fields).
  - destruct (with_id city_id city_info) as [entry|e] eqn:E; cbn [rbind].
    + apply IH.
    + exists e. split; [reflexivity|].
      destruct city_info; cbn [with_id] in E; try (injection E as <-; reflexivity).
      discriminate.
Qed.

(** X24: [list_cities] returns, in the order of the presets, one
    entry for each preset: the fields of the preset, and the key of the
    preset under [id] unless the preset has an [id] field of its own,
    which then stands.  With no [cities] in the presets the list is empty,
    and a preset that is not a dictionary makes the call raise a
    TypeError.  The session is never changed. *)
Theorem list_cities_entries (s : session) (cs : list (string * value)) :
  cities_are (presets s) cs ->
  (Forall preset_dict cs ->
   exists l, list_cities s = (Ok l, s) /\ Forall2 entry_of cs l)
  /\ (Exists (fun kv => forall fields, snd kv <> VDict fields) cs ->
      exists e, list_cities s = (Raise e, s) /\ exn_type e = TypeError).
Proof.
  intros (d & Hp & Hcs).
  unfold list_cities, sbind, get_presets, slift.
  rewrite Hp. cbn [dict_get]. rewrite Hcs. cbn [dict_items].
  split.
  - intros Hall. destruct (list_cities_loop_entries cs [] Hall) as (l & -> & Hl).
    exists l. now split.
  - intros Hex. destruct (list_cities_loop_raises cs [] Hex) as (e & -> & He).
    exists e. now split.
Qed.

(** ** The query by coordinates *)

(** X25: [get_weather_by_coordinates] sends exactly one request at
    every call and returns the body of a 200 response; for any other
    status, 404 included, it prints the failure line with the status and
    returns [None], and it returns [None] as well when it cannot reach the
    server or the body of a 200 response is not JSON.  Nothing is kept: the
    same call made again right after a successful one sends its request
    again. *)
Theorem get_weather_by_coordinates_outcome (h : host) (lat lon : option Q)
    (w : world) :
  let o := get_weather_by_coordinates h lat lon w in
  let r := coordinates_request h lat lon in
  request_times (trace o) = [clock w]
  /\ In (EvRequest (clock w) r (server w (clock w) r)) (trace o)
  /\ (forall data, server w (clock w) r = Response 200 (Some data) ->
        res o = Ok data
        /\ count_requests (trace (get_weather_by_coordinates h lat lon (final o)))
           = 1%nat)
  /\ (forall code body, server w (clock w) r = Response code body -> code <> 200 ->
        res o = Ok VNone
        /\ In (EvPrint ("❌ 坐标请求失败: " +:+ pretty code)) (trace o))
  /\ (server w (clock w) r = Response 200 None -> res o = Ok VNone)
  /\ (forall msg, server w (clock w) r = NetworkError msg ->
        res o = Ok VNone /\ In (EvPrint ("❌ 网络错误: " +:+ msg)) (trace o)).
Proof.
  cbv zeta. rewrite !get_weather_by_coordinates_run. cbv zeta.
  destruct (server w (clock w) (coordinates_request h lat lon))
    as [code body|msg] eqn:Es.
  - destruct (Z.eqb_spec code 200) as [->|Hne].
    + destruct body as [data|]; cbn [trace res final].
      * split; [reflexivity|]. split; [cbn; auto|].
        split; [|split; [|split]].
        -- intros data' [= <-]. split; [reflexivity|].
           rewrite Es. reflexivity.
        -- intros code body [= <- _] Hc. congruence.
        -- discriminate.
        -- discriminate.
      * split; [reflexivity|]. split; [cbn; auto|].
        split; [|split; [|split]].
        -- discriminate.
        -- intros code body [= <- _] Hc. congruence.
        -- reflexivity.
        -- discriminate.
    + cbn [trace res final].
      split; [reflexivity|]. split; [cbn; auto|].
      split; [|split; [|split]].
      * intros data [= ? _]. congruence.
      * intros code' body' [= <- _] _. split; [reflexivity|cbn; auto].
      * intros [= ? _]. congruence.
      * discriminate.
  - cbn [trace res final].
    split; [reflexivity|]. split; [cbn; auto|].
    split; [|split; [|split]]; try discriminate.
    intros msg' [= <-]. split; [reflexivity|cbn; auto].
Qed.

(** ** A comparison made twice *)

Lemma current_cache_file_local_day (h : host) (w1 w2 : world) (city : option string) :
  local_day h (clock w1) = local_day h (clock w2) ->
  current_cache_file h w1 city = current_cache_file h w2 city.
Proof.
  intros Hd. unfold current_cache_file. f_equal.
  apply cache_key_same_day. unfold date_of. unfold local_day in Hd. now rewrite Hd.
Qed.

Section ComparisonTwice.

Variable h : host.
Variable w0 : world.
Variable T : Z.
Hypothesis Huse : USE_CACHE (config h) = true.
Hypothesis Hzone : same_offset h (clock w0) T.
Hypothesis Hday : local_day h (clock w0) = local_day h T.
Hypothesis Hspan : T - clock w0 < freshness_window h.

(** Between the two times the local clock runs like the clock. *)
Lemma local_time_between (t : Z) :
  clock w0 <= t <= T ->
  local_time h t
  = t + utc_offset h (clock w0 / US_PER_SECOND) * US_PER_SECOND.
Proof. intros Ht. unfold local_time. now rewrite (Hzone t Ht). Qed.

Lemma local_day_between (t : Z) :
  clock w0 <= t <= T -> local_day h t = local_day h (clock w0).
Proof.
  intros Ht. pose proof Hday as Hd. unfold local_day in *.
  rewrite (local_time_between t Ht).
  rewrite (local_time_between T ltac:(lia)) in Hd.
  rewrite (local_time_between (clock w0) ltac:(lia)) in Hd |- *.
  unfold US_PER_DAY, US_PER_SECOND in *.
  set (c := utc_offset h (clock w0 / 1000000)) in *.
  assert ((clock w0 + c * 1000000) / (86400 * 1000000)
          <= (t + c * 1000000) / (86400 * 1000000))
    by (apply Z.div_le_mono; lia).
  assert ((t + c * 1000000) / (86400 * 1000000)
          <= (T + c * 1000000) / (86400 * 1000000))
    by (apply Z.div_le_mono; lia).
  lia.
Qed.

Lemma current_cache_file_between (w : world) (city : option string) :
  clock w0 <= clock w <= T ->
  current_cache_file h w0 city = current_cache_file h w city.
Proof.
  intros Hw. apply current_cache_file_local_day. symmetry.
  now apply local_day_between.
Qed.

(** A fetch between the two times keeps what the cache holds. *)
Lemma get_current_weather_keeps (city country : option string) (w : world)
    (name : string) (d : value) :
  clock w0 <= clock w <= T ->
  holds_until h w T name d ->
  holds_until h (final (get_current_weather h city country w)) T name d.
Proof.
  intros Hclock (f & Hfile & Hbody & Htruthy & Hage).
  destruct (String.eqb_spec name (current_cache_file h w city)) as [->|Hne].
  - destruct (get_current_weather_hit h city country w f d Huse Hfile) as (_ & _ & ->);
      [unfold naive_age; rewrite (local_time_between (clock w) Hclock);
       rewrite (local_time_between T ltac:(lia)) in Hage; lia
      |assumption..|].
    exists f. auto.
  - destruct (get_current_weather_final h city country w) as [->|(data & _ & ->)].
    + exists f. auto.
    + exists f. split; [|auto].
      unfold saved. cbn [cache_dir]. now rewrite lookup_insert_ne.
Qed.

Lemma get_current_weather_young (city country : option string) (w : world) :
  clock w0 <= clock w <= T ->
  young_until h w T ->
  young_until h (final (get_current_weather h city country w)) T.
Proof.
  intros Hclock Hyoung.
  destruct (get_current_weather_final h city country w) as [->|(data & _ & ->)];
    [exact Hyoung|].
  intros name f. unfold saved. cbn [cache_dir].
  destruct (String.eqb_spec name (current_cache_file h w city)) as [->|Hne].
  - rewrite lookup_insert_eq. intros [= <-]. cbn [st_mtime].
    rewrite (local_time_between (clock w) Hclock).
    rewrite (local_time_between T ltac:(lia)). lia.
  - rewrite lookup_insert_ne by congruence. apply Hyoung.
Qed.

Lemma get_current_weather_clock (city country : option string) (w : world) :
  clock (final (get_current_weather h city country w)) = clock w.
Proof.
  destruct (get_current_weather_final h city country w) as [->|(data & _ & ->)];
    reflexivity.
Qed.

Lemma holds_until_elapse (w : world) (us : Z) (name : string) (d : value) :
  holds_until h w T name d -> holds_until h (elapse us w) T name d.
Proof. intros (f & H). exists f. exact H. Qed.

(** The loop keeps what the cache holds, however it ends. *)
Lemma compare_loop_keeps (cities : list (gmap string (option string))) :
  forall (acc : list value) (w : world) (name : string) (d : value),
    clock w0 <= clock w ->
    clock w + Z.of_nat (length cities) * RATE_LIMIT_DELAY <= T ->
    holds_until h w T name d ->
    holds_until h (final (compare_loop h cities acc w)) T name d.
Proof.
  induction cities as [|c rest IH]; intros acc w name d Hfrom Hclock Hholds;
    [exact Hholds|].
  cbn [compare_loop]. unfold bind. rewrite compare_step_run. cbv zeta.
  cbn [length] in Hclock. unfold RATE_LIMIT_DELAY in *.
  pose proof (get_current_weather_keeps (city_of c) (country_of c) w name d
                ltac:(lia) Hholds) as Hkeep.
  pose proof (get_current_weather_clock (city_of c) (country_of c) w) as Hc.
  destruct (get_current_weather h (city_of c) (country_of c) w)
    as [[data|e] w1 tr]; cbn [final] in *; [|exact Hkeep].
  assert (forall acc',
            holds_until h
              (final
                 (match compare_loop h rest acc' (elapse 1100000 w1) with
                  | Outcome r w2 tr2 =>
                      Outcome r w2
                        ((EvPrint ("正在获取 " +:+ str_opt (city_of c) +:+ " 的数据...")
                          :: tr ++ [EvSleep 1100000]) ++ tr2)
                  end)) T name d) as Hrest.
  { intros acc'.
    pose proof (IH acc' (elapse 1100000 w1) name d) as H.
    destruct (compare_loop h rest acc' (elapse 1100000 w1)) as [r w2 tr2].
    cbn [final] in *. apply H; [cbn [elapse clock]; lia..|].
    now apply holds_until_elapse. }
  destruct (truthy data); [|apply Hrest].
  destruct (parse_weather_data h data (display_name_of c)) as [parsed|e];
    [|exact Hkeep].
  destruct (truthy parsed); [|apply Hrest].
  destruct (comparison_row parsed) as [row|e]; [apply Hrest|exact Hkeep].
Qed.

(** A run that gives a row for every city leaves the payload of every
    row in the cache. *)
Lemma compare_loop_fills (cities : list (gmap string (option string))) :
  forall (acc : list value) (w : world) (rows : list value),
    clock w0 <= clock w ->
    clock w + Z.of_nat (length cities) * RATE_LIMIT_DELAY <= T ->
    young_until h w T ->
    res (compare_loop h cities acc w) = Ok rows ->
    length rows = (length acc + length cities)%nat ->
    let w1 := final (compare_loop h cities acc w) in
    young_until h w1 T
    /\ clock w1 = clock w + Z.of_nat (length cities) * RATE_LIMIT_DELAY
    /\ exists new,
         rows = acc ++ new
         /\ Forall2 (fun c row =>
                       exists d,
                         holds_until h w1 T (current_cache_file h w0 (city_of c)) d
                         /\ row_from h c d row)
                    cities new.
Proof.
  induction cities as [|c rest IH]; intros acc w rows Hfrom Hto Hyoung Hres Hlen;
    cbv zeta.
  - cbn in Hres. injection Hres as <-. cbn [compare_loop ret final length].
    split; [exact Hyoung|]. split; [cbn; lia|].
    exists []. split; [now rewrite app_nil_r|constructor].
  - pose proof (compare_loop_keeps rest) as Hkeeps.
    revert Hres. cbn [compare_loop]. unfold bind. rewrite compare_step_run. cbv zeta.
    cbn [length] in Hto, Hlen. unfold RATE_LIMIT_DELAY in *.
    pose proof (get_current_weather_young (city_of c) (country_of c) w
                  ltac:(lia) Hyoung) as Hyoung1.
    pose proof (get_current_weather_clock (city_of c) (country_of c) w) as Hclock1.
    pose proof (get_current_weather_leaves_entry h (city_of c) (country_of c) w)
      as Hentry.
    destruct (get_current_weather h (city_of c) (country_of c) w)
      as [[data|e] w1 tr]; cbn [final res] in *; [|discriminate].
    assert (forall acc',
              res (compare_loop h rest acc' (elapse 1100000 w1)) = Ok rows ->
              length acc' = length acc ->
              False) as Hshort.
    { intros acc' Hr Hl.
      destruct (compare_loop_props h rest acc' (elapse 1100000 w1))
        as (_ & _ & Hrows).
      destruct (Hrows rows Hr) as (_ & new & -> & Hle & _).
      rewrite length_app in Hlen. lia. }
    destruct (truthy data) eqn:Htruthy.
    2: { intros Hres. exfalso. apply (Hshort acc); [|reflexivity].
         destruct (compare_loop h rest acc (elapse 1100000 w1)); exact Hres. }
    destruct (parse_weather_data h data (display_name_of c)) as [parsed|e] eqn:Hparse;
      [|discriminate].
    destruct (truthy parsed) eqn:Htp.
    2: { intros Hres. exfalso. apply (Hshort acc); [|reflexivity].
         destruct (compare_loop h rest acc (elapse 1100000 w1)); exact Hres. }
    destruct (comparison_row parsed) as [row|e] eqn:Hrow; [|discriminate].
    intros Hres.
    assert (res (compare_loop h rest (acc ++ [row]) (elapse 1100000 w1)) = Ok rows)
      as Hres' by (destruct (compare_loop h rest (acc ++ [row]) (elapse 1100000 w1));
                   exact Hres).
    destruct (IH (acc ++ [row]) (elapse 1100000 w1) rows) as (Hy & Hc & new & -> & Hall).
    { cbn [elapse clock]. lia. }
    { cbn [elapse clock]. lia. }
    { exact Hyoung1. }
    { exact Hres'. }
    { rewrite length_app. cbn [length]. lia. }
    destruct (Hentry data Huse eq_refl Htruthy) as (_ & f & Hfile & Hbody).
    assert (holds_until h (elapse 1100000 w1) T
              (current_cache_file h w0 (city_of c)) data) as Hholds.
    { exists f. cbn [elapse cache_dir]. split; [|split; [exact Hbody|split]].
      - rewrite <- Hfile. f_equal. apply current_cache_file_between. lia.
      - exact Htruthy.
      - apply (Hyoung1 _ _ Hfile). }
    specialize (Hkeeps (acc ++ [row]) (elapse 1100000 w1) _ data
                  ltac:(cbn [elapse clock]; lia)
                  ltac:(cbn [elapse clock]; lia) Hholds).
    destruct (compare_loop h rest (acc ++ [row]) (elapse 1100000 w1))
      as [r w2 tr2]; cbn [final res elapse clock] in *.
    split; [exact Hy|]. split; [cbn [length]; lia|].
    exists (row :: new). split; [now rewrite <- app_assoc|].
    constructor; [|exact Hall].
    exists data. split; [exact Hkeeps|]. exists parsed. auto.
Qed.

(** A run over cities whose payloads the cache holds sends no request
    and makes the rows of those payloads. *)
Lemma compare_loop_served (wc : world) (cities : list (gmap string (option string)))
    (new : list value) :
  Forall2 (fun c row =>
             exists d,
               holds_until h wc T (current_cache_file h w0 (city_of c)) d
               /\ row_from h c d row)
          cities new ->
  forall (acc : list value) (w : world),
    cache_dir w = cache_dir wc ->
    clock w0 <= clock w ->
    clock w + Z.of_nat (length cities) * RATE_LIMIT_DELAY <= T ->
    let o := compare_loop h cities acc w in
    res o = Ok (acc ++ new) /\ count_requests (trace o) = 0%nat
    /\ cache_dir (final o) = cache_dir wc.
Proof.
  induction 1 as [|c row rest new (d & Hholds & parsed & Hparse & Htp & Hrow) Hall IH];
    intros acc w Hdir Hfrom Hto; cbv zeta.
  - cbn [compare_loop ret res trace final]. now rewrite app_nil_r.
  - cbn [compare_loop]. unfold bind. rewrite compare_step_run. cbv zeta.
    cbn [length] in Hto. unfold RATE_LIMIT_DELAY in *.
    destruct Hholds as (f & Hfile & Hbody & Htruthy & Hage).
    assert (current_cache_file h w0 (city_of c) = current_cache_file h w (city_of c))
      as Hname.
    { apply current_cache_file_between. lia. }
    rewrite Hname, <- Hdir in Hfile.
    destruct (get_current_weather_hit h (city_of c) (country_of c) w f d Huse Hfile)
      as (Hres & Hcount & Hfinal);
      [unfold naive_age; rewrite (local_time_between (clock w) ltac:(lia));
       rewrite (local_time_between T ltac:(lia)) in Hage; lia
      |assumption..|].
    destruct (get_current_weather h (city_of c) (country_of c) w)
      as [r w1 tr]; cbn [res trace final] in Hres, Hcount, Hfinal. subst r w1.
    rewrite Htruthy, Hparse, Htp, Hrow.
    destruct (IH (acc ++ [row]) (elapse 1100000 w)) as (Hres & Hcount' & Hdir').
    { exact Hdir. }
    { cbn [elapse clock]. lia. }
    { cbn [elapse clock]. lia. }
    destruct (compare_loop h rest (acc ++ [row]) (elapse 1100000 w)) as [r w2 tr2].
    cbn [res trace final] in *.
    split; [now rewrite Hres, <- app_assoc|]. split; [|exact Hdir'].
    change (count_requests
              ((([EvPrint ("正在获取 " +:+ str_opt (city_of c) +:+ " 的数据...")] ++ tr)
                ++ [EvSleep 1100000]) ++ tr2) = 0%nat).
    rewrite !count_requests_app, Hcount, Hcount'. reflexivity.
Qed.

End ComparisonTwice.

(** X26: a comparison that gave a row for every city can be made
    again at once for nothing: when caching is on with [CACHE_HOURS] a
    number of hours a [timedelta] can hold, the offset of local time from
    UTC does not change during the two runs, both runs fall on one local
    day and within the freshness window, and no cache file there was
    before expires meanwhile, the second run sends no request and returns
    the rows of the first. *)
Theorem compare_cities_twice (h : host) (cities : list (gmap string (option string)))
    (w : world) (rows : list value) :
  let span := 2 * Z.of_nat (length cities) * RATE_LIMIT_DELAY in
  USE_CACHE (config h) = true ->
  timedelta_ok (CACHE_HOURS (config h)) = true ->
  same_offset h (clock w) (clock w + span) ->
  local_day h (clock w) = local_day h (clock w + span) ->
  span < freshness_window h ->
  young_until h w (clock w + span) ->
  res (compare_cities h cities w) = Ok rows ->
  length rows = length cities ->
  let o := compare_cities h cities (final (compare_cities h cities w)) in
  res o = Ok rows /\ count_requests (trace o) = 0%nat.
Proof.
  cbv zeta. unfold compare_cities. intros Huse _ Hzone Hday Hspan Hyoung Hres Hlen.
  unfold RATE_LIMIT_DELAY in *.
  set (T := clock w + 2 * Z.of_nat (length cities) * 1100000) in *.
  assert (T - clock w < freshness_window h) as Hspan' by (subst T; lia).
  destruct (compare_loop_fills h w T Huse Hzone Hday Hspan' cities [] w rows)
    as (_ & Hclock & new & -> & Hall);
    [lia | unfold RATE_LIMIT_DELAY; subst T; lia | exact Hyoung | exact Hres
    | exact Hlen |].
  unfold RATE_LIMIT_DELAY in Hclock.
  destruct (compare_loop_served h w T Huse Hzone Hday _ cities new Hall []
              (final (compare_loop h cities [] w)) eq_refl)
    as (Hres2 & Hcount & _);
    [lia | unfold RATE_LIMIT_DELAY; subst T; lia |].
  split; [exact Hres2|exact Hcount].
Qed.

(** * The properties on the sample data *)

(** The payload of the sample server for Guilin is parsed as C6 says. *)
Lemma parse_weather_data_well_formed_witness :
  well_formed sample_host (sample_payload "Guilin" (2246 # 100)) = true
  /\ exists parsed,
       parse_weather_data sample_host (sample_payload "Guilin" (2246 # 100))
         (Some "桂林") = Ok (VDict parsed)
       /\ assoc "天气状况" parsed = Some (VStr "晴朗")
       /\ assoc "日出时间" parsed = Some (VStr "05:56:40").
Proof.
  split; [vm_compute; reflexivity|].
  destruct (parse_weather_data_well_formed sample_host
              (sample_payload "Guilin" (2246 # 100)) (Some "桂林"))
    as (parsed & Hparse & _); [vm_compute; reflexivity|].
  exists parsed. split; [exact Hparse|].
  vm_compute in Hparse. injection Hparse as <-.
  split; vm_compute; reflexivity.
Defined.

(** A comfortable temperature with a moderate humidity and a light wind
    is rated very comfortable, as the rule table says. *)
Lemma comfort_index_rule_table_witness :
  calculate_comfort_index 22 50 3 = Spec.comfort_rating 22%Q 50%Q
  /\ Spec.band_of 22%Q = Spec.Comfortable
  /\ temp_score 22%Q = "舒适"
  /\ humidity_adj 50%Q = "适中"
  /\ wind_adj 3%Q = "微风"
  /\ wind_adj 7%Q = "有风"
  /\ wind_adj 12%Q = "大风".
Proof.
  destruct (comfort_index_rule_table 22%Q 50%Q 3%Q) as (Hrate & (Ht & _) & (Hh & _) & (Hw & _) & _);
    [discriminate..|].
  destruct (comfort_index_rule_table 22%Q 50%Q 7%Q) as (_ & _ & _ & (Hw7 & _) & _);
    [discriminate..|].
  destruct (comfort_index_rule_table 22%Q 50%Q 12%Q) as (_ & _ & _ & (Hw12 & _) & _);
    [discriminate..|].
  split; [exact Hrate|]. split; [reflexivity|].
  split; [rewrite Ht; reflexivity|].
  split; [rewrite Hh; reflexivity|].
  split; [rewrite Hw; reflexivity|].
  split; [rewrite Hw7; reflexivity|rewrite Hw12; reflexivity].
Defined.

(** C2 as stated fails for NaN, which is neither below nor above any
    bound: a NaN temperature is rated as the hot band, a NaN humidity as
    moderate -- so that 22 degrees with a NaN humidity is rated very
    comfortable -- and a NaN wind as light. *)
Lemma nan_is_rated :
  (calculate_comfort_index NaN 50 3 = "炎热适中"
   /\ temp_score NaN = "炎热" /\ float_leb 32 NaN = false)
  /\ (calculate_comfort_index 22 NaN 3 = "非常舒适"
      /\ humidity_adj NaN = "适中"
      /\ float_leb 30 NaN = false /\ float_leb NaN 85 = false)
  /\ (wind_adj NaN = "微风" /\ float_leb NaN 5 = false).
Proof. repeat split; vm_compute; reflexivity. Qed.

(** The key of a query for Guilin on 2023-11-15 is the start of the
    digest of its key string; two queries one hour apart that day share
    it; a query the next day, and a forecast query, have other key
    strings; and the file each method looks for is named by its key. *)
Lemma cache_key_by_day_witness :
  res (_get_cache_key sample_host "Guilin" "current" sample_world)
  = Ok (substring 0 8 (sample_digest "Guilin_current_20231115"))
  /\ res (_get_cache_key sample_host "Guilin" "current" sample_world)
     = res (_get_cache_key sample_host "Guilin" "current"
              (elapse (3600 * US_PER_SECOND) sample_world))
  /\ key_string "Guilin" "current" "20231115"
     <> key_string "Guilin" "current" "20231116"
  /\ key_string "Guilin" "current" "20231115"
     <> key_string ("Guilin" +:+ "_forecast") "forecast" "20231115"
  /\ In (EvStat (cache_file_name
                   (substring 0 8 (sample_digest "Guilin_current_20231115"))
                   "current"))
        (trace (get_current_weather sample_host (Some "Guilin") None sample_world)).
Proof.
  split; [|split; [|split; [|split]]].
  - destruct (cache_key_by_day sample_host "Guilin" "current" sample_world
                sample_world) as ((Hkey & _) & _).
    rewrite Hkey. reflexivity.
  - destruct (cache_key_by_day sample_host "Guilin" "current" sample_world
                (elapse (3600 * US_PER_SECOND) sample_world)) as (_ & Hsame & _).
    apply Hsame. vm_compute. reflexivity.
  - destruct (cache_key_by_day sample_host "Guilin" "current" sample_world
                (elapse (2 * US_PER_SECOND) before_midnight))
      as (_ & _ & Hdays & _).
    apply (Hdays "Guilin" "current").
    + vm_compute. reflexivity.
    + vm_compute. reflexivity.
    + vm_compute. discriminate.
  - destruct (cache_key_by_day sample_host "Guilin" "current" sample_world
                sample_world) as (_ & _ & _ & Hkinds & _).
    apply (Hkinds "Guilin").
  - destruct (cache_key_by_day sample_host "Guilin" "current" sample_world
                sample_world) as (_ & _ & _ & _ & Hfile).
    destruct (Hfile (Some "Guilin") None None) as (key & key' & Hk & Hin & _);
      [reflexivity|].
    vm_compute in Hk. injection Hk as <-. exact Hin.
Defined.

(** Atlantis is not found, Busy answers 503, Offline cannot be reached,
    and the file written for Guilin follows a 200 response. *)
Lemma get_current_weather_failures_witness :
  (res (get_current_weather sample_host (Some "Atlantis") None sample_world) = Ok VNone
   /\ signals (trace (get_current_weather sample_host (Some "Atlantis") None
                        sample_world)) = [NotFound])
  /\ (res (get_current_weather sample_host (Some "Busy") None sample_world) = Ok VNone
      /\ signals (trace (get_current_weather sample_host (Some "Busy") None
                           sample_world)) = [TransientError])
  /\ (res (get_current_weather sample_host (Some "Offline") None sample_world) = Ok VNone
      /\ signals (trace (get_current_weather sample_host (Some "Offline") None
                           sample_world)) = [TransientError])
  /\ res (get_current_weather sample_host (Some "Guilin") None sample_world)
     = Ok (sample_payload "Guilin" (2246 # 100)).
Proof.
  split; [|split; [|split]].
  - destruct (get_current_weather_failures sample_host (Some "Atlantis") None
                sample_world) as (H404 & _).
    destruct (H404 sample_clock
                (current_request sample_host (Some "Atlantis") None)
                (Some (VDict [("cod", VStr "404"); ("message", VStr "city not found")])))
      as (Hres & Hsig & _).
    { vm_compute. right. right. left. reflexivity. }
    split; assumption.
  - destruct (get_current_weather_failures sample_host (Some "Busy") None
                sample_world) as (_ & Hother & _).
    destruct (Hother sample_clock
                (current_request sample_host (Some "Busy") None) 503 None)
      as (Hres & Hsig & _).
    { vm_compute. right. right. left. reflexivity. }
    { lia. }
    { lia. }
    split; assumption.
  - destruct (get_current_weather_failures sample_host (Some "Offline") None
                sample_world) as (_ & _ & Hnet & _).
    destruct (Hnet sample_clock
                (current_request sample_host (Some "Offline") None)
                "Connection reset by peer")
      as (Hres & Hsig & _).
    { vm_compute. right. right. left. reflexivity. }
    split; assumption.
  - destruct (get_current_weather_failures sample_host (Some "Guilin") None
                sample_world) as (_ & _ & _ & Hwrite).
    destruct (Hwrite (current_cache_file sample_host sample_world (Some "Guilin"))
                (sample_payload "Guilin" (2246 # 100)))
      as (_ & Hres).
    { vm_compute. right. right. right. left. reflexivity. }
    exact Hres.
Defined.


(** Guilin asked twice within a minute is fetched once; asked with
    two-hour-old cache files it is fetched again. *)
Lemma cache_freshness_discipline_witness :
  timedelta_ok (CACHE_HOURS (config sample_host)) = true
  /\ (let o1 := get_current_weather sample_host (Some "Guilin") None sample_world in
      let o2 := get_current_weather sample_host (Some "Guilin") None
                  (elapse (60 * US_PER_SECOND) (final o1)) in
      res o2 = res o1 /\ count_requests (trace o2) = 0%nat)
  /\ (let o1 := get_forecast sample_host (Some "Guilin") None None sample_world in
      let o2 := get_forecast sample_host (Some "Guilin") None None
                  (elapse (60 * US_PER_SECOND) (final o1)) in
      res o2 = res o1 /\ count_requests (trace o2) = 0%nat)
  /\ count_requests (trace (get_current_weather sample_host (Some "Guilin") None
                              stale_world)) = 1%nat
  /\ count_requests (trace (get_forecast sample_host (Some "Guilin") None None
                              stale_world)) = 1%nat.
Proof.
  pose proof (cache_freshness_discipline sample_host (Some "Guilin") None None
                sample_world (60 * US_PER_SECOND)
                (sample_payload "Guilin" (2246 # 100)) eq_refl) as (Hcur & Hfore & _).
  pose proof (cache_freshness_discipline sample_host (Some "Guilin") None None
                stale_world 0 VNone eq_refl) as (_ & _ & Hstale & Hstale').
  split; [reflexivity|]. split; [|split; [|split]].
  - cbv zeta.
    destruct Hcur as (H1 & H2);
      [reflexivity | vm_compute; reflexivity | reflexivity
      | vm_compute; reflexivity | |].
    + intros f Hf. vm_compute in Hf. injection Hf as <-.
      split; vm_compute; reflexivity.
    + split; [rewrite H1; vm_compute; reflexivity | exact H2].
  - cbv zeta.
    destruct Hfore as (H1 & H2);
      [reflexivity | vm_compute; reflexivity | reflexivity
      | vm_compute; reflexivity | |].
    + intros f Hf. vm_compute in Hf. injection Hf as <-.
      split; vm_compute; reflexivity.
    + split; [rewrite H1; vm_compute; reflexivity | exact H2].
  - apply (Hstale (File (sample_clock - 7200 * US_PER_SECOND)
                        (Json (sample_payload "Guilin" (1875 # 100)))));
      vm_compute; [reflexivity | discriminate | reflexivity].
  - apply (Hstale' (File (sample_clock - 7200 * US_PER_SECOND)
                         (Json (sample_payload "Guilin" (1875 # 100)))));
      vm_compute; [reflexivity | discriminate | reflexivity].
Defined.

(** C1 as stated fails: a cache file one minute old that holds [{}] is
    fetched again, and so is a cache file two seconds old when midnight
    fell between the two calls. *)
Lemma fresh_entry_refetched :
  (res (get_current_weather sample_host (Some "Empty") None sample_world)
   = Ok (VDict [])
   /\ cache_dir (elapse (60 * US_PER_SECOND)
                   (final (get_current_weather sample_host (Some "Empty") None
                             sample_world)))
        !! current_cache_file sample_host sample_world (Some "Empty")
      = Some (File sample_clock (Json (VDict [])))
   /\ file_age (elapse (60 * US_PER_SECOND)
                  (final (get_current_weather sample_host (Some "Empty") None
                            sample_world)))
               (File sample_clock (Json (VDict [])))
      < freshness_window sample_host
   /\ count_requests
        (trace (get_current_weather sample_host (Some "Empty") None
                  (elapse (60 * US_PER_SECOND)
                     (final (get_current_weather sample_host (Some "Empty") None
                               sample_world)))))
      = 1%nat)
  /\ (res (get_current_weather sample_host (Some "Guilin") None before_midnight)
      = Ok (sample_payload "Guilin" (2246 # 100))
      /\ cache_dir (elapse (2 * US_PER_SECOND)
                      (final (get_current_weather sample_host (Some "Guilin") None
                                before_midnight)))
           !! current_cache_file sample_host before_midnight (Some "Guilin")
         = Some (File (clock before_midnight)
                      (Json (sample_payload "Guilin" (2246 # 100))))
      /\ file_age (elapse (2 * US_PER_SECOND)
                     (final (get_current_weather sample_host (Some "Guilin") None
                               before_midnight)))
                  (File (clock before_midnight)
                        (Json (sample_payload "Guilin" (2246 # 100))))
         < freshness_window sample_host
      /\ count_requests
           (trace (get_current_weather sample_host (Some "Guilin") None
                     (elapse (2 * US_PER_SECOND)
                        (final (get_current_weather sample_host (Some "Guilin")
                                  None before_midnight)))))
         = 1%nat).
Proof. repeat split; vm_compute; reflexivity. Qed.

(** The condition on the offset from UTC is needed: where the clocks
    were put back one hour between the writing of a cache file and the
    query, a file a hundred minutes old is taken for forty minutes old,
    and is used without a request although the window is one hour. *)
Lemma old_entry_served_after_clock_change :
  cache_dir autumn_world !! current_cache_file autumn_host autumn_world (Some "Guilin")
  = Some (File ((autumn_change - 1800) * US_PER_SECOND)
               (Json (sample_payload "Guilin" (1875 # 100))))
  /\ file_age autumn_world
       (File ((autumn_change - 1800) * US_PER_SECOND)
             (Json (sample_payload "Guilin" (1875 # 100))))
     = 6000 * US_PER_SECOND
  /\ freshness_window autumn_host = 3600 * US_PER_SECOND
  /\ naive_age autumn_host autumn_world
       (File ((autumn_change - 1800) * US_PER_SECOND)
             (Json (sample_payload "Guilin" (1875 # 100))))
     = 2400 * US_PER_SECOND
  /\ res (get_current_weather autumn_host (Some "Guilin") None autumn_world)
     = Ok (sample_payload "Guilin" (1875 # 100))
  /\ count_requests
       (trace (get_current_weather autumn_host (Some "Guilin") None autumn_world))
     = 0%nat.
Proof. repeat split; vm_compute; reflexivity. Qed.

(** Requests that fail are values: Offline is reported as [None] after
    one request, by the three methods; a readable cache and a well-formed
    payload raise nothing; a payload with nothing but a name makes the
    parser raise. *)
Lemma failures_are_values_witness :
  res (get_weather_by_coordinates sample_host None None sample_world) = Ok VNone
  /\ (res (get_current_weather sample_host (Some "Offline") None sample_world)
      = Ok VNone
      /\ count_requests
           (trace (get_current_weather sample_host (Some "Offline") None sample_world))
         = 1%nat)
  /\ (res (get_forecast sample_host (Some "Offline") None None sample_world)
      = Ok VNone
      /\ count_requests
           (trace (get_forecast sample_host (Some "Offline") None None sample_world))
         = 1%nat)
  /\ parse_weather_data sample_host (VDict []) None = Ok VNone
  /\ (exists parsed,
        parse_weather_data sample_host (sample_payload "Guilin" (2246 # 100)) None
        = Ok (VDict parsed))
  /\ (exists e, parse_weather_data sample_host incomplete_payload None = Raise e).
Proof.
  pose proof (failures_are_values sample_host (Some "Offline") None None None None
                sample_world (VDict []) None) as (Hco & Hcur & Hfore & Hparse & _).
  pose proof (failures_are_values sample_host (Some "Offline") None None None None
                sample_world (sample_payload "Guilin" (2246 # 100)) None)
    as (_ & _ & _ & _ & Hwf & _).
  pose proof (failures_are_values sample_host (Some "Offline") None None None None
                sample_world incomplete_payload None)
    as (_ & _ & _ & _ & _ & Hbad).
  split; [|split; [|split; [|split; [|split]]]].
  - rewrite Hco. vm_compute. reflexivity.
  - destruct Hcur as (_ & [(Hn & _)|(Hn & Hres)]);
      [reflexivity | vm_compute; reflexivity | vm_compute in Hn; discriminate Hn|].
    split; [rewrite Hres; vm_compute; reflexivity | exact Hn].
  - destruct Hfore as (_ & [(Hn & _)|(Hn & Hres)]);
      [reflexivity | vm_compute; reflexivity | vm_compute in Hn; discriminate Hn|].
    split; [rewrite Hres; vm_compute; reflexivity | exact Hn].
  - apply Hparse. reflexivity.
  - apply Hwf. vm_compute. reflexivity.
  - apply Hbad; [reflexivity | left; vm_compute; reflexivity].
Defined.

(** C4 as stated fails: an incomplete payload makes [parse_weather_data]
    raise [KeyError], and an unreadable cache file makes
    [get_current_weather] raise the decoding error. *)
Lemma exceptions_propagate :
  parse_weather_data sample_host incomplete_payload None
  = Raise (Exn KeyError "weather")
  /\ res (get_current_weather sample_host (Some "Guilin") None corrupted_world)
     = Raise (Exn JSONDecodeError "Expecting value").
Proof. split; vm_compute; reflexivity. Qed.

(** Guilin, Atlantis and Beijing: two rows, Guilin first, and the three
    requests 1.1 s apart; Beijing, then Guilin whose cache file cannot be
    read: the decoding error leaves the comparison. *)
Lemma compare_cities_skips_failures_witness :
  (exists r1 r3,
     res (compare_cities sample_host three_cities sample_world) = Ok [r1; r3]
     /\ getitem r1 "城市" = Ok (VStr "Guilin")
     /\ getitem r3 "城市" = Ok (VStr "Beijing"))
  /\ request_times (trace (compare_cities sample_host three_cities sample_world))
     = [sample_clock; sample_clock + 1100000; sample_clock + 2200000]
  /\ spaced RATE_LIMIT_DELAY
       (request_times (trace (compare_cities sample_host three_cities sample_world)))
  /\ res (compare_cities sample_host
            ([city_entry "Beijing"] ++ city_entry "Guilin" :: [city_entry "Atlantis"])
            corrupted_world)
     = Raise (Exn JSONDecodeError "Expecting value").
Proof.
  pose proof (compare_cities_skips_failures sample_host three_cities
                (city_entry "Guilin") (city_entry "Atlantis") (city_entry "Beijing")
                sample_world
                (sample_payload "Guilin" (2246 # 100)) VNone
                (sample_payload "Beijing" (-35 # 10))) as (Hgen & _ & Hscen & _).
  pose proof (compare_cities_skips_failures sample_host three_cities
                (city_entry "Guilin") (city_entry "Atlantis") (city_entry "Beijing")
                corrupted_world
                (sample_payload "Guilin" (2246 # 100)) VNone
                (sample_payload "Beijing" (-35 # 10))) as (_ & _ & _ & Habort).
  split; [|split; [|split]].
  - destruct Hscen as (p1 & p3 & r1 & r3 & Hp1 & Hr1 & Hp3 & Hr3 & Hres & _);
      try (vm_compute; reflexivity).
    exists r1, r3. split; [exact Hres|].
    vm_compute in Hp1. injection Hp1 as <-.
    vm_compute in Hp3. injection Hp3 as <-.
    vm_compute in Hr1. injection Hr1 as <-.
    vm_compute in Hr3. injection Hr3 as <-.
    split; vm_compute; reflexivity.
  - vm_compute. reflexivity.
  - exact (proj1 Hgen).
  - eapply (Habort [city_entry "Beijing"] [city_entry "Atlantis"]
              (city_entry "Guilin")).
    + vm_compute. reflexivity.
    + left. vm_compute. reflexivity.
Defined.

(** C8 as stated fails: of Beijing, Guilin and Beijing again, where the
    cache file of Guilin cannot be read, the second fails and the
    comparison returns no row at all: it raises the decoding error,
    although both fetches of Beijing would have given a row. *)
Lemma raising_fetch_aborts_comparison :
  (exists row,
     res (compare_cities sample_host [city_entry "Beijing"] corrupted_world)
     = Ok [row])
  /\ res (get_current_weather sample_host (Some "Guilin") None
            (final (compare_cities sample_host [city_entry "Beijing"] corrupted_world)))
     = Raise (Exn JSONDecodeError "Expecting value")
  /\ res (compare_cities sample_host
            [city_entry "Beijing"; city_entry "Guilin"; city_entry "Beijing"]
            corrupted_world)
     = Raise (Exn JSONDecodeError "Expecting value").
Proof.
  split; [eexists; vm_compute; reflexivity|].
  split; vm_compute; reflexivity.
Qed.

(** * The further properties on the sample data *)

Ltac in_trace := vm_compute; repeat (first [left; reflexivity | right]).

(** An empty list is parsed to [None]; the record of the payload for
    Guilin has the twenty-one keys. *)
Lemma parse_weather_data_result_witness :
  parse_weather_data sample_host (VList []) None = Ok VNone
  /\ exists p,
       parse_weather_data sample_host (sample_payload "Guilin" (2246 # 100)) None
       = Ok (VDict p)
       /\ map fst p = parsed_fields.
Proof.
  split.
  - apply (proj1 (parse_weather_data_result sample_host (VList []) None)).
    reflexivity.
  - pose proof (proj2 (parse_weather_data_result sample_host
                         (sample_payload "Guilin" (2246 # 100)) None)) as H.
    destruct (parse_weather_data sample_host (sample_payload "Guilin" (2246 # 100))
                None) as [out|e] eqn:E; [|vm_compute in E; discriminate E].
    destruct (H out eq_refl) as (p & -> & Hkeys & _).
    + vm_compute in E. injection E as <-. discriminate.
    + exists p. split; [reflexivity|exact Hkeys].
Defined.

(** A payload with no name, wind direction or visibility, parsed with an
    empty display name, gets the placeholder texts. *)
Lemma parse_weather_data_defaults_witness :
  exists p,
    parse_weather_data sample_host nameless_payload (Some "") = Ok (VDict p)
    /\ assoc "城市" p = Some (VStr "未知城市")
    /\ assoc "实际城市名" p = Some (VStr "未知")
    /\ assoc "风向(°)" p = Some (VStr "无数据")
    /\ assoc "能见度(m)" p = Some (VStr "无数据").
Proof.
  assert (exists p, parse_weather_data sample_host nameless_payload (Some "")
                    = Ok (VDict p)) as (p & Hp)
    by (vm_compute; eexists; reflexivity).
  destruct (parse_weather_data_defaults sample_host nameless_payload (Some "") p Hp)
    as (d & wd & Hd & Hw & H1 & H2 & H3 & H4).
  unfold nameless_payload in Hd. injection Hd as <-.
  vm_compute in Hw. injection Hw as <-.
  exists p. split; [exact Hp|].
  split; [exact H1|]. split; [exact H2|]. split; [exact H3|exact H4].
Defined.

(** The payload for Guilin, 22.46 degrees at 50 % humidity, is rated on
    its rounded temperature. *)
Lemma parse_weather_data_comfort_witness :
  exists p,
    parse_weather_data sample_host (sample_payload "Guilin" (2246 # 100)) None
    = Ok (VDict p)
    /\ assoc "舒适度评级" p = Some (VStr "非常舒适").
Proof.
  assert (exists p, parse_weather_data sample_host
                      (sample_payload "Guilin" (2246 # 100)) None
                    = Ok (VDict p)) as (p & Hp)
    by (vm_compute; eexists; reflexivity).
  destruct (parse_weather_data_comfort sample_host
              (sample_payload "Guilin" (2246 # 100)) None p Hp)
    as (raw & t & hum & spd & qt & qh & qs & Hraw & Hr & Ht & Hhum & Hspd
        & Hqt & Hqh & Hqs & Hc).
  exists p. split; [exact Hp|]. rewrite Hc.
  vm_compute in Hp. injection Hp as <-.
  vm_compute in Hraw. injection Hraw as <-.
  vm_compute in Hr. injection Hr as <-.
  vm_compute in Hhum. injection Hhum as <-.
  vm_compute in Hspd. injection Hspd as <-.
  vm_compute in Hqt. injection Hqt as <-.
  vm_compute in Hqh. injection Hqh as <-.
  vm_compute in Hqs. injection Hqs as <-.
  vm_compute. reflexivity.
Defined.

(** The payload for Guilin gives a record; a payload with nothing but a
    name makes the parser raise; in the sample zone, eight hours ahead of
    UTC, the first time accepted is 16:00:00 UTC on the first day of year
    1, which is midnight of the second day there, and the second before
    is refused. *)
Lemma parse_weather_data_domain_witness :
  (exists p,
     parse_weather_data sample_host (sample_payload "Guilin" (2246 # 100)) None
     = Ok (VDict p))
  /\ (exists e, parse_weather_data sample_host incomplete_payload None = Raise e)
  /\ is_timestamp sample_host (VInt (-62135539200)) = true
  /\ is_timestamp sample_host (VInt (-62135539201)) = false.
Proof.
  split; [|split; [|split]].
  - apply (proj2 (proj1 (parse_weather_data_domain sample_host
                           (sample_payload "Guilin" (2246 # 100)) None))).
    vm_compute. reflexivity.
  - apply (proj1 (proj2 (parse_weather_data_domain sample_host incomplete_payload
                           None)));
      vm_compute; reflexivity.
  - apply (proj2 (proj2 (proj2 (proj2 (parse_weather_data_domain sample_host
                                         incomplete_payload None))))
             28800 (VInt (-62135539200)));
      [reflexivity | lia |].
    eexists. split; [reflexivity|]. vm_compute. split; discriminate.
  - destruct (is_timestamp sample_host (VInt (-62135539201))) eqn:E; [|reflexivity].
    apply (proj2 (proj2 (proj2 (proj2 (parse_weather_data_domain sample_host
                                         incomplete_payload None))))
             28800 (VInt (-62135539201))) in E;
      [|reflexivity | lia].
    destruct E as (q & [= <-] & Hlo & _). vm_compute in Hlo. now destruct Hlo.
Defined.

(** The forecast for Atlantis (404), Busy (503) and Offline is [None];
    the forecast for Guilin is the payload written to the cache. *)
Lemma get_forecast_failures_witness :
  res (get_forecast sample_host (Some "Atlantis") None None sample_world) = Ok VNone
  /\ res (get_forecast sample_host (Some "Busy") None None sample_world) = Ok VNone
  /\ res (get_forecast sample_host (Some "Offline") None None sample_world) = Ok VNone
  /\ res (get_forecast sample_host (Some "Guilin") None None sample_world)
     = Ok (sample_payload "Guilin" (2246 # 100)).
Proof.
  split; [|split; [|split]].
  - pose proof (get_forecast_failures sample_host (Some "Atlantis") None None
                  sample_world) as H.
    cbv zeta in H. destruct H as (Hcode & _).
    destruct (Hcode sample_clock
                (forecast_request sample_host (Some "Atlantis") None None) 404
                (Some (VDict [("cod", VStr "404"); ("message", VStr "city not found")])))
      as (Hres & _).
    { in_trace. }
    { lia. }
    exact Hres.
  - pose proof (get_forecast_failures sample_host (Some "Busy") None None
                  sample_world) as H.
    cbv zeta in H. destruct H as (Hcode & _).
    destruct (Hcode sample_clock
                (forecast_request sample_host (Some "Busy") None None) 503 None)
      as (Hres & _).
    { in_trace. }
    { lia. }
    exact Hres.
  - pose proof (get_forecast_failures sample_host (Some "Offline") None None
                  sample_world) as H.
    cbv zeta in H. destruct H as (_ & Hnet & _).
    destruct (Hnet sample_clock
                (forecast_request sample_host (Some "Offline") None None)
                "Connection reset by peer")
      as (Hres & _).
    { in_trace. }
    exact Hres.
  - pose proof (get_forecast_failures sample_host (Some "Guilin") None None
                  sample_world) as H.
    cbv zeta in H. destruct H as (_ & _ & Hwrite).
    destruct (Hwrite (forecast_cache_file sample_host sample_world (Some "Guilin"))
                (sample_payload "Guilin" (2246 # 100)))
      as (_ & Hres).
    { in_trace. }
    exact Hres.
Defined.

(** Fetching Beijing leaves the cache file of Guilin as it was, and
    writes the payload it returns to the cache file of Beijing. *)
Lemma fetch_changes_own_file_only_witness :
  cache_dir (final (get_current_weather sample_host (Some "Beijing") None cached_world))
    !! current_cache_file sample_host cached_world (Some "Guilin")
  = cache_dir cached_world
      !! current_cache_file sample_host cached_world (Some "Guilin")
  /\ res (get_current_weather sample_host (Some "Beijing") None cached_world)
     = Ok (sample_payload "Beijing" (-35 # 10))
  /\ cache_dir (final (get_current_weather sample_host (Some "Beijing") None
                         cached_world))
       !! current_cache_file sample_host cached_world (Some "Beijing")
     = Some (File sample_clock (Json (sample_payload "Beijing" (-35 # 10)))).
Proof.
  pose proof (fetch_changes_own_file_only sample_host (Some "Beijing") None None
                cached_world) as H.
  cbv zeta in H. destruct H as ((_ & _ & _ & Hother & Hwrite) & _).
  split; [apply Hother; vm_compute; discriminate|].
  destruct (Hwrite (current_cache_file sample_host cached_world (Some "Beijing"))
              (sample_payload "Beijing" (-35 # 10))) as (_ & Hres & Hfile).
  { in_trace. }
  split; [exact Hres|exact Hfile].
Defined.

(** A payload saved at the sample time is loaded 59 minutes later, and
    no longer after the hour. *)
Lemma cache_round_trip_witness :
  res (_load_from_cache sample_host "0a1b2c3d" "current"
         (elapse (3540 * US_PER_SECOND)
            (final (_save_to_cache "0a1b2c3d" "current"
                      (sample_payload "Guilin" (2246 # 100)) sample_world))))
  = Ok (sample_payload "Guilin" (2246 # 100))
  /\ res (_load_from_cache sample_host "0a1b2c3d" "current"
            (elapse (3600 * US_PER_SECOND)
               (final (_save_to_cache "0a1b2c3d" "current"
                         (sample_payload "Guilin" (2246 # 100)) sample_world))))
     = Ok VNone.
Proof.
  split.
  - apply (proj1 (cache_round_trip sample_host "0a1b2c3d" "current"
                    (sample_payload "Guilin" (2246 # 100)) sample_world
                    (3540 * US_PER_SECOND) eq_refl eq_refl eq_refl eq_refl)).
    vm_compute. reflexivity.
  - apply (proj2 (cache_round_trip sample_host "0a1b2c3d" "current"
                    (sample_payload "Guilin" (2246 # 100)) sample_world
                    (3600 * US_PER_SECOND) eq_refl eq_refl eq_refl eq_refl)).
    vm_compute. discriminate.
Defined.

(** With caching off and a one-minute-old cache file for Guilin, Guilin
    is requested and the cache file is written over. *)
Lemma cache_disabled_still_writes_witness :
  count_requests (trace (get_current_weather uncached_host (Some "Guilin") None
                           cached_world)) = 1%nat
  /\ res (get_current_weather uncached_host (Some "Guilin") None cached_world)
     = Ok (sample_payload "Guilin" (2246 # 100))
  /\ cache_dir (final (get_current_weather uncached_host (Some "Guilin") None
                         cached_world))
       !! current_cache_file uncached_host cached_world (Some "Guilin")
     = Some (File sample_clock (Json (sample_payload "Guilin" (2246 # 100)))).
Proof.
  pose proof (cache_disabled_still_writes uncached_host (Some "Guilin") None
                cached_world eq_refl) as H.
  cbv zeta in H. destruct H as (Hcount & _ & Hwrite).
  destruct (Hwrite (sample_payload "Guilin" (2246 # 100))) as (Hres & Hfile);
    [vm_compute; reflexivity..|].
  split; [exact Hcount|]. split; [exact Hres|exact Hfile].
Defined.

(** With a window of zero hours, the one-minute-old cache file for
    Guilin is not used. *)
Lemma no_window_no_reuse_witness :
  count_requests (trace (get_current_weather zero_window_host (Some "Guilin") None
                           cached_world)) = 1%nat.
Proof.
  apply (proj1 (no_window_no_reuse zero_window_host (Some "Guilin") None None
                  cached_world ltac:(vm_compute; discriminate) eq_refl)).
  intros f Hf. vm_compute in Hf. injection Hf as <-. vm_compute. discriminate.
Defined.


(** A latitude of zero is replaced by the configured latitude, and an
    empty country in a forecast query by the configured country. *)
Lemma falsy_arguments_use_defaults_witness :
  get_weather_by_coordinates sample_host (Some (0 # 1)) None sample_world
  = get_weather_by_coordinates sample_host None None sample_world
  /\ get_forecast sample_host (Some "Beijing") (Some "") None sample_world
     = get_forecast sample_host (Some "Beijing") None None sample_world.
Proof.
  destruct (falsy_arguments_use_defaults sample_host (Some "Beijing") None None None
              None (0 # 1) sample_world eq_refl)
    as (Hlat & _ & _ & _ & _ & _ & Hcountry).
  split; [exact Hlat|exact Hcountry].
Defined.


(** Guilin, Nameless and Beijing on the server that answers Nameless
    with a name only: the comparison raises the parser's KeyError. *)
Lemma compare_cities_aborts_witness :
  res (compare_cities sample_host
         [city_entry "Guilin"; city_entry "Nameless"; city_entry "Beijing"]
         partial_world)
  = Raise (Exn KeyError "weather").
Proof.
  assert (exists rows, res (compare_cities sample_host [city_entry "Guilin"]
                              partial_world) = Ok rows) as (rows & Hrows)
    by (vm_compute; eexists; reflexivity).
  apply (compare_cities_aborts sample_host [city_entry "Guilin"]
           [city_entry "Beijing"] (city_entry "Nameless") partial_world rows
           (Exn KeyError "weather") Hrows).
  right. exists incomplete_payload.
  split; [vm_compute; reflexivity|]. split; vm_compute; reflexivity.
Defined.

(** At 22 degrees and 50 percent the index is the very-comfortable
    label; at 28 degrees and 20 percent, the fairly-comfortable one. *)
Lemma comfort_index_labels_witness :
  calculate_comfort_index 22 50 3 = "非常舒适"
  /\ calculate_comfort_index 28 20 3 = "较为舒适".
Proof.
  split.
  - apply (proj1 (comfort_index_labels 22%Q 50%Q 3%Q ltac:(discriminate))).
    vm_compute. repeat split.
  - apply (proj2 (comfort_index_labels 28%Q 20%Q 3%Q ltac:(discriminate))).
    vm_compute. split; [right; split; reflexivity|reflexivity].
Defined.

(** The sample configuration is accepted, without a line printed. *)
Lemma validate_accepts_witness :
  res (validate sample_config sample_world) = Ok true
  /\ trace (validate sample_config sample_world) = [].
Proof.
  pose proof (validate_accepts sample_config sample_world) as H.
  cbv zeta in H. destruct H as (Hiff & _ & Hquiet & _).
  assert (res (validate sample_config sample_world) = Ok true) as Hres.
  { apply Hiff. split; [|discriminate].
    exists "0123456789abcdef0123456789abcdef". split; reflexivity. }
  split; [exact Hres|exact (Hquiet Hres)].
Defined.

(** Xian is added to the six default cities and written to the preset
    file. *)
Lemma add_city_updates_witness :
  fst (add_city "xian" xian sample_session) = Ok true
  /\ preset_on_disk (snd (add_city "xian" xian sample_session))
     = Some (Json (presets (snd (add_city "xian" xian sample_session))))
  /\ exists d' cs',
       presets (snd (add_city "xian" xian sample_session)) = VDict d'
       /\ assoc "cities" d' = Some (VDict cs')
       /\ assoc "xian" cs' = Some xian
       /\ assoc "guilin" cs'
          = Some (preset "Guilin" "CN" (252741 # 10000) (1102993 # 10000) "桂林").
Proof.
  edestruct (add_city_updates "xian" xian sample_session)
    as (Hres & (d' & cs' & Hp & Hc & Hnew & Hold & _) & Hdisk & _);
    [reflexivity | reflexivity |].
  split; [exact Hres|]. split; [exact Hdisk|].
  exists d', cs'. split; [exact Hp|]. split; [exact Hc|]. split; [exact Hnew|].
  rewrite Hold; [reflexivity|discriminate].
Defined.

(** Over a preset file that holds a list, [add_city] returns [False]. *)
Lemma add_city_persists_witness :
  fst (add_city "xian" xian list_session) = Ok false
  /\ presets (snd (add_city "xian" xian list_session)) = VList [].
Proof.
  pose proof (add_city_persists "xian" xian list_session) as H.
  cbv zeta in H. destruct H as (_ & _ & Hnot & _).
  destruct Hnot as (Hres & Hp & _); [intros d; vm_compute; discriminate|].
  split; [exact Hres|]. rewrite Hp. reflexivity.
Defined.

(** There is no preset for atlantis, and the preset of nowhere is
    empty: both switches return [False]. *)
Lemma switch_city_unknown_witness :
  fst (switch_city sample_py_str "atlantis" sample_session) = Ok false
  /\ fst (switch_city sample_py_str "nowhere" odd_session) = Ok false
  /\ settings (snd (switch_city sample_py_str "nowhere" odd_session))
     = settings_of sample_config.
Proof.
  split; [|split].
  - erewrite (switch_city_unknown sample_py_str "atlantis" sample_session);
      [reflexivity | eexists; split; reflexivity | exact I].
  - erewrite (switch_city_unknown sample_py_str "nowhere" odd_session);
      [reflexivity | eexists; split; reflexivity | reflexivity].
  - erewrite (switch_city_unknown sample_py_str "nowhere" odd_session);
      [reflexivity | eexists; split; reflexivity | reflexivity].
Defined.

(** Switching to beijing assigns Beijing and returns [True]; when
    [config.py] cannot be written it returns [False] and Beijing is
    assigned all the same; a preset with a latitude only gets the id and CN. *)
Lemma switch_city_known_witness :
  (fst (switch_city sample_py_str "beijing" sample_session) = Ok true
   /\ set_CITY (settings (snd (switch_city sample_py_str "beijing" sample_session)))
      = VStr "Beijing")
  /\ (fst (switch_city sample_py_str "beijing" locked_session) = Ok false
      /\ set_CITY (settings (snd (switch_city sample_py_str "beijing" locked_session)))
         = VStr "Beijing"
      /\ config_py (snd (switch_city sample_py_str "beijing" locked_session)) = None)
  /\ settings (snd (switch_city sample_py_str "bare" odd_session))
     = {| set_CITY := VStr "bare"; set_COUNTRY := VStr "CN";
          set_LAT := VInt 1; set_LON := VInt 0;
          set_CITY_DISPLAY_NAME := VStr "bare" |}.
Proof.
  split; [|split].
  - edestruct (switch_city_known sample_py_str "beijing" sample_session)
      as (Hres & Hset & _);
      [eexists; split; reflexivity | reflexivity | discriminate |].
    split; [exact Hres|]. rewrite Hset. reflexivity.
  - edestruct (switch_city_known sample_py_str "beijing" locked_session)
      as (Hres & Hset & Hpy & _);
      [eexists; split; reflexivity | reflexivity | discriminate |].
    split; [exact Hres|]. split; [rewrite Hset; reflexivity|exact Hpy].
  - edestruct (switch_city_known sample_py_str "bare" odd_session)
      as (_ & Hset & _);
      [eexists; split; reflexivity | reflexivity | discriminate |].
    exact Hset.
Defined.

(** The preset of alias is a string: switching to it raises. *)
Lemma switch_city_raises_witness :
  exists e, switch_city sample_py_str "alias" odd_session = (Raise e, odd_session)
            /\ exn_type e = AttributeError.
Proof.
  apply (switch_city_raises sample_py_str "alias" odd_session
           [("nowhere", VDict []); ("alias", VStr "Guilin");
            ("bare", VDict [("lat", VInt 1)])]
           (VStr "Guilin")).
  - eexists. split; reflexivity.
  - reflexivity.
  - reflexivity.
  - discriminate.
Defined.

(** Xian added while the preset file cannot be written is found by
    [switch_city] all the same. *)
Lemma add_city_then_switch_witness :
  fst (add_city "xian" xian locked_session) = Ok false
  /\ set_CITY (settings (snd (switch_city sample_py_str "xian"
                                (snd (add_city "xian" xian locked_session)))))
     = VStr "Xian"
  /\ set_LAT (settings (snd (switch_city sample_py_str "xian"
                               (snd (add_city "xian" xian locked_session)))))
     = VFloat (342655 # 10000)
  /\ set_LON (settings (snd (switch_city sample_py_str "xian"
                               (snd (add_city "xian" xian locked_session)))))
     = VFloat (1089540 # 10000).
Proof.
  split; [reflexivity|].
  edestruct (add_city_then_switch sample_py_str "xian"
               [("name", VStr "Xian"); ("country", VStr "CN");
                ("lat", VFloat (342655 # 10000)); ("lon", VFloat (1089540 # 10000));
                ("display_name", VStr "西安")] locked_session)
    as (_ & Hcity & _ & Hlat & Hlon & _);
    [eexists; split; reflexivity | discriminate |].
  split; [exact Hcity|]. split; [exact Hlat|exact Hlon].
Defined.

(** The six default cities are listed, beijing first. *)
Lemma list_cities_entries_witness :
  exists l, list_cities sample_session = (Ok l, sample_session)
            /\ length l = 6%nat
            /\ exists e rest, l = VDict e :: rest
                              /\ assoc "id" e = Some (VStr "beijing")
                              /\ assoc "name" e = Some (VStr "Beijing").
Proof.
  edestruct (list_cities_entries sample_session) as (Hall & _);
    [eexists; split; reflexivity|].
  destruct Hall as (l & Hl & Hentries).
  { repeat (constructor;
            [eexists; split;
             [reflexivity
             |repeat (constructor; [cbn; intuition discriminate|]); constructor]|]).
    constructor. }
  exists l. split; [exact Hl|]. split.
  - apply Forall2_length in Hentries. rewrite <- Hentries. reflexivity.
  - inversion Hentries as [|kv entry items rest Hentry Hrest]; subst.
    destruct Hentry as (fields & e & Hf & -> & Hkeys).
    cbn [snd] in Hf. injection Hf as <-.
    exists e, rest. split; [reflexivity|].
    split; rewrite Hkeys; reflexivity.
Defined.

(** The sample server knows no coordinates: the query by coordinates
    gets a 404, reported with the status line, and [None]. *)
Lemma get_weather_by_coordinates_outcome_witness :
  res (get_weather_by_coordinates sample_host None None sample_world) = Ok VNone
  /\ In (EvPrint "❌ 坐标请求失败: 404")
        (trace (get_weather_by_coordinates sample_host None None sample_world)).
Proof.
  pose proof (get_weather_by_coordinates_outcome sample_host None None sample_world)
    as H.
  cbv zeta in H. destruct H as (_ & _ & _ & Hcode & _).
  destruct (Hcode 404
              (Some (VDict [("cod", VStr "404"); ("message", VStr "city not found")])))
    as (Hres & Hline); [vm_compute; reflexivity | lia |].
  split; [exact Hres|exact Hline].
Defined.

(** Guilin and Beijing compared twice from an empty cache: the second
    comparison gives the two rows of the first and sends no request. *)
Lemma compare_cities_twice_witness :
  exists rows,
    res (compare_cities sample_host [city_entry "Guilin"; city_entry "Beijing"]
           sample_world) = Ok rows
    /\ length rows = 2%nat
    /\ res (compare_cities sample_host [city_entry "Guilin"; city_entry "Beijing"]
              (final (compare_cities sample_host
                        [city_entry "Guilin"; city_entry "Beijing"] sample_world)))
       = Ok rows
    /\ count_requests
         (trace (compare_cities sample_host
                   [city_entry "Guilin"; city_entry "Beijing"]
                   (final (compare_cities sample_host
                             [city_entry "Guilin"; city_entry "Beijing"]
                             sample_world))))
       = 0%nat.
Proof.
  assert (exists rows,
            res (compare_cities sample_host
                   [city_entry "Guilin"; city_entry "Beijing"] sample_world) = Ok rows
            /\ length rows = 2%nat) as (rows & Hrows & Hlen)
    by (vm_compute; eexists; split; reflexivity).
  exists rows. split; [exact Hrows|]. split; [exact Hlen|].
  apply (compare_cities_twice sample_host
           [city_entry "Guilin"; city_entry "Beijing"] sample_world rows).
  - reflexivity.
  - reflexivity.
  - intros t _. reflexivity.
  - vm_compute. reflexivity.
  - vm_compute. reflexivity.
  - intros name f Hf. unfold sample_world in Hf. cbn [cache_dir] in Hf.
    rewrite lookup_empty in Hf. discriminate Hf.
  - exact Hrows.
  - exact Hlen.
Defined.
